(** * vallenae.io._database: the [Database] base class of pridb, tradb and trfdb

    A shallow embedding of [src/vallenae/io/_database.py].  The Python object
    and the SQLite engine behind it are modelled by explicit state passing:
    a method is a function from the state (the object's attributes, the files
    on disk and the log of engine calls) to an outcome (a value or a raised
    exception) and the state after it. *)

From Stdlib Require Import ZArith String Ascii List Lia Bool OrderedTypeEx.
From Stdlib Require Import DecimalString DecimalFacts DecimalPos DecimalN DecimalZ.
From stdpp Require Import base option list strings gmap.
Import ListNotations.

Local Open Scope string_scope.
Local Open Scope Z_scope.

(** ** Python values and exceptions *)

(** The exception classes the module raises or lets through.  [ValueError],
    [RuntimeError] and [KeyError] are Python's; [SyntaxError] is what
    [ast.literal_eval] raises on text that does not parse;
    [OperationalError] and [ProgrammingError] are [sqlite3]'s. *)
Inductive exn : Type :=
  | ValueError (msg : string)
  | RuntimeError (msg : string)
  | SyntaxError (msg : string)
  | KeyError (key : string)
  | OperationalError (msg : string)
  | ProgrammingError (msg : string).

(** What a call does: it returns a value or raises. *)
Inductive outcome (A : Type) : Type :=
  | Returns (a : A)
  | Raises (e : exn).
Arguments Returns {A} a.
Arguments Raises {A} e.

(** The values stored in a cell of an SQLite table, as [sqlite3] hands them to
    Python: [None], an [int] or a [str].  (REAL and BLOB cells are left out of
    the model, and an INTEGER, 64 bits wide in SQLite, is any integer here.) *)
Inductive sqlvalue : Type :=
  | SqlNull
  | SqlInteger (z : Z)
  | SqlText (s : string).

(** The values [literal_eval] produces, for the literal kinds of the model. *)
Inductive pyvalue : Type :=
  | PyNone
  | PyBool (b : bool)
  | PyInt (z : Z)
  | PyStr (s : string).

#[global] Instance sqlvalue_eq_dec : EqDecision sqlvalue.
Proof. solve_decision. Defined.

#[global] Instance pyvalue_eq_dec : EqDecision pyvalue.
Proof. solve_decision. Defined.

#[global] Instance sqlvalue_countable : Countable sqlvalue.
Proof.
  refine (inj_countable'
    (fun v => match v with
              | SqlNull => inl tt
              | SqlInteger z => inr (inl z)
              | SqlText s => inr (inr s)
              end)
    (fun x => match x with
              | inl _ => SqlNull
              | inr (inl z) => SqlInteger z
              | inr (inr s) => SqlText s
              end) _).
  intros []; reflexivity.
Defined.

(** ** Strings *)

(** [str(n)] for a Python [int]. *)
Definition str_of_int (z : Z) : string :=
  NilZero.string_of_int (Z.to_int z).

(** [str(v)] for a value read from a cell: [row[1]] in [globalinfo]. *)
Definition str (v : sqlvalue) : string :=
  match v with
  | SqlNull => "None"
  | SqlInteger z => str_of_int z
  | SqlText s => s
  end.

Definition is_upper (c : ascii) : bool :=
  let n := nat_of_ascii c in (65 <=? n)%nat && (n <=? 90)%nat.

Definition is_lower (c : ascii) : bool :=
  let n := nat_of_ascii c in (97 <=? n)%nat && (n <=? 122)%nat.

Definition is_digit (c : ascii) : bool :=
  let n := nat_of_ascii c in (48 <=? n)%nat && (n <=? 57)%nat.

Definition lower_char (c : ascii) : ascii :=
  if is_upper c then ascii_of_nat (nat_of_ascii c + 32) else c.


(** [s.lower()] and [s.upper()], on ASCII text (bytes outside A-Z / a-z are
    kept as they are). *)
Fixpoint lower (s : string) : string :=
  match s with
  | EmptyString => EmptyString
  | String c r => String (lower_char c) (lower r)
  end.


Fixpoint all_chars (p : ascii -> bool) (s : string) : bool :=
  match s with
  | EmptyString => true
  | String c r => p c && all_chars p r
  end.

(** ** [str.lower()]

    A [string] holds the UTF-8 bytes of a Python [str].  On text that is ASCII
    throughout, [str.lower()] turns the letters A-Z into a-z and keeps every
    other character.  On any other text it follows the Unicode tables of the
    interpreter, which the development does not hold: what it gives there is
    the parameter [unicode_lower]. *)
Definition is_ascii (s : string) : bool :=
  all_chars (fun c => (nat_of_ascii c <? 128)%nat) s.

Class Runtime : Type := { unicode_lower : string -> string }.

Definition str_lower {RT : Runtime} (s : string) : string :=
  if is_ascii s then lower s else unicode_lower s.

(** [s.split(c)]. *)
Fixpoint split_on (c : ascii) (s : string) : list string :=
  match s with
  | EmptyString => [EmptyString]
  | String a r =>
      if Ascii.eqb a c then EmptyString :: split_on c r
      else match split_on c r with
           | h :: t => String a h :: t
           | [] => [String a EmptyString]
           end
  end.

(** [s.rfind(c)]: the index of the last [c] in [s], or -1. *)
Fixpoint rfind (c : ascii) (s : string) : Z :=
  match s with
  | EmptyString => -1
  | String a r =>
      let i := rfind c r in
      if 0 <=? i then i + 1
      else if Ascii.eqb a c then 0 else -1
  end.

Definition len (s : string) : Z := Z.of_nat (String.length s).

(** [s[i:]] for [0 <= i]. *)
Definition slice_from (i : Z) (s : string) : string :=
  substring (Z.to_nat i) (String.length s - Z.to_nat i) s.

(** ** pathlib: [Path(filename).suffix] (POSIX flavour)

    The parts of a path are what lies between the slashes, without the empty
    ones and the single dots; the name is the last part, and the suffix is the
    name from its last dot on, when that dot is neither the first nor the last
    character of the name. *)
Definition path_parts (filename : string) : list string :=
  List.filter (fun p => negb (String.eqb p "" || String.eqb p "."))
              (split_on "/" filename).

Definition path_name (filename : string) : string :=
  List.last (path_parts filename) "".

Definition path_suffix (filename : string) : string :=
  let name := path_name filename in
  let i := rfind "." name in
  if (0 <? i) && (i <? len name - 1) then slice_from i name else "".


(** ** The SQLite engine

    A database file is its catalogue of tables; a table is its column names and
    its rows, each row with its rowid.  Identifiers (table and column names)
    are compared without regard to ASCII case, as SQLite does. *)

Record row : Type := { rowid : Z; cells : list sqlvalue }.

Record table : Type := { table_columns : list string; table_rows : list row }.

Definition database : Type := list (string * table).

Definition ident_eqb (a b : string) : bool := String.eqb (lower a) (lower b).
Arguments ident_eqb : simpl never.

Definition find_table (db : database) (name : string) : option table :=
  option_map snd (List.find (fun nt => ident_eqb (fst nt) name) db).

Fixpoint update_table (db : database) (name : string) (t : table) : database :=
  match db with
  | [] => []
  | (n, t0) :: rest =>
      if ident_eqb n name then (n, t) :: rest
      else (n, t0) :: update_table rest name t
  end.

Fixpoint column_index (cols : list string) (name : string) : option nat :=
  match cols with
  | [] => None
  | c :: rest =>
      if ident_eqb c name then Some 0%nat
      else option_map S (column_index rest name)
  end.

(** The cell of a row in column [i]; a row shorter than the table reads NULL
    there. *)
Definition cell (i : nat) (r : row) : sqlvalue := nth i (cells r) SqlNull.

(** A row as [SELECT *] gives it: one value for each column of the table. *)
Definition full_row (t : table) (r : row) : list sqlvalue :=
  map (fun i => cell i r) (seq 0 (length (table_columns t))).

Definition set_cell (i : nat) (v : sqlvalue) (r : row) : row :=
  {| rowid := rowid r;
     cells := <[i := v]> (cells r ++ replicate (S i - length (cells r)) SqlNull)%list |}.

(** SQLite's order on values: NULL, then the integers, then text in byte
    order. *)
Definition sql_lt (a b : sqlvalue) : bool :=
  match a, b with
  | SqlNull, SqlNull => false
  | SqlNull, _ => true
  | SqlInteger _, SqlNull => false
  | SqlInteger x, SqlInteger y => x <? y
  | SqlInteger _, SqlText _ => true
  | SqlText s, SqlText t => String.ltb s t
  | SqlText _, _ => false
  end.

(** The aggregate [MAX]: the largest value that is not NULL, and NULL when
    there is none. *)
Definition sql_max (vs : list sqlvalue) : sqlvalue :=
  fold_left (fun acc v =>
               match v, acc with
               | SqlNull, _ => acc
               | _, SqlNull => v
               | _, _ => if sql_lt acc v then v else acc
               end) vs SqlNull.

(** [a == b] in a WHERE clause: NULL is equal to nothing. *)
Definition sql_eqb (a b : sqlvalue) : bool :=
  match a, b with
  | SqlNull, _ | _, SqlNull => false
  | _, _ => bool_decide (a = b)
  end.

(** What the subquery of the two UPDATE statements aggregates. *)
Inductive aggregate : Type :=
  | MAX_rowid
  | MAX_column (name : string).

(** The statements the module sends, by shape.  The source puts the table
    names into the SQL text with f-strings; a statement here is what SQLite
    reads when the prefix is a plain identifier ([plain_prefix] below), and the
    statements about the methods that send one are for such prefixes.  The
    engine is modelled for tables with rowids, with the binary collation, and
    without views and triggers; the declared type of a column is not in the
    model (it may keep the text of an integer in place of the integer, which
    [str] does not tell apart). *)
Inductive statement : Type :=
  | SELECT_name_FROM_sqlite_master          (* ... WHERE type == 'table' *)
  | SELECT_COUNT (tbl : string)             (* SELECT COUNT( * ) FROM tbl *)
  | SELECT_all_LIMIT_0 (tbl : string)       (* SELECT * FROM tbl LIMIT 0 *)
  | SELECT_Key_Value (tbl : string)         (* SELECT Key, Value FROM tbl *)
  | UPDATE_globalinfo (prefix : string) (agg : aggregate) (key : string)
      (* UPDATE prefix_globalinfo SET Value = (SELECT agg FROM prefix_data)
         WHERE Key == "key" *)
  | SELECT_all (tbl : string).              (* SELECT * FROM tbl *)

Definition is_select (q : statement) : bool :=
  match q with
  | UPDATE_globalinfo _ _ _ => false
  | _ => true
  end.

(** A cursor after [execute]: [description] and what [fetchall] gives. *)
Record cursor : Type := { description : list string; fetchall : list (list sqlvalue) }.

Definition no_such_table (name : string) : exn :=
  OperationalError ("no such table: " +:+ name).

Definition no_such_column (name : string) : exn :=
  OperationalError ("no such column: " +:+ name).

Definition eval_aggregate (agg : aggregate) (data : table) : outcome sqlvalue :=
  match agg with
  | MAX_rowid => Returns (sql_max (map (fun r => SqlInteger (rowid r)) (table_rows data)))
  | MAX_column c =>
      match column_index (table_columns data) c with
      | Some i => Returns (sql_max (map (cell i) (table_rows data)))
      | None => Raises (no_such_column c)
      end
  end.

(** What [SELECT Key, Value] gives for one row. *)
Definition key_value (ik iv : nat) (r : row) : list sqlvalue := [cell ik r; cell iv r].

(** A SELECT: the cursor it leaves. *)
Definition run_select (db : database) (q : statement) : outcome cursor :=
  match q with
  | SELECT_name_FROM_sqlite_master =>
      Returns {| description := ["name"];
                 fetchall := map (fun nt => [SqlText (fst nt)]) db |}
  | SELECT_COUNT tbl =>
      match find_table db tbl with
      | Some t =>
          Returns {| description := ["COUNT(*)"];
                     fetchall := [[SqlInteger (Z.of_nat (length (table_rows t)))]] |}
      | None => Raises (no_such_table tbl)
      end
  | SELECT_all_LIMIT_0 tbl =>
      match find_table db tbl with
      | Some t => Returns {| description := table_columns t; fetchall := [] |}
      | None => Raises (no_such_table tbl)
      end
  | SELECT_Key_Value tbl =>
      match find_table db tbl with
      | Some t =>
          match column_index (table_columns t) "Key",
                column_index (table_columns t) "Value" with
          | Some ik, Some iv =>
              Returns {| description := ["Key"; "Value"];
                         fetchall := map (key_value ik iv) (table_rows t) |}
          | None, _ => Raises (no_such_column "Key")
          | _, None => Raises (no_such_column "Value")
          end
      | None => Raises (no_such_table tbl)
      end
  | SELECT_all tbl =>
      match find_table db tbl with
      | Some t =>
          Returns {| description := table_columns t;
                     fetchall := map (full_row t) (table_rows t) |}
      | None => Raises (no_such_table tbl)
      end
  | UPDATE_globalinfo _ _ _ => Returns {| description := []; fetchall := [] |}
  end.

(** [SET Value = v WHERE Key == "key"], on one row. *)
Definition update_row (ik iv : nat) (key : string) (v : sqlvalue) (r : row) : row :=
  if sql_eqb (cell ik r) (SqlText key) then set_cell iv v r else r.

Definition update_rows (ik iv : nat) (key : string) (v : sqlvalue) (g : table) : table :=
  {| table_columns := table_columns g;
     table_rows := map (update_row ik iv key v) (table_rows g) |}.

(** The UPDATE: every row of [prefix_globalinfo] whose Key is the text [key]
    gets the aggregate over [prefix_data] as its Value.  The double-quoted
    ["key"] of the statement is read as a string literal, SQLite's rule when
    the table has no column of that name, and [rowid] as the row identifier,
    its rule when the data table declares no column of that name: the schema
    [summary_schema] below, for which the statements about the recompute are
    made. *)
Definition run_update (db : database) (prefix : string) (agg : aggregate)
    (key : string) : outcome database :=
  let gname := prefix +:+ "_globalinfo" in
  match find_table db gname with
  | None => Raises (no_such_table gname)
  | Some g =>
      match column_index (table_columns g) "Value" with
      | None => Raises (no_such_column "Value")
      | Some iv =>
          match find_table db (prefix +:+ "_data") with
          | None => Raises (no_such_table (prefix +:+ "_data"))
          | Some data =>
              match eval_aggregate agg data with
              | Raises e => Raises e
              | Returns v =>
                  match column_index (table_columns g) "Key" with
                  | None => Raises (no_such_column "Key")
                  | Some ik =>
                      Returns (update_table db gname (update_rows ik iv key v g))
                  end
              end
          end
      end
  end.

(** *** Opening a database by URI

    [sqlite3.connect(uri, uri=True)] hands the text to SQLite with the flags
    READWRITE and CREATE.  SQLite drops the scheme and the authority, reads
    the path up to the first [?], the options between [&] from there, and
    nothing from the first [#] on.  Each [mode] option replaces the access
    flags, unless it asks for more than the flags so far allow.  (Percent
    escapes are not decoded and the options other than [mode] are not
    interpreted by the model.) *)

Fixpoint split_first (c : ascii) (s : string) : string * option string :=
  match s with
  | EmptyString => (EmptyString, None)
  | String a r =>
      if Ascii.eqb a c then (EmptyString, Some r)
      else let (h, t) := split_first c r in (String a h, t)
  end.

Fixpoint strip_prefix (pre s : string) : option string :=
  match pre, s with
  | EmptyString, _ => Some s
  | String a p, String b r => if Ascii.eqb a b then strip_prefix p r else None
  | String _ _, EmptyString => None
  end.

Definition SQLITE_OPEN_READONLY : Z := 1.
Definition SQLITE_OPEN_READWRITE : Z := 2.
Definition SQLITE_OPEN_CREATE : Z := 4.
Definition SQLITE_OPEN_MEMORY : Z := 128.

Definition access_mask : Z :=
  Z.lor (Z.lor SQLITE_OPEN_READONLY SQLITE_OPEN_READWRITE)
        (Z.lor SQLITE_OPEN_CREATE SQLITE_OPEN_MEMORY).

Definition access_mode (v : string) : option Z :=
  if String.eqb v "ro" then Some SQLITE_OPEN_READONLY
  else if String.eqb v "rw" then Some SQLITE_OPEN_READWRITE
  else if String.eqb v "rwc" then Some (Z.lor SQLITE_OPEN_READWRITE SQLITE_OPEN_CREATE)
  else if String.eqb v "memory" then Some SQLITE_OPEN_MEMORY
  else None.

(** One option [key=value] (or [key] alone) of the query part. *)
Definition uri_option (flags : Z) (opt : string) : outcome Z :=
  let (key, value) := split_first "=" opt in
  if String.eqb key "mode" then
    let v := default "" value in
    match access_mode v with
    | None => Raises (OperationalError ("no such access mode: " +:+ v))
    | Some m =>
        if Z.ldiff m SQLITE_OPEN_MEMORY >? Z.land access_mask flags
        then Raises (OperationalError ("access mode not allowed: " +:+ v))
        else Returns (Z.lor (Z.ldiff flags access_mask) m)
    end
  else Returns flags.

Fixpoint uri_options (flags : Z) (opts : list string) : outcome Z :=
  match opts with
  | [] => Returns flags
  | o :: rest =>
      match uri_option flags o with
      | Returns flags' => uri_options flags' rest
      | Raises e => Raises e
      end
  end.

(** The file name and the flags SQLite opens with. *)
Definition sqlite3ParseUri (flags : Z) (uri : string) : outcome (string * Z) :=
  match strip_prefix "file:" uri with
  | None => Returns (uri, flags)
  | Some rest =>
      let after_authority :=
        match strip_prefix "//" rest with
        | None => Returns rest
        | Some r =>
            let (authority, tail) := split_first "/" r in
            if String.eqb authority "" || String.eqb authority "localhost"
            then Returns (match tail with Some t => String "/" t | None => "" end)
            else Raises (OperationalError ("invalid uri authority: " +:+ authority))
        end in
      match after_authority with
      | Raises e => Raises e
      | Returns body =>
          let (main, _) := split_first "#" body in
          let (path, query) := split_first "?" main in
          match uri_options flags (split_on "&" (default "" query)) with
          | Raises e => Raises e
          | Returns flags' => Returns (path, flags')
          end
      end
  end.

(** A file name the URI keeps as it is, and that names a file: not empty,
    without [?], [#] and [%], not starting with two slashes, not the name
    [:memory:] of the in-memory database, and without the NUL character, which
    [sqlite3.connect] refuses. *)
Definition uri_plain (filename : string) : bool :=
  negb (String.eqb filename "")
  && all_chars (fun c => negb (Ascii.eqb c "?" || Ascii.eqb c "#" || Ascii.eqb c "%"))
               filename
  && negb (bool_decide (is_Some (strip_prefix "//" filename)))
  && negb (String.eqb filename ":memory:")
  && all_chars (fun c => negb (Ascii.eqb c "000")) filename.

(** A connection object: the file it is on ([None] for a private temporary or
    in-memory database), whether it may write, the settings made by PRAGMA,
    the content its statements see (what is committed and what is pending),
    and whether [close] was called on it. *)
Record Connection : Type := {
  conn_file : option string;
  conn_writable : bool;
  check_same_thread : bool;
  conn_pragmas : list (string * string);
  conn_data : database;
  conn_closed : bool
}.

Definition unable_to_open : exn := OperationalError "unable to open database file".

(** [sqlite3.connect(uri, uri=True, check_same_thread=cst)] on the files
    [files]: the connection, and the files afterwards (a missing file is
    created, empty, when the flags have CREATE).  The empty path is a private
    temporary database, and the path [:memory:] and the mode [memory] an
    in-memory one: no file is behind them, and they may be written unless the
    flags say READONLY.  [files] holds the tables of each database file under
    the path it is opened by (paths are not normalised), and not the journal
    files the engine keeps beside it. *)
Definition sqlite3_connect (files : gmap string database) (uri : string)
    (cst : bool) : outcome Connection * gmap string database :=
  match sqlite3ParseUri (Z.lor SQLITE_OPEN_READWRITE SQLITE_OPEN_CREATE) uri with
  | Raises e => (Raises e, files)
  | Returns (path, flags) =>
      let fresh f w d :=
        {| conn_file := f; conn_writable := w; check_same_thread := cst;
           conn_pragmas := []; conn_data := d; conn_closed := false |} in
      let writable := Z.testbit flags 1 in
      if Z.testbit flags 7 || String.eqb path "" || String.eqb path ":memory:" then
        (Returns (fresh None (negb (Z.testbit flags 0)) []), files)
      else
        match files !! path with
        | Some db => (Returns (fresh (Some path) writable db), files)
        | None =>
            if Z.testbit flags 2
            then (Returns (fresh (Some path) writable []), <[path := []]> files)
            else (Raises unable_to_open, files)
        end
  end.

(** ** The object and the world around it *)

(** The attributes of a [Database] object.  [_connection] is [None] until
    [__init__] has connected. *)
Record Database : Type := {
  _filename : string;
  _readonly : bool;
  _connected : bool;
  _connection : option Connection;
  _table_prefix : string;
  _table_main : string;
  _table_fieldinfo : string;
  _table_globalinfo : string;
  _table_params : string
}.

(** The calls made on the engine, in the order they were made. *)
Inductive engine_call : Type :=
  | Call_connect (uri : string) (cst : bool)
  | Call_executescript (settings : list (string * string))
  | Call_execute (q : statement)
  | Call_commit
  | Call_close.

(** The state a method runs in: the object, the database files on disk, and
    the engine calls so far (oldest first). *)
Record state : Type := {
  self : Database;
  files : gmap string database;
  calls : list engine_call
}.

Definition M (A : Type) : Type := state -> outcome A * state.

Definition ret {A} (a : A) : M A := fun st => (Returns a, st).

Definition raise {A} (e : exn) : M A := fun st => (Raises e, st).

Definition bind {A B} (m : M A) (k : A -> M B) : M B :=
  fun st =>
    match m st with
    | (Returns a, st') => k a st'
    | (Raises e, st') => (Raises e, st')
    end.

Declare Scope py_scope.
Delimit Scope py_scope with py.
Notation "x <- m ;; k" := (bind m (fun x => k))
  (at level 100, m at next level, k at level 200, right associativity) : py_scope.
Notation "m ;;; k" := (bind m (fun _ => k))
  (at level 100, k at level 200, right associativity) : py_scope.
Local Open Scope py_scope.

(** The state with another object, with one more engine call, with other
    files. *)
Definition with_object (o : Database) (st : state) : state :=
  {| self := o; files := files st; calls := calls st |}.

Definition logged (c : engine_call) (st : state) : state :=
  {| self := self st; files := files st; calls := calls st ++ [c] |}.

Definition with_files (fs : gmap string database) (st : state) : state :=
  {| self := self st; files := fs; calls := calls st |}.

Definition get_self : M Database := fun st => (Returns (self st), st).

Definition set_self (f : Database -> Database) : M unit :=
  fun st => (Returns tt, with_object (f (self st)) st).

Definition log (c : engine_call) : M unit :=
  fun st => (Returns tt, logged c st).

Definition set_connected (b : bool) (o : Database) : Database :=
  {| _filename := _filename o; _readonly := _readonly o; _connected := b;
     _connection := _connection o; _table_prefix := _table_prefix o;
     _table_main := _table_main o; _table_fieldinfo := _table_fieldinfo o;
     _table_globalinfo := _table_globalinfo o; _table_params := _table_params o |}.

Definition set_connection (c : option Connection) (o : Database) : Database :=
  {| _filename := _filename o; _readonly := _readonly o; _connected := _connected o;
     _connection := c; _table_prefix := _table_prefix o;
     _table_main := _table_main o; _table_fieldinfo := _table_fieldinfo o;
     _table_globalinfo := _table_globalinfo o; _table_params := _table_params o |}.

Definition set_filename (f : string) (ro : bool) (o : Database) : Database :=
  {| _filename := f; _readonly := ro; _connected := _connected o;
     _connection := _connection o; _table_prefix := _table_prefix o;
     _table_main := _table_main o; _table_fieldinfo := _table_fieldinfo o;
     _table_globalinfo := _table_globalinfo o; _table_params := _table_params o |}.

Definition set_tables (prefix : string) (o : Database) : Database :=
  {| _filename := _filename o; _readonly := _readonly o; _connected := _connected o;
     _connection := _connection o; _table_prefix := prefix;
     _table_main := prefix +:+ "_data";
     _table_fieldinfo := prefix +:+ "_fieldinfo";
     _table_globalinfo := prefix +:+ "_globalinfo";
     _table_params := prefix +:+ "_params" |}.

Definition with_data (d : database) (c : Connection) : Connection :=
  {| conn_file := conn_file c; conn_writable := conn_writable c;
     check_same_thread := check_same_thread c; conn_pragmas := conn_pragmas c;
     conn_data := d; conn_closed := conn_closed c |}.

Definition with_pragmas (p : list (string * string)) (c : Connection) : Connection :=
  {| conn_file := conn_file c; conn_writable := conn_writable c;
     check_same_thread := check_same_thread c; conn_pragmas := p;
     conn_data := conn_data c; conn_closed := conn_closed c |}.

Definition closed_connection (c : Connection) : Connection :=
  {| conn_file := conn_file c; conn_writable := conn_writable c;
     check_same_thread := check_same_thread c; conn_pragmas := conn_pragmas c;
     conn_data := conn_data c; conn_closed := true |}.

(** *** The methods of [sqlite3.Connection], on the object's [_connection] *)

Definition closed_database : exn :=
  ProgrammingError "Cannot operate on a closed database.".

(** The connection the object holds, when it is still open at the engine. *)
Definition open_connection : M Connection :=
  fun st =>
    match _connection (self st) with
    | Some c => if conn_closed c then (Raises closed_database, st) else (Returns c, st)
    | None => (Raises closed_database, st)
    end.

Definition connect (uri : string) (cst : bool) : M Connection :=
  fun st =>
    let (r, files') := sqlite3_connect (files st) uri cst in
    (r, with_files files' (logged (Call_connect uri cst) st)).

(** [executescript] with the write-mode settings of [__init__], of which
    [journal_mode = WAL] is the first: a connection that may not write to its
    file refuses it, and nothing is set.  (The journal mode of a file is not in
    the model: a read-only connection to a file that is in WAL mode already
    accepts the script.  [__init__] runs it on a connection it opened with
    [mode=rw].) *)
Definition executescript (settings : list (string * string)) : M unit :=
  log (Call_executescript settings) ;;;
  c <- open_connection ;;
  if conn_writable c || bool_decide (conn_file c = None)
  then set_self (set_connection (Some (with_pragmas settings c)))
  else raise (OperationalError "attempt to write a readonly database").

(** [execute]: a SELECT leaves its cursor; the UPDATE changes what the
    connection sees, pending until [commit]. *)
Definition execute (q : statement) : M cursor :=
  log (Call_execute q) ;;;
  c <- open_connection ;;
  match q with
  | UPDATE_globalinfo prefix agg key =>
      match run_update (conn_data c) prefix agg key with
      | Raises e => raise e
      | Returns db' =>
          if conn_writable c then
            set_self (set_connection (Some (with_data db' c))) ;;;
            ret {| description := []; fetchall := [] |}
          else raise (OperationalError "attempt to write a readonly database")
      end
  | _ =>
      match run_select (conn_data c) q with
      | Raises e => raise e
      | Returns cur => ret cur
      end
  end.

(** [commit]: what the connection sees becomes the content of its file. *)
Definition commit : M unit :=
  log Call_commit ;;;
  c <- open_connection ;;
  match conn_file c with
  | Some path =>
      if conn_writable c then
        fun st => (Returns tt, with_files (<[path := conn_data c]> (files st)) st)
      else ret tt
  | None => ret tt
  end.

(** [close]: the connection is closed at the engine; what was pending and not
    committed never reaches the file. *)
Definition connection_close : M unit :=
  log Call_close ;;;
  o <- get_self ;;
  match _connection o with
  | Some c => set_self (set_connection (Some (closed_connection c)))
  | None => ret tt
  end.

(** ** [ast.literal_eval]

    The standard library's evaluator of literals, for the texts the model
    reads by itself: after leading blanks and tabs, a decimal integer with an
    optional sign, or a single name.  A name is a value when it is [None],
    [True] or [False], a syntax error when it is a keyword, and otherwise a
    node that is no literal, which [literal_eval] refuses with [ValueError].
    What it does on any other text is the parameter [literal_eval_other] of
    the development.  (The interpreter's limit on the number of digits of an
    integer literal is not modelled.) *)

Definition is_blank (c : ascii) : bool := Ascii.eqb c " " || Ascii.eqb c "009".

Fixpoint lstrip (s : string) : string :=
  match s with
  | String c r => if is_blank c then lstrip r else s
  | EmptyString => s
  end.

Definition is_name_start (c : ascii) : bool :=
  is_upper c || is_lower c || Ascii.eqb c "_".

Definition is_identifier (s : string) : bool :=
  match s with
  | EmptyString => false
  | String c r => is_name_start c && all_chars (fun a => is_name_start a || is_digit a) r
  end.

Definition keywords : list string :=
  ["and"; "as"; "assert"; "async"; "await"; "break"; "class"; "continue";
   "def"; "del"; "elif"; "else"; "except"; "finally"; "for"; "from"; "global";
   "if"; "import"; "in"; "is"; "lambda"; "nonlocal"; "not"; "or"; "pass";
   "raise"; "return"; "try"; "while"; "with"; "yield"].

(** The sign in front of a number, if there is one, and what follows it. *)
Definition split_sign (t : string) : option bool * string :=
  match t with
  | String c r =>
      if Ascii.eqb c "-" then (Some true, r)
      else if Ascii.eqb c "+" then (Some false, r)
      else (None, t)
  | EmptyString => (None, t)
  end.

(** A decimal literal starts with a digit other than 0, or is all zeros. *)
Definition leading_zeros_ok (digits : string) : bool :=
  match digits with
  | String c r => negb (Ascii.eqb c "0") || all_chars (Ascii.eqb "0") r
  | EmptyString => true
  end.

Definition malformed_node : exn := ValueError "malformed node or string".

Section Interpreter.

Variable literal_eval_other : string -> outcome pyvalue.
Context {RT : Runtime}.

Definition literal_eval (node_or_string : string) : outcome pyvalue :=
  let t := lstrip node_or_string in
  let (sign, digits) := split_sign t in
  match NilZero.uint_of_string digits with
  | Some u =>
      if leading_zeros_ok digits then
        Returns (PyInt (match sign with
                        | Some true => - Z.of_uint u
                        | _ => Z.of_uint u
                        end))
      else Raises (SyntaxError
                     "leading zeros in decimal integer literals are not permitted")
  | None =>
      match sign with
      | Some _ => literal_eval_other t
      | None =>
          if String.eqb t "" then Raises (SyntaxError "invalid syntax")
          else if is_identifier t then
            if String.eqb t "None" then Returns PyNone
            else if String.eqb t "True" then Returns (PyBool true)
            else if String.eqb t "False" then Returns (PyBool false)
            else if existsb (String.eqb t) keywords
                 then Raises (SyntaxError "invalid syntax")
                 else Raises malformed_node
          else literal_eval_other t
      end
  end.

(** ** class Database *)

Definition read_only_mode : exn :=
  ValueError
    "Can not write to database in read-only mode. Open database with readonly=False".

Definition not_connected : exn := RuntimeError "Not connected to SQLite database".

(** The decorator: a method that writes refuses to start on a read-only
    object. *)
Definition require_write_access {A} (func : M A) : M A :=
  o <- get_self ;;
  if _readonly o then raise read_only_mode else func.

(** [connection()]: the connection object, unless the object is closed.  The
    object holds one connection, so the reference it returns is left implicit:
    the engine methods act on [_connection]. *)
Definition connection : M unit :=
  o <- get_self ;;
  if negb (_connected o) then raise not_connected else ret tt.

(** [tables()]: the names in the catalogue, as a set. *)
Definition tables : M (gset string) :=
  connection ;;;
  cur <- execute SELECT_name_FROM_sqlite_master ;;
  ret (list_to_set (omap (fun result => match nth 0 result SqlNull with
                                         | SqlText n => Some n
                                         | _ => None
                                         end) (fetchall cur))).

(** The object before [__init__] has run. *)
Definition blank_object : Database :=
  {| _filename := ""; _readonly := true; _connected := false; _connection := None;
     _table_prefix := ""; _table_main := ""; _table_fieldinfo := "";
     _table_globalinfo := ""; _table_params := "" |}.

Definition write_mode_pragmas : list (string * string) :=
  [("journal_mode", "WAL"); ("locking_mode", "EXCLUSIVE"); ("synchronous", "OFF")].

Definition extension_mismatch (file_ext required_file_ext : string) : exn :=
  ValueError ("File extension '" +:+ file_ext +:+ "' must match '"
              +:+ required_file_ext +:+ "'").

Definition main_table_missing (table_main : string) : exn :=
  ValueError ("Main table '" +:+ table_main +:+ "' does not exist in database").

Definition __init__ (filename table_prefix : string) (readonly : bool)
    (required_file_ext : option string) : M unit :=
  set_self (set_filename filename readonly) ;;;
  match required_file_ext with
  | Some ext =>
      let file_ext := slice_from 1 (path_suffix filename) in
      if negb (String.eqb (str_lower file_ext) (str_lower ext))
      then raise (extension_mismatch file_ext ext)
      else ret tt
  | None => ret tt
  end ;;;
  set_self (set_connected false) ;;;
  con <- connect ("file:" +:+ filename +:+ "?mode="
                  +:+ (if readonly then "ro" else "rw"))
                 (negb readonly) ;;
  set_self (set_connection (Some con)) ;;;
  set_self (set_connected true) ;;;
  (if negb readonly then executescript write_mode_pragmas else ret tt) ;;;
  set_self (set_tables table_prefix) ;;;
  o <- get_self ;;
  names <- tables ;;
  if bool_decide (_table_main o ∉ names)
  then raise (main_table_missing (_table_main o))
  else ret tt.

(** [Database(filename, table_prefix=..., readonly=..., required_file_ext=...)]
    on the files [fs]: what the construction does and the state it leaves. *)
Definition new_Database (fs : gmap string database) (filename table_prefix : string)
    (readonly : bool) (required_file_ext : option string) : outcome unit * state :=
  __init__ filename table_prefix readonly required_file_ext
    {| self := blank_object; files := fs; calls := [] |}.

(** The object as [__init__] leaves it when it has connected, on the
    connection [c]. *)
Definition constructed (filename table_prefix : string) (readonly : bool)
    (c : Connection) : Database :=
  {| _filename := filename; _readonly := readonly; _connected := true;
     _connection := Some c; _table_prefix := table_prefix;
     _table_main := table_prefix +:+ "_data";
     _table_fieldinfo := table_prefix +:+ "_fieldinfo";
     _table_globalinfo := table_prefix +:+ "_globalinfo";
     _table_params := table_prefix +:+ "_params" |}.

(** The URI [__init__] connects to. *)
Definition uri_of (filename : string) (readonly : bool) : string :=
  "file:" +:+ filename +:+ "?mode=" +:+ (if readonly then "ro" else "rw").

(** The extension requirement, when there is one, is met. *)
Definition extension_ok (filename : string) (required_file_ext : option string) : Prop :=
  match required_file_ext with
  | Some ext => str_lower (slice_from 1 (path_suffix filename)) = str_lower ext
  | None => True
  end.

(** The properties. *)
Definition filename : M string := o <- get_self ;; ret (_filename o).
Definition readonly : M bool := o <- get_self ;; ret (_readonly o).
Definition connected : M bool := o <- get_self ;; ret (_connected o).

(** [rows()]: the number of rows of the data table. *)
Definition rows : M sqlvalue :=
  connection ;;;
  o <- get_self ;;
  cur <- execute (SELECT_COUNT (_table_main o)) ;;
  ret (nth 0 (nth 0 (fetchall cur) []) SqlNull).

(** [columns()]: the columns of the data table. *)
Definition columns : M (list string) :=
  connection ;;;
  o <- get_self ;;
  cur <- execute (SELECT_all_LIMIT_0 (_table_main o)) ;;
  ret (description cur).

Definition try_convert_string (value : string) : outcome pyvalue :=
  match literal_eval value with
  | Raises (SyntaxError _) => Returns (PyStr value)
  | r => r
  end.

(** The row's Value converts: no exception leaves [try_convert_string] on
    it. *)
Definition decodes (iv : nat) (r : row) : Prop :=
  exists v, try_convert_string (str (cell iv r)) = Returns v.

(** The dict comprehension of [globalinfo]: row after row, the key and the
    converted value; a conversion that raises ends it. *)
Fixpoint globalinfo_dict (fetched : list (list sqlvalue))
    (d : gmap sqlvalue pyvalue) : outcome (gmap sqlvalue pyvalue) :=
  match fetched with
  | [] => Returns d
  | r :: rest =>
      match try_convert_string (str (nth 1 r SqlNull)) with
      | Returns v => globalinfo_dict rest (<[nth 0 r SqlNull := v]> d)
      | Raises e => Raises e
      end
  end.

(** [globalinfo()]: the content of the globalinfo table. *)
Definition globalinfo : M (gmap sqlvalue pyvalue) :=
  connection ;;;
  o <- get_self ;;
  cur <- execute (SELECT_Key_Value (_table_globalinfo o)) ;;
  match globalinfo_dict (fetchall cur) ∅ with
  | Returns d => ret d
  | Raises e => raise e
  end.

(** [_update_globalinfo()]: update globalinfo after writes. *)
Definition _update_globalinfo : M unit :=
  require_write_access (
    info <- globalinfo ;;
    o <- get_self ;;
    (if bool_decide (SqlText "ValidSets" ∈ dom info) then
       connection ;;;
       execute (UPDATE_globalinfo (_table_prefix o) MAX_rowid "ValidSets") ;;;
       ret tt
     else ret tt) ;;;
    (if bool_decide (SqlText "TRAI" ∈ dom info) then
       connection ;;;
       execute (UPDATE_globalinfo (_table_prefix o) (MAX_column "TRAI") "TRAI") ;;;
       ret tt
     else ret tt)).

(** [dict(zip(columns, row))]. *)
Definition row_dict (cols : list string) (r : list sqlvalue) : gmap string sqlvalue :=
  fold_left (fun d cv => <[fst cv := snd cv]> d) (combine cols r) ∅.

(** Modelled from the spec: [read_sql_generator] of [_sql.py], which is not
    among the sources.  The parameter table is scanned fully and each record
    is a field map from which [_parameter_table] removes ["ID"]: the generator
    runs the query and yields, row after row, the dict from column name to
    value. *)
Definition read_sql_generator (query : statement) : M (list (gmap string sqlvalue)) :=
  cur <- execute query ;;
  ret (map (row_dict (description cur)) (fetchall cur)).

(** [dict(parameter_by_id())]: each row dict gives up its ["ID"], which keys
    what is left of it. *)
Fixpoint parameter_by_id (dicts : list (gmap string sqlvalue))
    (d : gmap sqlvalue (gmap string sqlvalue))
    : outcome (gmap sqlvalue (gmap string sqlvalue)) :=
  match dicts with
  | [] => Returns d
  | r :: rest =>
      match r !! "ID" with
      | Some param_id => parameter_by_id rest (<[param_id := delete "ID" r]> d)
      | None => Raises (KeyError "ID")
      end
  end.

(** [_parameter_table()]: read the params table to a dict. *)
Definition _parameter_table : M (gmap sqlvalue (gmap string sqlvalue)) :=
  connection ;;;
  o <- get_self ;;
  dicts <- read_sql_generator (SELECT_all (_table_params o)) ;;
  match parameter_by_id dicts ∅ with
  | Returns d => ret d
  | Raises e => raise e
  end.

(** [try: body except KeyError: handler]. *)
Definition try_except_KeyError {A} (body handler : M A) : M A :=
  fun st =>
    match body st with
    | (Raises (KeyError _), st') => handler st'
    | r => r
    end.

Definition parameter_not_found (param_id : Z) (table_params : string) : exn :=
  ValueError ("Parameter ID " +:+ str_of_int param_id +:+ " not found in "
              +:+ table_params).

(** [_parameter(param_id)]: read the parameters of one ID. *)
Definition _parameter (param_id : Z) : M (gmap string sqlvalue) :=
  try_except_KeyError
    (t <- _parameter_table ;;
     match t !! SqlInteger param_id with
     | Some r => ret r
     | None => raise (KeyError (str_of_int param_id))
     end)
    (o <- get_self ;;
     raise (parameter_not_found param_id (_table_params o))).

(** [close()]: close the database connection. *)
Definition close : M unit :=
  o <- get_self ;;
  if _connected o then
    (if negb (_readonly o) then
       _update_globalinfo ;;;
       commit                      (* commit remaining changes *)
     else ret tt) ;;;
    connection_close ;;;
    set_self (set_connected false)
  else ret tt.

(** [__del__] runs [close]; an exception raised in a finalizer is not
    propagated. *)
Definition __del__ : M unit := fun st => (Returns tt, snd (close st)).

Definition __enter__ : M unit := ret tt.

Definition __exit__ : M unit := close.

End Interpreter.

(** ** The names and the schema the statements are read on

    A table prefix that makes plain SQL identifiers of the four table names:
    ASCII letters, digits and underscores, no digit in front (it may be
    empty). *)
Definition plain_prefix (p : string) : bool :=
  match p with
  | EmptyString => true
  | String c r => is_name_start c && all_chars (fun a => is_name_start a || is_digit a) r
  end.

(** The table names of the object are the ones [__init__] derives from its
    prefix, and the prefix is plain. *)
Definition plain_tables (o : Database) : Prop :=
  plain_prefix (_table_prefix o) = true /\
  _table_main o = _table_prefix o +:+ "_data" /\
  _table_fieldinfo o = _table_prefix o +:+ "_fieldinfo" /\
  _table_globalinfo o = _table_prefix o +:+ "_globalinfo" /\
  _table_params o = _table_prefix o +:+ "_params".

(** The globalinfo table [g] has no column named like one of the two keys, and
    the data table declares no column named [rowid]: SQLite then reads the two
    UPDATE statements as they are meant. *)
Definition summary_schema (g data : table) : Prop :=
  column_index (table_columns g) "ValidSets" = None /\
  column_index (table_columns g) "TRAI" = None /\
  column_index (table_columns data) "rowid" = None.

(** [m] is what [MAX] gives on the values [vs]: NULL when they are all NULL,
    and otherwise one of them that is not NULL and that none exceeds in
    SQLite's order. *)
Definition largest (vs : list sqlvalue) (m : sqlvalue) : Prop :=
  (m = SqlNull /\ Forall (fun v => v = SqlNull) vs) \/
  (m <> SqlNull /\ m ∈ vs /\ Forall (fun v => sql_lt m v = false) vs).

(** ** What the two statements of [_update_globalinfo] compute

    The two aggregates over the data table, and the globalinfo table after
    the statement for ["ValidSets"] and then the one for ["TRAI"]. *)
Definition max_rowid (data : table) : sqlvalue :=
  sql_max (map (fun r => SqlInteger (rowid r)) (table_rows data)).

Definition max_trai (data : table) : sqlvalue :=
  match eval_aggregate (MAX_column "TRAI") data with
  | Returns v => v
  | Raises _ => SqlNull
  end.

Definition recomputed (ik iv : nat) (data g : table) : table :=
  update_rows ik iv "TRAI" (max_trai data)
    (update_rows ik iv "ValidSets" (max_rowid data) g).

(** A row of globalinfo after the two statements, against the row before. *)
Definition recomputed_row (ik iv : nat) (vmax tmax : sqlvalue) (r r' : row) : Prop :=
  rowid r' = rowid r /\
  cell ik r' = cell ik r /\
  (forall j, j <> iv -> cell j r' = cell j r) /\
  (cell ik r = SqlText "ValidSets" -> cell iv r' = vmax) /\
  (cell ik r = SqlText "TRAI" -> cell iv r' = tmax) /\
  (cell ik r <> SqlText "ValidSets" -> cell ik r <> SqlText "TRAI" -> r' = r).

(** The same, as the row reads: its Value has the text of the aggregate. *)
Definition summary_row (ik iv : nat) (vmax tmax : sqlvalue) (r r' : row) : Prop :=
  rowid r' = rowid r /\
  cell ik r' = cell ik r /\
  (forall j, j <> iv -> cell j r' = cell j r) /\
  (cell ik r = SqlText "ValidSets" -> str (cell iv r') = str vmax) /\
  (cell ik r = SqlText "TRAI" -> str (cell iv r') = str tmax) /\
  (cell ik r <> SqlText "ValidSets" -> cell ik r <> SqlText "TRAI" -> r' = r).

(** A row of globalinfo that kept its rowid, its Key and every cell outside
    Value, and that is the same row unless its Key is one of the two. *)
Definition kept_row (ik iv : nat) (r r' : row) : Prop :=
  rowid r' = rowid r /\
  cell ik r' = cell ik r /\
  (forall j, j <> iv -> cell j r' = cell j r) /\
  (cell ik r <> SqlText "ValidSets" -> cell ik r <> SqlText "TRAI" -> r' = r).

(** The content [db'] against [db]: the same tables under the same names, all
    of them the same but the globalinfo table [gname], which has the same
    columns and, row by row, kept rows. *)
Definition keys_kept (gname : string) (db db' : database) : Prop :=
  map fst db' = map fst db /\
  (forall name, ident_eqb name gname = false -> find_table db' name = find_table db name) /\
  (forall g ik iv,
     find_table db gname = Some g ->
     column_index (table_columns g) "Key" = Some ik ->
     column_index (table_columns g) "Value" = Some iv ->
     exists g',
       find_table db' gname = Some g' /\
       table_columns g' = table_columns g /\
       Forall2 (kept_row ik iv) (table_rows g) (table_rows g')).

(** The content the connection of the object sees. *)
Definition session (st : state) : database :=
  match _connection (self st) with
  | Some c => conn_data c
  | None => []
  end.

(** The table has a row with the text [key] as its Key. *)
Definition has_key (ik : nat) (g : table) (key : string) : bool :=
  bool_decide (SqlText key ∈ map (cell ik) (table_rows g)).

(** The engine calls of [_update_globalinfo] on the globalinfo table [g]: the
    SELECT of [globalinfo()], then the statement of each key that is there. *)
Definition recompute_calls (prefix : string) (ik : nat) (g : table) : list engine_call :=
  Call_execute (SELECT_Key_Value (prefix +:+ "_globalinfo"))
  :: (if has_key ik g "ValidSets"
      then [Call_execute (UPDATE_globalinfo prefix MAX_rowid "ValidSets")]
      else [])
  ++ (if has_key ik g "TRAI"
      then [Call_execute (UPDATE_globalinfo prefix (MAX_column "TRAI") "TRAI")]
      else []).

(** ** A sample store

    A primary database [sample.pridb] with table prefix [pri]: two hits left in
    the data table after the second of three was deleted, a globalinfo table
    and a parameter table.  [Sample.texts] is the same store with a value in
    globalinfo that is plain text. *)
(** The interpreter of the examples: their text is ASCII, and text outside
    ASCII is taken to have no case. *)
#[global] Instance sample_runtime : Runtime := {| unicode_lower := fun s => s |}.

Module Sample.

Definition data : table :=
  {| table_columns := ["Time"; "Amp"; "TRAI"];
     table_rows :=
       [ {| rowid := 1; cells := [SqlInteger 10; SqlInteger 55; SqlInteger 1] |};
         {| rowid := 3; cells := [SqlInteger 30; SqlInteger 61; SqlInteger 2] |} ] |}.

Definition info : table :=
  {| table_columns := ["Key"; "Value"];
     table_rows :=
       [ {| rowid := 1; cells := [SqlText "Version"; SqlText "123"] |};
         {| rowid := 2; cells := [SqlText "ValidSets"; SqlText "0"] |};
         {| rowid := 3; cells := [SqlText "TRAI"; SqlText "0"] |} ] |}.

Definition info_texts : table :=
  {| table_columns := ["Key"; "Value"];
     table_rows :=
       [ {| rowid := 1; cells := [SqlText "Version"; SqlText "123"] |};
         {| rowid := 2; cells := [SqlText "Name"; SqlText "abc"] |} ] |}.

Definition params : table :=
  {| table_columns := ["ID"; "SetupID"; "Chan"];
     table_rows :=
       [ {| rowid := 1; cells := [SqlInteger 1; SqlInteger 1; SqlInteger 1] |};
         {| rowid := 2; cells := [SqlInteger 2; SqlInteger 1; SqlInteger 2] |} ] |}.

Definition store : database :=
  [("pri_data", data); ("pri_globalinfo", info); ("pri_params", params)].

Definition texts : database :=
  [("pri_data", data); ("pri_globalinfo", info_texts)].

(** A store without the data table. *)
Definition headless : database := [("pri_globalinfo", info)].

Definition disk : gmap string database :=
  {[ "sample.pridb" := store; "texts.pridb" := texts; "headless.pridb" := headless ]}.

(** An instance of the evaluator's parameter: every text outside the modelled
    literals is taken to be a syntax error. *)
Definition no_other (t : string) : outcome pyvalue :=
  Raises (SyntaxError "invalid syntax").

(** The sample opened read-only, opened for writing, and closed again. *)
Definition reader : state := snd (new_Database disk "sample.pridb" "pri" true None).

Definition writer : state := snd (new_Database disk "sample.pridb" "pri" false None).

Definition closed_reader : state := snd (close no_other reader).

(** The connection the engine gives on the store without a data table,
    opened read-only. *)
Definition headless_connection : Connection :=
  {| conn_file := Some "headless.pridb"; conn_writable := false;
     check_same_thread := false; conn_pragmas := [];
     conn_data := headless; conn_closed := false |}.

(** The connections the engine gives on the sample, read-only and for
    writing (with the write-mode settings made). *)
Definition reader_connection : Connection :=
  {| conn_file := Some "sample.pridb"; conn_writable := false;
     check_same_thread := false; conn_pragmas := [];
     conn_data := store; conn_closed := false |}.

Definition writer_connection : Connection :=
  {| conn_file := Some "sample.pridb"; conn_writable := true;
     check_same_thread := true; conn_pragmas := write_mode_pragmas;
     conn_data := store; conn_closed := false |}.

End Sample.

(** ** Notions for the further properties *)

(** The attributes no method assigns after construction. *)
Definition same_identity (o o' : Database) : Prop :=
  _filename o' = _filename o /\
  _readonly o' = _readonly o /\
  _table_prefix o' = _table_prefix o /\
  _table_main o' = _table_main o /\
  _table_fieldinfo o' = _table_fieldinfo o /\
  _table_globalinfo o' = _table_globalinfo o /\
  _table_params o' = _table_params o.

(** Two connection objects that differ at most in the content they see. *)
Definition same_link (c c' : Connection) : Prop :=
  conn_file c' = conn_file c /\
  conn_writable c' = conn_writable c /\
  check_same_thread c' = check_same_thread c /\
  conn_pragmas c' = conn_pragmas c /\
  conn_closed c' = conn_closed c.

(** Two objects that differ at most in the content their connection sees. *)
Definition same_but_content (o o' : Database) : Prop :=
  same_identity o o' /\
  _connected o' = _connected o /\
  match _connection o, _connection o' with
  | Some c, Some c' => same_link c c'
  | None, None => True
  | _, _ => False
  end.

(** ** More sample states *)
Module Cases.

(** The store with a plain-text value in globalinfo, opened for writing. *)
Definition texts_writer : state :=
  snd (new_Database Sample.disk "texts.pridb" "pri" false None).

(** The same store opened read-only: it has no parameter table. *)
Definition texts_reader : state :=
  snd (new_Database Sample.disk "texts.pridb" "pri" true None).

(** A data table to which three hits were appended and none deleted. *)
Definition appended : table :=
  {| table_columns := ["Time"; "Amp"; "TRAI"];
     table_rows :=
       [ {| rowid := 1; cells := [SqlInteger 10; SqlInteger 55; SqlInteger 1] |};
         {| rowid := 2; cells := [SqlInteger 20; SqlInteger 58; SqlInteger 2] |};
         {| rowid := 3; cells := [SqlInteger 30; SqlInteger 61; SqlInteger 3] |} ] |}.

Definition appended_store : database :=
  [("pri_data", appended); ("pri_globalinfo", Sample.info)].

Definition appended_disk : gmap string database :=
  {[ "appended.pridb" := appended_store ]}.

Definition appended_writer : state :=
  snd (new_Database appended_disk "appended.pridb" "pri" false None).

Definition appended_connection : Connection :=
  {| conn_file := Some "appended.pridb"; conn_writable := true;
     check_same_thread := true; conn_pragmas := write_mode_pragmas;
     conn_data := appended_store; conn_closed := false |}.

(** A store whose parameter table has no column named ["ID"]. *)
Definition unkeyed_params : table :=
  {| table_columns := ["SetupID"; "Chan"];
     table_rows := [ {| rowid := 1; cells := [SqlInteger 1; SqlInteger 1] |} ] |}.

Definition unkeyed_store : database :=
  [("pri_data", Sample.data); ("pri_params", unkeyed_params)].

Definition unkeyed_reader : state :=
  snd (new_Database {[ "unkeyed.pridb" := unkeyed_store ]} "unkeyed.pridb" "pri" true None).

Definition unkeyed_connection : Connection :=
  {| conn_file := Some "unkeyed.pridb"; conn_writable := false;
     check_same_thread := false; conn_pragmas := [];
     conn_data := unkeyed_store; conn_closed := false |}.

(** A store whose globalinfo has the key ["TRAI"] while its data table has
    no TRAI column, opened for writing. *)
Definition untraced : table :=
  {| table_columns := ["Time"; "Amp"];
     table_rows :=
       [ {| rowid := 1; cells := [SqlInteger 10; SqlInteger 55] |};
         {| rowid := 2; cells := [SqlInteger 20; SqlInteger 58] |} ] |}.

Definition untraced_store : database :=
  [("pri_data", untraced); ("pri_globalinfo", Sample.info)].

Definition untraced_writer : state :=
  snd (new_Database {[ "untraced.pridb" := untraced_store ]} "untraced.pridb" "pri"
                    false None).

Definition untraced_connection : Connection :=
  {| conn_file := Some "untraced.pridb"; conn_writable := true;
     check_same_thread := true; conn_pragmas := write_mode_pragmas;
     conn_data := untraced_store; conn_closed := false |}.

End Cases.

(** ** Theorems *)

(** *** Running the monad *)

Lemma bind_run {A B} (m : M A) (k : A -> M B) st :
  bind m k st =
  match m st with
  | (Returns a, st') => k a st'
  | (Raises e, st') => (Raises e, st')
  end.
Proof. reflexivity. Qed.

Lemma bind_returns {A B} (m : M A) (k : A -> M B) st a st' :
  m st = (Returns a, st') -> bind m k st = k a st'.
Proof. intros H. unfold bind. rewrite H. reflexivity. Qed.

Lemma bind_raises {A B} (m : M A) (k : A -> M B) st e st' :
  m st = (Raises e, st') -> bind m k st = (Raises e, st').
Proof. intros H. unfold bind. rewrite H. reflexivity. Qed.

Lemma bind_returns_inv {A B} (m : M A) (k : A -> M B) st b st1 :
  bind m k st = (Returns b, st1) ->
  exists a st', m st = (Returns a, st') /\ k a st' = (Returns b, st1).
Proof.
  unfold bind. destruct (m st) as [[a|e] st'].
  - intros H. exists a, st'. split; [reflexivity | exact H].
  - discriminate.
Qed.

Ltac mstep :=
  rewrite bind_run;
  cbn beta iota delta [set_self ret raise get_self log with_object with_files
                       logged self files calls].

Lemma connect_run uri cst st :
  connect uri cst st
  = (fst (sqlite3_connect (files st) uri cst),
     with_files (snd (sqlite3_connect (files st) uri cst))
                (logged (Call_connect uri cst) st)).
Proof.
  unfold connect. destruct (sqlite3_connect (files st) uri cst). reflexivity.
Qed.

Section Lifecycle.

Variable other : string -> outcome pyvalue.

Lemma connection_closed_handle st :
  _connected (self st) = false -> connection st = (Raises not_connected, st).
Proof.
  intros H. unfold connection, bind, get_self. rewrite H. reflexivity.
Qed.

Lemma connection_open_handle st :
  _connected (self st) = true -> connection st = (Returns tt, st).
Proof.
  intros H. unfold connection, bind, get_self. rewrite H. reflexivity.
Qed.

Lemma close_closed_handle st :
  _connected (self st) = false -> close other st = (Returns tt, st).
Proof.
  intros H. unfold close, bind, get_self. rewrite H. reflexivity.
Qed.

Lemma close_returns_disconnected st st1 :
  close other st = (Returns tt, st1) -> _connected (self st1) = false.
Proof.
  unfold close. intros H.
  apply bind_returns_inv in H as (o & st' & Hget & H).
  injection Hget as <- <-.
  destruct (_connected (self st)) eqn:Hc.
  - apply bind_returns_inv in H as (? & s1 & _ & H).
    apply bind_returns_inv in H as (? & s2 & _ & H).
    injection H as <-. reflexivity.
  - injection H as <-. exact Hc.
Qed.

(** C5: on a read-only handle, the mutating operation [_update_globalinfo],
    and any method behind [require_write_access], fails with the read-only
    [ValueError] (ReadOnlyViolation) before anything is done: the state, store
    and engine-call log included, is the one before the call. *)
Theorem readonly_update_refused st :
  _readonly (self st) = true ->
  _update_globalinfo other st = (Raises read_only_mode, st) /\
  (forall A (func : M A), require_write_access func st = (Raises read_only_mode, st)).
Proof.
  intros H.
  assert (Hw : forall A (func : M A),
             require_write_access func st = (Raises read_only_mode, st)).
  { intros A func. unfold require_write_access, bind, get_self.
    rewrite H. reflexivity. }
  split; [apply Hw | exact Hw].
Qed.

(** C6: [close()] is idempotent.  On a handle that is already closed it
    returns without an error and leaves the state as it is: the connected
    flag stays false and no recompute, commit or engine close is made again.
    So when a first [close()] has returned, the flag is false, a second one
    changes nothing, and two calls in a row do what one does. *)
Theorem close_idempotent st :
  (_connected (self st) = false -> close other st = (Returns tt, st)) /\
  (forall st1, close other st = (Returns tt, st1) ->
     _connected (self st1) = false /\
     close other st1 = (Returns tt, st1) /\
     (close other ;;; close other) st = close other st).
Proof.
  split; [apply close_closed_handle |].
  intros st1 H.
  pose proof (close_returns_disconnected _ _ H) as Hc.
  pose proof (close_closed_handle _ Hc) as H2.
  repeat split; [exact Hc | exact H2 |].
  rewrite (bind_returns _ _ _ _ _ H), H2, H. reflexivity.
Qed.

Lemma not_connected_reads st :
  _connected (self st) = false ->
  connected st = (Returns false, st) /\
  rows st = (Raises not_connected, st) /\
  columns st = (Raises not_connected, st) /\
  tables st = (Raises not_connected, st) /\
  globalinfo other st = (Raises not_connected, st) /\
  _parameter_table st = (Raises not_connected, st) /\
  (forall param_id, _parameter param_id st = (Raises not_connected, st)).
Proof.
  intros H. pose proof (connection_closed_handle _ H) as Hc.
  assert (Hp : _parameter_table st = (Raises not_connected, st)).
  { unfold _parameter_table. apply bind_raises, Hc. }
  repeat split.
  - unfold connected, bind, get_self, ret. rewrite H. reflexivity.
  - unfold rows. apply bind_raises, Hc.
  - unfold columns. apply bind_raises, Hc.
  - unfold tables. apply bind_raises, Hc.
  - unfold globalinfo. apply bind_raises, Hc.
  - exact Hp.
  - intros param_id. unfold _parameter, try_except_KeyError.
    rewrite (bind_raises _ _ _ _ _ Hp). reflexivity.
Qed.

Lemma not_connected_update st :
  _readonly (self st) = false -> _connected (self st) = false ->
  _update_globalinfo other st = (Raises not_connected, st).
Proof.
  intros Hrw H. unfold _update_globalinfo, require_write_access.
  mstep. rewrite Hrw. apply bind_raises.
  unfold globalinfo. apply bind_raises, connection_closed_handle, H.
Qed.

(** C7: once [close()] has returned on a handle, [connected] is false, and
    [rows], [columns], [tables], [globalinfo], [_parameter_table] and
    [_parameter] each fail with the [RuntimeError] of [connection()]
    (NotConnected), leaving the state as it is. *)
Theorem closed_handle_not_connected st0 st :
  close other st0 = (Returns tt, st) ->
  connected st = (Returns false, st) /\
  rows st = (Raises not_connected, st) /\
  columns st = (Raises not_connected, st) /\
  tables st = (Raises not_connected, st) /\
  globalinfo other st = (Raises not_connected, st) /\
  _parameter_table st = (Raises not_connected, st) /\
  (forall param_id, _parameter param_id st = (Raises not_connected, st)).
Proof.
  intros H. apply not_connected_reads. eapply close_returns_disconnected, H.
Qed.

End Lifecycle.

Lemma readonly_update_refused_witness :
  _readonly (self Sample.reader) = true /\
  _update_globalinfo Sample.no_other Sample.reader
  = (Raises read_only_mode, Sample.reader).
Proof.
  split; [reflexivity |].
  apply (readonly_update_refused Sample.no_other Sample.reader). reflexivity.
Defined.

Lemma close_idempotent_witness :
  _connected (self Sample.closed_reader) = false /\
  close Sample.no_other Sample.closed_reader = (Returns tt, Sample.closed_reader).
Proof.
  split; [reflexivity |].
  apply (close_idempotent Sample.no_other Sample.closed_reader). reflexivity.
Defined.

Lemma closed_handle_not_connected_witness :
  close Sample.no_other Sample.reader = (Returns tt, Sample.closed_reader) /\
  rows Sample.closed_reader = (Raises not_connected, Sample.closed_reader).
Proof.
  assert (H : close Sample.no_other Sample.reader = (Returns tt, Sample.closed_reader))
    by (vm_compute; reflexivity).
  split; [exact H |].
  apply (closed_handle_not_connected Sample.no_other Sample.reader _ H).
Defined.

(** *** The file extension *)








Lemma init_extension_accepted {RT : Runtime} fs filename prefix ro ext :
  str_lower (slice_from 1 (path_suffix filename)) = str_lower ext ->
  new_Database fs filename prefix ro (Some ext)
  = new_Database fs filename prefix ro None.
Proof.
  intros H. unfold new_Database, __init__.
  rewrite !bind_run. cbn [set_self].
  rewrite H, String.eqb_refl. reflexivity.
Qed.

Lemma init_extension_mismatch {RT : Runtime} fs f prefix ro ext :
  str_lower (slice_from 1 (path_suffix f)) <> str_lower ext ->
  new_Database fs f prefix ro (Some ext)
  = (Raises (extension_mismatch (slice_from 1 (path_suffix f)) ext),
     {| self := set_filename f ro blank_object; files := fs; calls := [] |}).
Proof.
  intros H. unfold new_Database, __init__.
  rewrite !bind_run. cbn [set_self].
  destruct (String.eqb_spec (str_lower (slice_from 1 (path_suffix f))) (str_lower ext))
    as [E|_]; [contradiction | reflexivity].
Qed.



(** *** Opening the file *)

Lemma append_cons c s t : String c s +:+ t = String c (s +:+ t).
Proof. reflexivity. Qed.

Lemma append_nil t : EmptyString +:+ t = t.
Proof. reflexivity. Qed.

Lemma strip_prefix_app pre s : strip_prefix pre (pre +:+ s) = Some s.
Proof.
  induction pre as [|c pre IH]; [reflexivity |].
  rewrite append_cons. cbn. rewrite Ascii.eqb_refl. exact IH.
Qed.

Lemma split_first_absent c s :
  all_chars (fun a => negb (Ascii.eqb a c)) s = true ->
  split_first c s = (s, None).
Proof.
  induction s as [|a s IH]; [reflexivity |].
  cbn. intros [Ha Hs]%andb_prop.
  destruct (Ascii.eqb a c); [discriminate |].
  rewrite (IH Hs). reflexivity.
Qed.

Lemma split_first_app c s t :
  all_chars (fun a => negb (Ascii.eqb a c)) s = true ->
  split_first c (s +:+ String c t) = (s, Some t).
Proof.
  induction s as [|a s IH].
  - intros _. rewrite append_nil. cbn. rewrite Ascii.eqb_refl. reflexivity.
  - rewrite append_cons. cbn. intros [Ha Hs]%andb_prop.
    destruct (Ascii.eqb a c); [discriminate |].
    rewrite (IH Hs). reflexivity.
Qed.

Lemma all_chars_app p s t :
  all_chars p (s +:+ t) = all_chars p s && all_chars p t.
Proof.
  induction s as [|a s IH]; [reflexivity |].
  rewrite append_cons. cbn. rewrite IH, andb_assoc. reflexivity.
Qed.

Lemma all_chars_weaken (p q : ascii -> bool) s :
  (forall a, p a = true -> q a = true) ->
  all_chars p s = true -> all_chars q s = true.
Proof.
  intros Hpq. induction s as [|a s IH]; [reflexivity |].
  cbn. intros [Ha Hs]%andb_prop. rewrite (Hpq _ Ha), (IH Hs). reflexivity.
Qed.

Lemma uri_plain_parts f :
  uri_plain f = true ->
  String.eqb f "" = false /\
  all_chars (fun c => negb (Ascii.eqb c "?" || Ascii.eqb c "#" || Ascii.eqb c "%")) f
  = true /\
  bool_decide (is_Some (strip_prefix "//" f)) = false /\
  String.eqb f ":memory:" = false.
Proof.
  unfold uri_plain.
  intros [[[[H1 H2]%andb_prop H3]%andb_prop H4]%andb_prop _]%andb_prop.
  apply negb_true_iff in H1, H3, H4. repeat split; assumption.
Qed.

Lemma uri_plain_nonempty f : uri_plain f = true -> String.eqb f "" = false.
Proof. intros H. apply (uri_plain_parts f H). Qed.

Lemma uri_plain_no_authority f t :
  uri_plain f = true -> strip_prefix "//" (f +:+ String "?" t) = None.
Proof.
  intros (Hne & _ & Hp & _)%uri_plain_parts.
  destruct f as [|a [|b f]]; [discriminate | |].
  - rewrite append_cons, append_nil. cbn [strip_prefix].
    destruct (Ascii.eqb "/" a); reflexivity.
  - rewrite !append_cons. cbn [strip_prefix] in Hp |- *.
    destruct (Ascii.eqb "/" a); [| reflexivity].
    destruct (Ascii.eqb "/" b); [| reflexivity].
    discriminate.
Qed.

(** The URI [__init__] builds for a plain file name is read back by the engine
    as that name, with the access flag of the mode. *)
Lemma plain_uri_parsed f (ro : bool) flags :
  uri_plain f = true ->
  flags = Z.lor SQLITE_OPEN_READWRITE SQLITE_OPEN_CREATE ->
  sqlite3ParseUri flags
    ("file:" +:+ f +:+ "?mode=" +:+ (if ro then "ro" else "rw"))
  = Returns (f, if ro then SQLITE_OPEN_READONLY else SQLITE_OPEN_READWRITE).
Proof.
  intros Hp ->. unfold sqlite3ParseUri.
  rewrite strip_prefix_app.
  change ("?mode=" +:+ (if ro then "ro" else "rw"))
    with (String "?" ("mode=" +:+ (if ro then "ro" else "rw"))).
  rewrite (uri_plain_no_authority _ _ Hp).
  pose proof (uri_plain_parts f Hp) as (_ & Hc & _).
  rewrite split_first_absent.
  2:{ rewrite all_chars_app. apply andb_true_intro. split.
      - revert Hc. apply all_chars_weaken. intros a.
        destruct (Ascii.eqb a "?"), (Ascii.eqb a "#"); cbn; congruence.
      - destruct ro; reflexivity. }
  rewrite split_first_app.
  2:{ revert Hc. apply all_chars_weaken. intros a.
      destruct (Ascii.eqb a "?"); cbn; congruence. }
  destruct ro; reflexivity.
Qed.

(** The engine's open for a plain file name: the file of that name, writable
    unless the mode is [ro], when there is one, and otherwise a failure that
    makes no file. *)
Lemma connect_plain fs f ro cst :
  uri_plain f = true ->
  sqlite3_connect fs (uri_of f ro) cst
  = match fs !! f with
    | Some db =>
        (Returns {| conn_file := Some f; conn_writable := negb ro;
                    check_same_thread := cst; conn_pragmas := [];
                    conn_data := db; conn_closed := false |}, fs)
    | None => (Raises unable_to_open, fs)
    end.
Proof.
  intros Hp. unfold sqlite3_connect, uri_of.
  rewrite (plain_uri_parsed f ro _ Hp eq_refl).
  pose proof (uri_plain_parts f Hp) as (Hne & _ & _ & Hmem).
  destruct ro; cbn; rewrite Hne, Hmem; cbn [orb]; destruct (fs !! f); reflexivity.
Qed.

(** For a plain file name with no file behind it, construction fails in the
    engine's open, in either mode, and no file is made. *)
Lemma init_missing_file {RT : Runtime} fs f prefix ro :
  uri_plain f = true -> fs !! f = None ->
  fst (new_Database fs f prefix ro None) = Raises unable_to_open /\
  files (snd (new_Database fs f prefix ro None)) = fs.
Proof.
  intros Hp Hf. unfold new_Database, __init__.
  do 3 mstep. rewrite bind_run, connect_run. cbn [files with_object].
  fold (uri_of f ro). rewrite (connect_plain _ _ _ _ Hp), Hf.
  split; reflexivity.
Qed.

(** C10: the file name goes into the URI as it is, and a [#] in it ends what
    the engine reads: for ["run#3.pridb"] the mode is never seen, the engine
    opens ["run"] with its default flags and creates it.  On an empty disk,
    in either mode, construction then fails on the missing data table, not in
    the open, and leaves the new file ["run"] behind. *)
Theorem init_hash_name_creates_file :
  new_Database ∅ "run#3.pridb" "pri" true None
  = (Raises (main_table_missing "pri_data"),
     snd (new_Database ∅ "run#3.pridb" "pri" true None)) /\
  files (snd (new_Database ∅ "run#3.pridb" "pri" true None)) = {[ "run" := [] ]} /\
  fst (new_Database ∅ "run#3.pridb" "pri" false None)
  = Raises (main_table_missing "pri_data") /\
  files (snd (new_Database ∅ "run#3.pridb" "pri" false None)) = {[ "run" := [] ]}.
Proof.
  repeat split; vm_compute; reflexivity.
Qed.

(** *** The engine on a live connection *)

Lemma open_connection_run st c :
  _connection (self st) = Some c -> conn_closed c = false ->
  open_connection st = (Returns c, st).
Proof. intros H1 H2. unfold open_connection. rewrite H1, H2. reflexivity. Qed.

Lemma execute_select st c q :
  _connection (self st) = Some c -> conn_closed c = false ->
  is_select q = true ->
  execute q st
  = (match run_select (conn_data c) q with
     | Returns cur => Returns cur
     | Raises e => Raises e
     end, logged (Call_execute q) st).
Proof.
  intros H1 H2 Hq. unfold execute. mstep.
  rewrite bind_run, (open_connection_run (logged (Call_execute q) st) c H1 H2).
  destruct q; try discriminate;
    (destruct (run_select (conn_data c) _); reflexivity).
Qed.

Lemma execute_update st c prefix agg key :
  _connection (self st) = Some c -> conn_closed c = false ->
  conn_writable c = true ->
  execute (UPDATE_globalinfo prefix agg key) st
  = match run_update (conn_data c) prefix agg key with
    | Returns db' =>
        (Returns {| description := []; fetchall := [] |},
         with_object (set_connection (Some (with_data db' c)) (self st))
                     (logged (Call_execute (UPDATE_globalinfo prefix agg key)) st))
    | Raises e =>
        (Raises e, logged (Call_execute (UPDATE_globalinfo prefix agg key)) st)
    end.
Proof.
  intros H1 H2 Hw. unfold execute. mstep.
  rewrite bind_run, (open_connection_run (logged _ st) c H1 H2).
  destruct (run_update (conn_data c) prefix agg key); [| reflexivity].
  rewrite Hw. reflexivity.
Qed.

Lemma commit_run st c path :
  _connection (self st) = Some c -> conn_closed c = false ->
  conn_file c = Some path -> conn_writable c = true ->
  commit st
  = (Returns tt, with_files (<[path := conn_data c]> (files st)) (logged Call_commit st)).
Proof.
  intros H1 H2 Hf Hw. unfold commit. mstep.
  rewrite bind_run, (open_connection_run (logged _ st) c H1 H2), Hf, Hw.
  reflexivity.
Qed.

Lemma connection_close_run st c :
  _connection (self st) = Some c ->
  connection_close st
  = (Returns tt,
     with_object (set_connection (Some (closed_connection c)) (self st))
                 (logged Call_close st)).
Proof.
  intros H1. unfold connection_close. do 2 mstep. cbn [logged self].
  rewrite H1. reflexivity.
Qed.

Lemma table_names_of_cursor (db : database) :
  omap (fun result => match nth 0 result SqlNull with
                      | SqlText n => Some n
                      | _ => None
                      end)
       (map (fun nt : string * table => [SqlText (fst nt)]) db)
  = map fst db.
Proof.
  induction db as [|[n t] db IH]; [reflexivity |].
  cbn. f_equal. exact IH.
Qed.

Lemma tables_run st c :
  _connected (self st) = true ->
  _connection (self st) = Some c -> conn_closed c = false ->
  tables st
  = (Returns (list_to_set (map fst (conn_data c))),
     logged (Call_execute SELECT_name_FROM_sqlite_master) st).
Proof.
  intros H0 H1 H2. unfold tables.
  rewrite (bind_returns _ _ _ _ _ (connection_open_handle _ H0)).
  rewrite bind_run, (execute_select st c SELECT_name_FROM_sqlite_master H1 H2 eq_refl).
  cbn [run_select ret fetchall]. rewrite table_names_of_cursor. reflexivity.
Qed.

(** *** Construction *)

Lemma sqlite3_connect_fresh fs uri cst c fs' :
  sqlite3_connect fs uri cst = (Returns c, fs') ->
  conn_closed c = false /\ conn_pragmas c = [] /\ check_same_thread c = cst.
Proof.
  unfold sqlite3_connect.
  destruct (sqlite3ParseUri _ uri) as [[path flags]|e]; [| discriminate].
  destruct (Z.testbit flags 7 || String.eqb path "" || String.eqb path ":memory:").
  - intros [= <- <-]. repeat split.
  - destruct (fs !! path).
    + intros [= <- <-]. repeat split.
    + destruct (Z.testbit flags 2); [| discriminate].
      intros [= <- <-]. repeat split.
Qed.

(** [__init__] once the engine has opened the file: the write-mode settings
    are made on a write handle, the table names are derived from the prefix,
    the catalogue is read, and the outcome is decided by the presence of the
    data table.  Nothing is undone when it is missing. *)
Lemma init_connected {RT : Runtime} fs f prefix ro c fs' :
  sqlite3_connect fs (uri_of f ro) (negb ro) = (Returns c, fs') ->
  (ro = false -> conn_writable c || bool_decide (conn_file c = None) = true) ->
  new_Database fs f prefix ro None
  = (if bool_decide (prefix +:+ "_data" ∈ map fst (conn_data c))
     then Returns tt
     else Raises (main_table_missing (prefix +:+ "_data")),
     {| self := constructed f prefix ro
                  (if ro then c else with_pragmas write_mode_pragmas c);
        files := fs';
        calls := Call_connect (uri_of f ro) (negb ro)
                 :: (if ro then [] else [Call_executescript write_mode_pragmas])
                 ++ [Call_execute SELECT_name_FROM_sqlite_master] |}).
Proof.
  intros H Hw. pose proof (sqlite3_connect_fresh _ _ _ _ _ H) as (Hc & _ & _).
  unfold new_Database, __init__.
  do 3 mstep. rewrite bind_run, connect_run. cbn [files with_object].
  fold (uri_of f ro). rewrite H. cbn [fst snd].
  do 2 mstep.
  destruct ro; cbn [negb].
  - do 3 mstep.
    rewrite bind_run, (tables_run _ c); [| reflexivity | reflexivity | exact Hc].
    cbn [with_object logged with_files self calls files set_tables _table_main app].
    destruct (decide (prefix +:+ "_data" ∈ map fst (conn_data c))) as [Hin|Hin].
    + rewrite (bool_decide_eq_true_2 _ Hin), bool_decide_eq_false_2; [reflexivity |].
      rewrite elem_of_list_to_set. tauto.
    + rewrite (bool_decide_eq_false_2 _ Hin), bool_decide_eq_true_2; [reflexivity |].
      rewrite elem_of_list_to_set. exact Hin.
  - rewrite bind_run. unfold executescript. mstep.
    rewrite bind_run, (open_connection_run _ c); [| reflexivity | exact Hc].
    rewrite (Hw eq_refl).
    cbn beta iota delta [set_self].
    do 2 mstep.
    rewrite bind_run, (tables_run _ (with_pragmas write_mode_pragmas c));
      [| reflexivity | reflexivity | exact Hc].
    cbn [with_object logged with_files self calls files set_tables _table_main app
         with_pragmas conn_data].
    destruct (decide (prefix +:+ "_data" ∈ map fst (conn_data c))) as [Hin|Hin].
    + rewrite (bool_decide_eq_true_2 _ Hin), bool_decide_eq_false_2; [reflexivity |].
      rewrite elem_of_list_to_set. tauto.
    + rewrite (bool_decide_eq_false_2 _ Hin), bool_decide_eq_true_2; [reflexivity |].
      rewrite elem_of_list_to_set. exact Hin.
Qed.

Lemma close_readonly_run other st c :
  _connected (self st) = true -> _readonly (self st) = true ->
  _connection (self st) = Some c ->
  close other st
  = (Returns tt,
     with_object
       (set_connected false (set_connection (Some (closed_connection c)) (self st)))
       (logged Call_close st)).
Proof.
  intros H0 Hr H1. unfold close. mstep. rewrite H0, Hr. cbn [negb].
  mstep. rewrite bind_run, (connection_close_run _ c H1). reflexivity.
Qed.

Lemma init_extension_ok {RT : Runtime} fs f prefix ro ext :
  extension_ok f ext ->
  new_Database fs f prefix ro ext = new_Database fs f prefix ro None.
Proof.
  destruct ext as [e|]; [| reflexivity].
  apply init_extension_accepted.
Qed.

(** C2, as stated, fails: on the sample store without a data table,
    construction raises the main-table error and leaves the object connected,
    on a connection that is open. *)
Lemma init_headless_left_connected :
  fst (new_Database Sample.disk "headless.pridb" "pri" true None)
  = Raises (main_table_missing "pri_data") /\
  _connected (self (snd (new_Database Sample.disk "headless.pridb" "pri" true None)))
  = true /\
  option_map conn_closed
    (_connection (self (snd (new_Database Sample.disk "headless.pridb" "pri" true None))))
  = Some false.
Proof.
  repeat split; vm_compute; reflexivity.
Qed.

(** *** Reading globalinfo values *)

(** C1: a stored ["123"] is read as the integer 123, and text that does not
    parse (here the keyword ["if"]) comes back as it is.  But the fallback
    catches [SyntaxError] only: ["abc"] parses, as a name, [literal_eval]
    refuses it with [ValueError], and that error leaves [try_convert_string]
    and [globalinfo()]: on the sample store with the value ["abc"],
    [globalinfo()] raises. *)
Theorem globalinfo_plain_text_raises other :
  try_convert_string other "123" = Returns (PyInt 123) /\
  try_convert_string other "if" = Returns (PyStr "if") /\
  try_convert_string other "abc" = Raises malformed_node /\
  fst (globalinfo other
         (snd (new_Database Sample.disk "texts.pridb" "pri" true None)))
  = Raises malformed_node.
Proof.
  repeat split; vm_compute; reflexivity.
Qed.

(** *** The parameter table *)

Lemma parameter_by_id_raises dicts d e :
  parameter_by_id dicts d = Raises e -> e = KeyError "ID".
Proof.
  revert d. induction dicts as [|r rest IH]; intros d; cbn; [discriminate |].
  destruct (r !! "ID"); [apply IH |]. intros [= <-]. reflexivity.
Qed.

Lemma parameter_by_id_absent dicts d d' (k : sqlvalue) :
  parameter_by_id dicts d = Returns d' ->
  (forall r, r ∈ dicts -> r !! "ID" <> Some k) ->
  d' !! k = d !! k.
Proof.
  revert d. induction dicts as [|r rest IH]; intros d; cbn.
  - intros [= <-] _. reflexivity.
  - destruct (r !! "ID") as [pid|] eqn:Hid; [| discriminate].
    intros H Hn. rewrite (IH _ H).
    + apply lookup_insert_ne. intros ->. apply (Hn r); [left | exact Hid].
    + intros x Hx. apply Hn. right. exact Hx.
Qed.

Lemma parameter_by_id_present dicts d (k : sqlvalue) :
  (forall x, x ∈ dicts -> is_Some (x !! "ID")) ->
  exists d',
    parameter_by_id dicts d = Returns d' /\
    forall before r after,
      dicts = (before ++ r :: after)%list ->
      r !! "ID" = Some k ->
      (forall x, x ∈ after -> x !! "ID" <> Some k) ->
      d' !! k = Some (delete "ID" r).
Proof.
  revert d. induction dicts as [|r0 rest IH]; intros d Hall.
  - exists d. split; [reflexivity |].
    intros [|? ?] ? ? [=].
  - destruct (Hall r0) as [pid Hpid]; [left |].
    destruct (IH (<[pid := delete "ID" r0]> d)) as (d' & Hd' & Hlast).
    { intros x Hx. apply Hall. right. exact Hx. }
    exists d'. split.
    + cbn. rewrite Hpid. exact Hd'.
    + intros before r after Heq Hr Hafter.
      destruct before as [|b before]; cbn in Heq.
      * injection Heq as <- <-.
        rewrite (parameter_by_id_absent _ _ _ _ Hd' Hafter).
        rewrite Hpid in Hr. injection Hr as ->.
        apply lookup_insert_eq.
      * injection Heq as <- ->.
        eapply Hlast; [reflexivity | exact Hr | exact Hafter].
Qed.

Lemma parameter_table_run st c t :
  _connected (self st) = true ->
  _connection (self st) = Some c -> conn_closed c = false ->
  find_table (conn_data c) (_table_params (self st)) = Some t ->
  _parameter_table st
  = (match parameter_by_id
             (map (row_dict (table_columns t)) (map (full_row t) (table_rows t))) ∅ with
     | Returns d => Returns d
     | Raises e => Raises e
     end,
     logged (Call_execute (SELECT_all (_table_params (self st)))) st).
Proof.
  intros H0 H1 H2 Ht. unfold _parameter_table.
  rewrite (bind_returns _ _ _ _ _ (connection_open_handle _ H0)).
  mstep. rewrite bind_run. unfold read_sql_generator.
  rewrite bind_run, (execute_select st c _ H1 H2); [| reflexivity].
  cbn [run_select]. rewrite Ht. cbn [ret description fetchall].
  destruct (parameter_by_id _ ∅); reflexivity.
Qed.

(** C9: on a live handle with a plain table prefix whose parameter table
    exists, [_parameter(id)] for an id that no row of the table has as its ID
    fails with the [ValueError] that names the id and the table (NotFound);
    and for an id that a row has, it returns that row's fields without ["ID"]
    (of the last such row, should the ID occur more than once).  Either way
    the store is only read. *)
Theorem parameter_by_param_id st c t param_id :
  _connected (self st) = true ->
  _connection (self st) = Some c -> conn_closed c = false ->
  plain_tables (self st) ->
  find_table (conn_data c) (_table_params (self st)) = Some t ->
  let dicts := map (row_dict (table_columns t)) (map (full_row t) (table_rows t)) in
  let st' := logged (Call_execute (SELECT_all (_table_params (self st)))) st in
  ((forall r, r ∈ dicts -> r !! "ID" <> Some (SqlInteger param_id)) ->
   _parameter param_id st
   = (Raises (ValueError ("Parameter ID " +:+ str_of_int param_id +:+ " not found in "
                          +:+ _table_params (self st))), st')) /\
  (forall before r after,
     dicts = (before ++ r :: after)%list ->
     (forall x, x ∈ dicts -> is_Some (x !! "ID")) ->
     r !! "ID" = Some (SqlInteger param_id) ->
     (forall x, x ∈ after -> x !! "ID" <> Some (SqlInteger param_id)) ->
     _parameter param_id st = (Returns (delete "ID" r), st') /\
     delete "ID" r !! "ID" = None).
Proof.
  intros H0 H1 H2 _ Ht dicts st'.
  pose proof (parameter_table_run st c t H0 H1 H2 Ht) as Hrun.
  fold dicts in Hrun. fold st' in Hrun.
  split.
  - intros Habs. unfold _parameter, try_except_KeyError.
    rewrite bind_run, Hrun.
    destruct (parameter_by_id dicts ∅) as [d|e] eqn:Hd.
    + rewrite (parameter_by_id_absent _ _ _ _ Hd Habs), lookup_empty.
      reflexivity.
    + rewrite (parameter_by_id_raises _ _ _ Hd). reflexivity.
  - intros before r after Heq Hall Hr Hafter.
    split; [| apply lookup_delete_eq].
    destruct (parameter_by_id_present dicts ∅ (SqlInteger param_id) Hall)
      as (d & Hd & Hlast).
    unfold _parameter, try_except_KeyError.
    rewrite bind_run, Hrun, Hd, (Hlast _ _ _ Heq Hr Hafter).
    reflexivity.
Qed.

Lemma parameter_by_param_id_witness :
  fst (_parameter 7 Sample.reader)
  = Raises (ValueError "Parameter ID 7 not found in pri_params") /\
  fst (_parameter 2 Sample.reader)
  = Returns (delete "ID" (row_dict ["ID"; "SetupID"; "Chan"]
                                   [SqlInteger 2; SqlInteger 1; SqlInteger 2])).
Proof.
  edestruct (parameter_by_param_id Sample.reader Sample.reader_connection
               Sample.params 7) as [Habsent _];
    [reflexivity | reflexivity | reflexivity | repeat split | reflexivity |].
  edestruct (parameter_by_param_id Sample.reader Sample.reader_connection
               Sample.params 2) as [_ Hpresent];
    [reflexivity | reflexivity | reflexivity | repeat split | reflexivity |].
  split.
  - rewrite Habsent; [reflexivity |].
    intros r Hr. vm_compute in Hr.
    repeat (apply elem_of_cons in Hr as [->|Hr]; [vm_compute; discriminate |]).
    inversion Hr.
  - edestruct (Hpresent
                 [row_dict ["ID"; "SetupID"; "Chan"]
                           [SqlInteger 1; SqlInteger 1; SqlInteger 1]]
                 (row_dict ["ID"; "SetupID"; "Chan"]
                           [SqlInteger 2; SqlInteger 1; SqlInteger 2])
                 []) as [Hget _].
    + reflexivity.
    + intros x Hx. vm_compute in Hx.
      repeat (apply elem_of_cons in Hx as [->|Hx]; [vm_compute; eauto |]).
      inversion Hx.
    + reflexivity.
    + intros x Hx. inversion Hx.
    + rewrite Hget. reflexivity.
Defined.

(** *** Tables, rows and cells *)

Lemma ident_eqb_eq a b : ident_eqb a b = true <-> lower a = lower b.
Proof. unfold ident_eqb. apply String.eqb_eq. Qed.

Lemma ident_eqb_trans_false n0 n m :
  ident_eqb n0 n = true -> ident_eqb m n = false -> ident_eqb n0 m = false.
Proof.
  intros H1 H2. destruct (ident_eqb n0 m) eqn:H3; [| reflexivity].
  apply ident_eqb_eq in H1, H3.
  assert (H : ident_eqb m n = true) by (apply ident_eqb_eq; congruence).
  congruence.
Qed.

Lemma find_table_update_same db n t0 t :
  find_table db n = Some t0 -> find_table (update_table db n t) n = Some t.
Proof.
  unfold find_table. induction db as [|[n0 t1] db IH]; cbn; [discriminate |].
  destruct (ident_eqb n0 n) eqn:E; cbn; rewrite E; [reflexivity | exact IH].
Qed.

Lemma find_table_update_other db n m t :
  ident_eqb m n = false ->
  find_table (update_table db n t) m = find_table db m.
Proof.
  intros Hmn. unfold find_table. induction db as [|[n0 t1] db IH]; cbn; [reflexivity |].
  destruct (ident_eqb n0 n) eqn:E; cbn.
  - rewrite (ident_eqb_trans_false _ _ _ E Hmn). reflexivity.
  - destruct (ident_eqb n0 m); [reflexivity | exact IH].
Qed.

Lemma update_table_names db n t : map fst (update_table db n t) = map fst db.
Proof.
  induction db as [|[n0 t1] db IH]; cbn; [reflexivity |].
  destruct (ident_eqb n0 n); cbn; [reflexivity | rewrite IH; reflexivity].
Qed.

Lemma update_table_twice db n t1 t2 :
  update_table (update_table db n t1) n t2 = update_table db n t2.
Proof.
  induction db as [|[n0 t0] db IH]; cbn; [reflexivity |].
  destruct (ident_eqb n0 n) eqn:E; cbn; rewrite E; [reflexivity |].
  rewrite IH. reflexivity.
Qed.

Lemma update_table_same db n t :
  find_table db n = Some t -> update_table db n t = db.
Proof.
  unfold find_table. induction db as [|[n0 t0] db IH]; cbn; [reflexivity |].
  destruct (ident_eqb n0 n) eqn:E; cbn.
  - intros [= ->]. reflexivity.
  - intros H. rewrite (IH H). reflexivity.
Qed.

Lemma column_index_nth cols name i :
  column_index cols name = Some i ->
  exists c, nth_error cols i = Some c /\ ident_eqb c name = true.
Proof.
  revert i. induction cols as [|c cols IH]; intros i; cbn; [discriminate |].
  destruct (ident_eqb c name) eqn:E.
  - intros [= <-]. exists c. split; [reflexivity | exact E].
  - destruct (column_index cols name) as [j|]; [| discriminate].
    intros [= <-]. apply (IH j eq_refl).
Qed.

Lemma column_index_distinct cols a b i j :
  column_index cols a = Some i -> column_index cols b = Some j ->
  ident_eqb a b = false -> i <> j.
Proof.
  intros Ha Hb Hab ->.
  apply column_index_nth in Ha as (c & Hc & Hca).
  apply column_index_nth in Hb as (c' & Hc' & Hcb).
  rewrite Hc in Hc'. injection Hc' as <-.
  apply ident_eqb_eq in Hca, Hcb.
  assert (H : ident_eqb a b = true) by (apply ident_eqb_eq; congruence).
  congruence.
Qed.

Lemma nth_padded (l : list sqlvalue) n j :
  nth j (l ++ replicate n SqlNull) SqlNull = nth j l SqlNull.
Proof.
  destruct (Nat.lt_ge_cases j (length l)) as [H|H].
  - apply app_nth1. exact H.
  - rewrite app_nth2 by exact H. rewrite (nth_overflow l) by exact H.
    generalize (j - length l)%nat. intros k. revert k.
    induction n as [|n IH]; intros [|k]; cbn; auto.
Qed.

Lemma cell_set_cell_same i v r : cell i (set_cell i v r) = v.
Proof.
  unfold cell, set_cell. cbn [cells].
  rewrite nth_lookup, list_lookup_insert_eq; [reflexivity |].
  rewrite length_app, length_replicate. lia.
Qed.

Lemma cell_set_cell_other i j v r : j <> i -> cell j (set_cell i v r) = cell j r.
Proof.
  intros H. unfold cell, set_cell. cbn [cells].
  rewrite nth_lookup, list_lookup_insert_ne by congruence.
  rewrite <- nth_lookup. apply nth_padded.
Qed.

Lemma sql_eqb_text v key : sql_eqb v (SqlText key) = true <-> v = SqlText key.
Proof.
  destruct v; cbn; try (split; discriminate); apply bool_decide_eq_true.
Qed.

Lemma update_row_key ik iv key v r :
  ik <> iv -> cell ik (update_row ik iv key v r) = cell ik r.
Proof.
  intros H. unfold update_row. destruct (sql_eqb _ _); [| reflexivity].
  apply cell_set_cell_other. exact H.
Qed.

Lemma update_row_keys ik iv key v rs :
  ik <> iv -> map (cell ik) (map (update_row ik iv key v) rs) = map (cell ik) rs.
Proof.
  intros H. rewrite map_map. apply map_ext. intros r. apply update_row_key, H.
Qed.

Lemma update_row_absent ik iv key v rs :
  SqlText key ∉ map (cell ik) rs -> map (update_row ik iv key v) rs = rs.
Proof.
  induction rs as [|r rs IH]; cbn; [reflexivity |].
  intros H. rewrite IH.
  - unfold update_row. destruct (sql_eqb (cell ik r) (SqlText key)) eqn:E; [| reflexivity].
    apply sql_eqb_text in E. exfalso. apply H. rewrite E. left.
  - intros Hin. apply H. right. exact Hin.
Qed.

Lemma lower_app s t : lower (s +:+ t) = lower s +:+ lower t.
Proof.
  induction s as [|c s IH]; [reflexivity |].
  rewrite append_cons. cbn [lower]. rewrite append_cons, IH. reflexivity.
Qed.

Lemma append_inv_head s t1 t2 : s +:+ t1 = s +:+ t2 -> t1 = t2.
Proof.
  induction s as [|c s IH]; [exact id |].
  rewrite !append_cons. intros [= H]. apply IH, H.
Qed.

Lemma data_is_not_globalinfo prefix :
  ident_eqb (prefix +:+ "_data") (prefix +:+ "_globalinfo") = false.
Proof.
  destruct (ident_eqb _ _) eqn:E; [| reflexivity].
  apply ident_eqb_eq in E. rewrite !lower_app in E.
  apply append_inv_head in E. discriminate.
Qed.

(** *** Integers as text *)

Lemma digits_of_pos p :
  exists c s,
    NilEmpty.string_of_uint (Pos.to_uint p) = String c s /\
    is_blank c = false /\ Ascii.eqb c "-" = false /\ Ascii.eqb c "+" = false /\
    Ascii.eqb c "0" = false.
Proof.
  pose proof (DecimalPos.Unsigned.to_uint_nonnil p) as Hnn.
  assert (Hn : Decimal.unorm (Pos.to_uint p) = Pos.to_uint p).
  { rewrite <- (DecimalPos.Unsigned.to_of (Pos.to_uint p)).
    rewrite DecimalPos.Unsigned.of_to. reflexivity. }
  pose proof (DecimalPos.Unsigned.to_uint_nonzero p) as Hnz.
  destruct (Pos.to_uint p) as [|d|d|d|d|d|d|d|d|d|d] eqn:E;
    try (eexists _, _; split; [reflexivity | repeat split; reflexivity]).
  - congruence.
  - exfalso. unfold Decimal.unorm in Hn. cbn [Decimal.nzhead] in Hn.
    pose proof (DecimalFacts.nzhead_nonzero d d) as Hd.
    destruct (Decimal.nzhead d) eqn:Ed; try congruence.
Qed.

Lemma literal_eval_pos other p :
  literal_eval other (NilEmpty.string_of_uint (Pos.to_uint p)) = Returns (PyInt (Zpos p)).
Proof.
  destruct (digits_of_pos p) as (c & s & E & Hb & Hm & Hp & H0).
  unfold literal_eval. rewrite E. cbn [lstrip]. rewrite Hb.
  unfold split_sign. rewrite Hm, Hp. rewrite <- E.
  assert (Hu : NilZero.uint_of_string (NilEmpty.string_of_uint (Pos.to_uint p))
               = Some (Pos.to_uint p)).
  { rewrite E. cbn [NilZero.uint_of_string]. rewrite <- E. apply NilEmpty.usu. }
  rewrite Hu. rewrite E. cbn [leading_zeros_ok]. rewrite H0. cbn [negb orb].
  f_equal. f_equal.
  change (Z.of_uint (Pos.to_uint p)) with (Z.of_int (Z.to_int (Zpos p))).
  apply DecimalZ.of_to.
Qed.

(** [literal_eval] reads the decimal text of an integer as that integer. *)
Lemma literal_eval_str_of_int other z :
  literal_eval other (str_of_int z) = Returns (PyInt z).
Proof.
  destruct z as [|p|p].
  - reflexivity.
  - unfold str_of_int. cbn [Z.to_int NilZero.string_of_int].
    replace (NilZero.string_of_uint (Pos.to_uint p))
      with (NilEmpty.string_of_uint (Pos.to_uint p)).
    + apply literal_eval_pos.
    + pose proof (DecimalPos.Unsigned.to_uint_nonnil p).
      destruct (Pos.to_uint p); try reflexivity. congruence.
  - unfold str_of_int. cbn [Z.to_int NilZero.string_of_int].
    replace (NilZero.string_of_uint (Pos.to_uint p))
      with (NilEmpty.string_of_uint (Pos.to_uint p)).
    + destruct (digits_of_pos p) as (c & s & E & Hb & Hm & Hp & H0).
      unfold literal_eval. cbn [lstrip]. 
      change (is_blank "-") with false. cbn iota.
      unfold split_sign. change (Ascii.eqb "-" "-") with true. cbn iota.
      assert (Hu : NilZero.uint_of_string (NilEmpty.string_of_uint (Pos.to_uint p))
                   = Some (Pos.to_uint p)).
      { rewrite E. cbn [NilZero.uint_of_string]. rewrite <- E. apply NilEmpty.usu. }
      rewrite Hu. rewrite E. cbn [leading_zeros_ok]. rewrite H0. cbn [negb orb].
      f_equal. f_equal.
      change (- Z.of_uint (Pos.to_uint p)) with (Z.of_int (Z.to_int (Zneg p))).
      apply DecimalZ.of_to.
    + pose proof (DecimalPos.Unsigned.to_uint_nonnil p).
      destruct (Pos.to_uint p); try reflexivity. congruence.
Qed.

Lemma try_convert_string_int other z :
  try_convert_string other (str (SqlInteger z)) = Returns (PyInt z).
Proof.
  unfold try_convert_string. cbn [str]. rewrite literal_eval_str_of_int. reflexivity.
Qed.

Lemma try_convert_string_null other :
  try_convert_string other (str SqlNull) = Returns PyNone.
Proof. reflexivity. Qed.

(** *** The aggregate MAX *)

Lemma sql_max_integers_from zs a :
  fold_left (fun acc v =>
               match v, acc with
               | SqlNull, _ => acc
               | _, SqlNull => v
               | _, _ => if sql_lt acc v then v else acc
               end) (map SqlInteger zs) (SqlInteger a)
  = SqlInteger (fold_left Z.max zs a).
Proof.
  revert a. induction zs as [|z zs IH]; intros a; [reflexivity |].
  cbn [map fold_left sql_lt]. destruct (Z.ltb_spec a z).
  - rewrite IH. f_equal. f_equal. lia.
  - rewrite IH. f_equal. f_equal. lia.
Qed.

Lemma fold_max_bounds zs a :
  a <= fold_left Z.max zs a /\
  (forall z, In z zs -> z <= fold_left Z.max zs a) /\
  (fold_left Z.max zs a = a \/ In (fold_left Z.max zs a) zs).
Proof.
  revert a. induction zs as [|z zs IH]; intros a; cbn.
  - split; [lia |]. split; [tauto | left; reflexivity].
  - destruct (IH (Z.max a z)) as (H1 & H2 & H3).
    split; [lia |]. split.
    + intros y [<-|Hy]; [lia | apply H2, Hy].
    + destruct H3 as [H3|H3]; [| right; right; exact H3].
      rewrite H3. destruct (Z.max_spec a z) as [[_ ->]|[_ ->]]; [right; left | left];
        reflexivity.
Qed.

Lemma string_ltb_lt s t : String.ltb s t = true <-> String_as_OT.lt s t.
Proof.
  unfold String.ltb. rewrite <- String_as_OT.cmp_lt. unfold String_as_OT.cmp.
  destruct (String.compare s t); split; congruence.
Qed.

Lemma sql_lt_irrefl v : sql_lt v v = false.
Proof.
  destruct v as [|z|t]; cbn; [reflexivity | apply Z.ltb_irrefl |].
  destruct (String.ltb t t) eqn:E; [| reflexivity].
  apply string_ltb_lt in E. exfalso. exact (String_as_OT.lt_not_eq _ _ E eq_refl).
Qed.

Lemma sql_lt_trans a b c :
  sql_lt a b = true -> sql_lt b c = true -> sql_lt a c = true.
Proof.
  destruct a as [|x|s], b as [|y|t], c as [|z|u]; cbn; try congruence.
  - intros H1 H2. apply Z.ltb_lt in H1, H2. apply Z.ltb_lt. lia.
  - intros H1 H2. apply string_ltb_lt in H1, H2. apply string_ltb_lt.
    exact (String_as_OT.lt_trans _ _ _ H1 H2).
Qed.

Lemma sql_lt_null v : v <> SqlNull -> sql_lt v SqlNull = false.
Proof. destruct v; [congruence | reflexivity | reflexivity]. Qed.

Lemma largest_step seen acc v :
  largest seen acc ->
  largest (seen ++ [v])
          match v, acc with
          | SqlNull, _ => acc
          | _, SqlNull => v
          | _, _ => if sql_lt acc v then v else acc
          end.
Proof.
  intros [[-> Hall]|(Hacc & Hin & Hall)].
  - destruct v as [|z|t].
    + left. split; [reflexivity |]. apply Forall_app. split; [exact Hall |].
      constructor; [reflexivity | constructor].
    + right. split; [discriminate |]. split; [apply elem_of_app; right; left |].
      apply Forall_app. split.
      * eapply Forall_impl; [exact Hall |]. intros u ->. reflexivity.
      * constructor; [apply sql_lt_irrefl | constructor].
    + right. split; [discriminate |]. split; [apply elem_of_app; right; left |].
      apply Forall_app. split.
      * eapply Forall_impl; [exact Hall |]. intros u ->. reflexivity.
      * constructor; [apply sql_lt_irrefl | constructor].
  - assert (Hkeep : forall w, sql_lt acc w = false -> largest (seen ++ [w]) acc).
    { intros w Hw. right. split; [exact Hacc |].
      split; [apply elem_of_app; left; exact Hin |].
      apply Forall_app. split; [exact Hall |]. constructor; [exact Hw | constructor]. }
    assert (Htake : forall w, w <> SqlNull -> sql_lt acc w = true ->
                              largest (seen ++ [w]) w).
    { intros w Hw Hlt. right. split; [exact Hw |].
      split; [apply elem_of_app; right; left |].
      apply Forall_app. split.
      - eapply Forall_impl; [exact Hall |]. intros u Hu. cbn beta in Hu.
        destruct (sql_lt w u) eqn:E; [| reflexivity].
        rewrite (sql_lt_trans _ _ _ Hlt E) in Hu. discriminate Hu.
      - constructor; [apply sql_lt_irrefl | constructor]. }
    destruct v as [|z|t].
    + apply Hkeep, sql_lt_null, Hacc.
    + destruct acc as [|y|u]; [congruence | |];
        (destruct (sql_lt _ (SqlInteger z)) eqn:E;
         [apply Htake; [discriminate | exact E] | apply Hkeep, E]).
    + destruct acc as [|y|u]; [congruence | |];
        (destruct (sql_lt _ (SqlText t)) eqn:E;
         [apply Htake; [discriminate | exact E] | apply Hkeep, E]).
Qed.

(** [MAX] gives the largest value that is not NULL, and NULL when there is
    none. *)
Lemma sql_max_largest vs : largest vs (sql_max vs).
Proof.
  unfold sql_max.
  assert (H : forall rest seen acc,
             largest seen acc ->
             largest (seen ++ rest)
               (fold_left (fun acc v =>
                             match v, acc with
                             | SqlNull, _ => acc
                             | _, SqlNull => v
                             | _, _ => if sql_lt acc v then v else acc
                             end) rest acc)).
  { induction rest as [|v rest IH]; intros seen acc Hl.
    - rewrite app_nil_r. exact Hl.
    - cbn [fold_left]. replace (seen ++ v :: rest)%list with ((seen ++ [v]) ++ rest)%list
        by (rewrite <- app_assoc; reflexivity).
      apply IH, largest_step, Hl. }
  apply (H vs [] SqlNull). left. split; [reflexivity | constructor].
Qed.

(** [MAX(rowid)]: NULL on the empty table, and otherwise the rowid of a row
    that no other rowid exceeds. *)
Lemma max_rowid_spec (rs : list row) :
  (rs = [] /\ sql_max (map (fun r => SqlInteger (rowid r)) rs) = SqlNull) \/
  (exists m,
     sql_max (map (fun r => SqlInteger (rowid r)) rs) = SqlInteger m /\
     (forall r, In r rs -> rowid r <= m) /\
     (exists r, In r rs /\ rowid r = m)).
Proof.
  destruct rs as [|r0 rs]; [left; split; reflexivity | right].
  unfold sql_max. cbn [map fold_left].
  rewrite <- (map_map rowid SqlInteger), sql_max_integers_from.
  destruct (fold_max_bounds (map rowid rs) (rowid r0)) as (H1 & H2 & H3).
  eexists. split; [reflexivity |]. split.
  - intros r [<-|Hr]; [exact H1 |]. apply H2, in_map, Hr.
  - destruct H3 as [H3|H3].
    + exists r0. split; [left; reflexivity | symmetry; exact H3].
    + apply in_map_iff in H3 as (r & Hr & Hin).
      exists r. split; [right; exact Hin | exact Hr].
Qed.

(** *** The globalinfo dict *)

Section Globalinfo.

Variable other : string -> outcome pyvalue.
Variables ik iv : nat.

Lemma globalinfo_dict_dom rs d d' :
  globalinfo_dict other (map (key_value ik iv) rs) d = Returns d' ->
  forall k, k ∈ dom d' <-> k ∈ dom d \/ k ∈ map (cell ik) rs.
Proof.
  revert d. induction rs as [|r rs IH]; intros d; cbn [map globalinfo_dict].
  - intros [= <-] k. rewrite elem_of_nil. tauto.
  - cbn [key_value nth].
    destruct (try_convert_string other (str (cell iv r))) as [v|e]; [| discriminate].
    intros H k. rewrite (IH _ H k), dom_insert, elem_of_union, elem_of_singleton,
      elem_of_cons. tauto.
Qed.

Lemma globalinfo_dict_decodes rs d d' :
  globalinfo_dict other (map (key_value ik iv) rs) d = Returns d' ->
  Forall (decodes other iv) rs.
Proof.
  revert d. induction rs as [|r rs IH]; intros d; cbn [map globalinfo_dict].
  - constructor.
  - cbn [key_value nth].
    destruct (try_convert_string other (str (cell iv r))) as [v|e] eqn:E; [| discriminate].
    intros H. constructor; [exists v; exact E | exact (IH _ H)].
Qed.

Lemma globalinfo_dict_returns rs d :
  Forall (decodes other iv) rs ->
  exists d', globalinfo_dict other (map (key_value ik iv) rs) d = Returns d'.
Proof.
  intros H. revert d. induction H as [|r rs [v Hv] _ IH]; intros d.
  - exists d. reflexivity.
  - cbn [map globalinfo_dict key_value nth]. rewrite Hv. apply IH.
Qed.

Lemma globalinfo_dict_lookup rs d d' k v :
  globalinfo_dict other (map (key_value ik iv) rs) d = Returns d' ->
  (forall r, In r rs -> cell ik r = k ->
             try_convert_string other (str (cell iv r)) = Returns v) ->
  d !! k = Some v \/ k ∈ map (cell ik) rs ->
  d' !! k = Some v.
Proof.
  revert d. induction rs as [|r rs IH]; intros d; cbn [map globalinfo_dict].
  - intros [= <-] _ [H|H]; [exact H | inversion H].
  - cbn [key_value nth].
    destruct (try_convert_string other (str (cell iv r))) as [v0|e] eqn:E; [| discriminate].
    intros H Hall Hk. apply (IH _ H).
    + intros r' Hr'. apply Hall. right. exact Hr'.
    + destruct (decide (k ∈ map (cell ik) rs)) as [Hin|Hnin]; [right; exact Hin | left].
      destruct (decide (cell ik r = k)) as [Heq|Hne].
      * rewrite Heq, lookup_insert_eq.
        assert (Hv := Hall r (or_introl eq_refl) Heq).
        rewrite E in Hv. injection Hv as ->. reflexivity.
      * rewrite lookup_insert_ne by exact Hne.
        destruct Hk as [Hk|Hk]; [exact Hk |].
        apply elem_of_cons in Hk as [Hk|Hk]; [congruence | contradiction].
Qed.

Lemma globalinfo_run st c g :
  _connected (self st) = true ->
  _connection (self st) = Some c -> conn_closed c = false ->
  find_table (conn_data c) (_table_globalinfo (self st)) = Some g ->
  column_index (table_columns g) "Key" = Some ik ->
  column_index (table_columns g) "Value" = Some iv ->
  globalinfo other st
  = (match globalinfo_dict other (map (key_value ik iv) (table_rows g)) ∅ with
     | Returns d => Returns d
     | Raises e => Raises e
     end,
     logged (Call_execute (SELECT_Key_Value (_table_globalinfo (self st)))) st).
Proof.
  intros H0 H1 H2 Hg Hk Hv. unfold globalinfo.
  rewrite (bind_returns _ _ _ _ _ (connection_open_handle _ H0)).
  mstep. rewrite bind_run, (execute_select st c _ H1 H2); [| reflexivity].
  cbn [run_select]. rewrite Hg, Hk, Hv. cbn [fetchall].
  destruct (globalinfo_dict other _ ∅); reflexivity.
Qed.

End Globalinfo.

(** *** The recompute *)

Lemma with_data_same c : with_data (conn_data c) c = c.
Proof. destruct c. reflexivity. Qed.

Lemma set_connection_same o c : _connection o = Some c -> set_connection (Some c) o = o.
Proof. destruct o. cbn. intros ->. reflexivity. Qed.

Lemma update_rows_absent ik iv key v g :
  SqlText key ∉ map (cell ik) (table_rows g) -> update_rows ik iv key v g = g.
Proof.
  intros H. unfold update_rows. rewrite (update_row_absent _ _ _ _ _ H).
  destruct g. reflexivity.
Qed.

Lemma run_update_ok db prefix agg key g data ik iv v :
  find_table db (prefix +:+ "_globalinfo") = Some g ->
  find_table db (prefix +:+ "_data") = Some data ->
  column_index (table_columns g) "Key" = Some ik ->
  column_index (table_columns g) "Value" = Some iv ->
  eval_aggregate agg data = Returns v ->
  run_update db prefix agg key
  = Returns (update_table db (prefix +:+ "_globalinfo") (update_rows ik iv key v g)).
Proof.
  intros Hg Hd Hk Hv Ha. unfold run_update. rewrite Hg, Hv, Hd, Ha, Hk. reflexivity.
Qed.

(** One of the two guarded statements: with the key in the table the UPDATE
    is executed, without it nothing is; either way the table the connection
    sees afterwards is [update_rows] of the one before. *)
Lemma recompute_if (b : bool) st c prefix agg key g data ik iv v :
  _connected (self st) = true ->
  _connection (self st) = Some c -> conn_closed c = false ->
  conn_writable c = true ->
  find_table (conn_data c) (prefix +:+ "_globalinfo") = Some g ->
  find_table (conn_data c) (prefix +:+ "_data") = Some data ->
  column_index (table_columns g) "Key" = Some ik ->
  column_index (table_columns g) "Value" = Some iv ->
  b = has_key ik g key ->
  (b = true -> eval_aggregate agg data = Returns v) ->
  (if b then
     connection ;;; execute (UPDATE_globalinfo prefix agg key) ;;; ret tt
   else ret tt) st
  = (Returns tt,
     {| self := set_connection
                  (Some (with_data
                           (update_table (conn_data c) (prefix +:+ "_globalinfo")
                                         (update_rows ik iv key v g)) c))
                  (self st);
        files := files st;
        calls := calls st
                 ++ (if b then [Call_execute (UPDATE_globalinfo prefix agg key)]
                     else []) |}).
Proof.
  intros H0 H1 H2 Hw Hg Hd Hk Hv Hb Ha. destruct b.
  - rewrite (bind_returns _ _ _ _ _ (connection_open_handle _ H0)).
    rewrite bind_run, (execute_update st c _ _ _ H1 H2 Hw).
    rewrite (run_update_ok _ _ _ _ _ _ _ _ _ Hg Hd Hk Hv (Ha eq_refl)).
    reflexivity.
  - symmetry in Hb. apply bool_decide_eq_false in Hb.
    rewrite (update_rows_absent _ _ _ _ _ Hb), (update_table_same _ _ _ Hg),
      with_data_same, (set_connection_same _ _ H1), app_nil_r.
    destruct st. reflexivity.
Qed.

Lemma has_key_update_rows ik iv key v g k :
  ik <> iv -> has_key ik (update_rows ik iv key v g) k = has_key ik g k.
Proof.
  intros H. unfold has_key, update_rows. cbn [table_rows].
  rewrite (update_row_keys _ _ _ _ _ H). reflexivity.
Qed.

Section Recompute.

Variable other : string -> outcome pyvalue.
Variables (st : state) (c : Connection) (g data : table) (ik iv : nat)
          (info : gmap sqlvalue pyvalue).

Let prefix := _table_prefix (self st).
Let gname := prefix +:+ "_globalinfo".

Hypothesis Hrw : _readonly (self st) = false.
Hypothesis Hcon : _connected (self st) = true.
Hypothesis Hc : _connection (self st) = Some c.
Hypothesis Hopen : conn_closed c = false.
Hypothesis Hw : conn_writable c = true.
Hypothesis Hname : _table_globalinfo (self st) = gname.
Hypothesis Hg : find_table (conn_data c) gname = Some g.
Hypothesis Hd : find_table (conn_data c) (prefix +:+ "_data") = Some data.
Hypothesis Hik : column_index (table_columns g) "Key" = Some ik.
Hypothesis Hiv : column_index (table_columns g) "Value" = Some iv.
Hypothesis Hinfo :
  globalinfo_dict other (map (key_value ik iv) (table_rows g)) ∅ = Returns info.
Hypothesis Htrai :
  has_key ik g "TRAI" = true -> is_Some (column_index (table_columns data) "TRAI").

Lemma key_in_info k :
  bool_decide (SqlText k ∈ dom info) = has_key ik g k.
Proof.
  unfold has_key. apply bool_decide_ext.
  rewrite (globalinfo_dict_dom _ _ _ _ _ _ Hinfo), dom_empty, elem_of_empty. tauto.
Qed.

Lemma key_value_distinct : ik <> iv.
Proof. eapply column_index_distinct; [exact Hik | exact Hiv | reflexivity]. Qed.

Lemma update_globalinfo_run :
  _update_globalinfo other st
  = (Returns tt,
     {| self := set_connection
                  (Some (with_data
                           (update_table (conn_data c) gname (recomputed ik iv data g))
                           c))
                  (self st);
        files := files st;
        calls := calls st
                 ++ Call_execute (SELECT_Key_Value gname)
                 :: (if has_key ik g "ValidSets"
                     then [Call_execute (UPDATE_globalinfo prefix MAX_rowid "ValidSets")]
                     else [])
                 ++ (if has_key ik g "TRAI"
                     then [Call_execute (UPDATE_globalinfo prefix (MAX_column "TRAI") "TRAI")]
                     else []) |}).
Proof.
  unfold _update_globalinfo, require_write_access. mstep. rewrite Hrw.
  rewrite <- Hname in Hg.
  rewrite bind_run, (globalinfo_run other ik iv st c g Hcon Hc Hopen Hg Hik Hiv), Hinfo.
  rewrite Hname in Hg |- *.
  mstep. rewrite !key_in_info. fold prefix.
  rewrite bind_run.
  rewrite (recompute_if (has_key ik g "ValidSets") _ c prefix MAX_rowid "ValidSets"
             g data ik iv (max_rowid data));
    [| exact Hcon | exact Hc | exact Hopen | exact Hw | exact Hg | exact Hd
     | exact Hik | exact Hiv | reflexivity | reflexivity ].
  rewrite (recompute_if (has_key ik g "TRAI") _
             (with_data (update_table (conn_data c) gname
                           (update_rows ik iv "ValidSets" (max_rowid data) g)) c)
             prefix (MAX_column "TRAI") "TRAI"
             (update_rows ik iv "ValidSets" (max_rowid data) g) data ik iv
             (max_trai data)).
  - cbn [self files calls set_connection with_data conn_data logged
         _filename _readonly _connected _connection _table_prefix _table_main
         _table_fieldinfo _table_globalinfo _table_params
         conn_file conn_writable check_same_thread conn_pragmas conn_closed].
    rewrite update_table_twice. unfold recomputed.
    rewrite <- !app_assoc. reflexivity.
  - exact Hcon.
  - reflexivity.
  - exact Hopen.
  - exact Hw.
  - cbn [conn_data with_data]. eapply find_table_update_same, Hg.
  - cbn [conn_data with_data].
    rewrite find_table_update_other; [exact Hd | apply data_is_not_globalinfo].
  - exact Hik.
  - exact Hiv.
  - symmetry. apply has_key_update_rows, key_value_distinct.
  - intros Hb. destruct (Htrai Hb) as [it Hit].
    unfold max_trai. cbn [eval_aggregate]. rewrite Hit. reflexivity.
Qed.

End Recompute.

Lemma update_row_eq ik iv key v r :
  update_row ik iv key v r
  = if decide (cell ik r = SqlText key) then set_cell iv v r else r.
Proof.
  unfold update_row. destruct (decide (cell ik r = SqlText key)) as [E|E].
  - apply sql_eqb_text in E. rewrite E. reflexivity.
  - destruct (sql_eqb (cell ik r) (SqlText key)) eqn:E'; [| reflexivity].
    apply sql_eqb_text in E'. contradiction.
Qed.

Lemma recomputed_row_spec ik iv vmax tmax r :
  ik <> iv ->
  recomputed_row ik iv vmax tmax r
    (update_row ik iv "TRAI" tmax (update_row ik iv "ValidSets" vmax r)).
Proof.
  intros Hne. unfold recomputed_row.
  rewrite (update_row_eq ik iv "ValidSets"), (update_row_eq ik iv "TRAI").
  destruct (decide (cell ik r = SqlText "ValidSets")) as [E1|E1].
  - pose proof (cell_set_cell_other iv ik vmax r Hne) as K.
    destruct (decide (cell ik (set_cell iv vmax r) = SqlText "TRAI")) as [E|_].
    { rewrite K, E1 in E. discriminate E. }
    repeat split.
    + exact K.
    + intros j Hj. apply cell_set_cell_other, Hj.
    + intros _. apply cell_set_cell_same.
    + rewrite E1. discriminate.
    + intros H. contradiction.
  - destruct (decide (cell ik r = SqlText "TRAI")) as [E2|E2].
    + repeat split.
      * apply cell_set_cell_other, Hne.
      * intros j Hj. apply cell_set_cell_other, Hj.
      * intros H. contradiction.
      * intros _. apply cell_set_cell_same.
      * intros _ H. contradiction.
    + repeat split; intros; try contradiction; reflexivity.
Qed.

Lemma Forall2_map_self {A} (R : A -> A -> Prop) (h : A -> A) (l : list A) :
  (forall x, R x (h x)) -> Forall2 R l (map h l).
Proof.
  intros H. induction l as [|x l IH]; cbn; constructor; [apply H | exact IH].
Qed.

Lemma recomputed_rows ik iv data g :
  ik <> iv ->
  Forall2 (recomputed_row ik iv (max_rowid data) (max_trai data))
          (table_rows g) (table_rows (recomputed ik iv data g)).
Proof.
  intros Hne. unfold recomputed, update_rows. cbn [table_rows].
  rewrite map_map. apply Forall2_map_self. intros r.
  apply recomputed_row_spec, Hne.
Qed.

(** When the recompute returns: on a live write handle whose globalinfo
    values all convert, row by row, what the two statements leave. *)
Lemma update_globalinfo_returns other st c g data ik iv :
  _readonly (self st) = false ->
  _connected (self st) = true ->
  _connection (self st) = Some c -> conn_closed c = false ->
  conn_writable c = true ->
  _table_globalinfo (self st) = _table_prefix (self st) +:+ "_globalinfo" ->
  find_table (conn_data c) (_table_prefix (self st) +:+ "_globalinfo") = Some g ->
  find_table (conn_data c) (_table_prefix (self st) +:+ "_data") = Some data ->
  column_index (table_columns g) "Key" = Some ik ->
  column_index (table_columns g) "Value" = Some iv ->
  Forall (decodes other iv) (table_rows g) ->
  (has_key ik g "TRAI" = true -> is_Some (column_index (table_columns data) "TRAI")) ->
  exists st' c' g',
    _update_globalinfo other st = (Returns tt, st') /\
    _connection (self st') = Some c' /\
    files st' = files st /\
    find_table (conn_data c') (_table_prefix (self st) +:+ "_globalinfo") = Some g' /\
    (forall name,
       ident_eqb name (_table_prefix (self st) +:+ "_globalinfo") = false ->
       find_table (conn_data c') name = find_table (conn_data c) name) /\
    map fst (conn_data c') = map fst (conn_data c) /\
    table_columns g' = table_columns g /\
    Forall2 (recomputed_row ik iv (max_rowid data) (max_trai data))
            (table_rows g) (table_rows g') /\
    eval_aggregate MAX_rowid data = Returns (max_rowid data) /\
    (has_key ik g "TRAI" = true ->
     eval_aggregate (MAX_column "TRAI") data = Returns (max_trai data)) /\
    calls st'
    = (calls st
       ++ Call_execute (SELECT_Key_Value (_table_prefix (self st) +:+ "_globalinfo"))
       :: (if has_key ik g "ValidSets"
           then [Call_execute
                   (UPDATE_globalinfo (_table_prefix (self st)) MAX_rowid "ValidSets")]
           else [])
       ++ (if has_key ik g "TRAI"
           then [Call_execute
                   (UPDATE_globalinfo (_table_prefix (self st)) (MAX_column "TRAI") "TRAI")]
           else []))%list.
Proof.
  intros Hrw Hcon Hc Hopen Hw Hname Hg Hd Hik Hiv Hdec Htrai.
  destruct (globalinfo_dict_returns other ik iv _ ∅ Hdec) as [info Hinfo].
  pose proof (column_index_distinct _ _ _ _ _ Hik Hiv eq_refl) as Hne.
  eexists _, _, _.
  split; [exact (update_globalinfo_run other st c g data ik iv info
                   Hrw Hcon Hc Hopen Hw Hname Hg Hd Hik Hiv Hinfo Htrai) |].
  cbn [self files calls set_connection _connection with_data conn_data].
  split; [reflexivity |]. split; [reflexivity |].
  split; [eapply find_table_update_same, Hg |].
  split; [intros name Hn; apply find_table_update_other, Hn |].
  split; [apply update_table_names |].
  split; [reflexivity |].
  split; [apply recomputed_rows, Hne |].
  split; [reflexivity |].
  split; [| reflexivity].
  intros Hb. destruct (Htrai Hb) as [it Hit].
  unfold max_trai. cbn [eval_aggregate]. rewrite Hit. reflexivity.
Qed.


(** *** Closing a write handle and reading the file again *)

Lemma close_write_run other st c g data ik iv path :
  _readonly (self st) = false ->
  _connected (self st) = true ->
  _connection (self st) = Some c -> conn_closed c = false ->
  conn_writable c = true -> conn_file c = Some path ->
  _table_globalinfo (self st) = _table_prefix (self st) +:+ "_globalinfo" ->
  find_table (conn_data c) (_table_prefix (self st) +:+ "_globalinfo") = Some g ->
  find_table (conn_data c) (_table_prefix (self st) +:+ "_data") = Some data ->
  column_index (table_columns g) "Key" = Some ik ->
  column_index (table_columns g) "Value" = Some iv ->
  Forall (decodes other iv) (table_rows g) ->
  (has_key ik g "TRAI" = true -> is_Some (column_index (table_columns data) "TRAI")) ->
  let db' := update_table (conn_data c) (_table_prefix (self st) +:+ "_globalinfo")
                          (recomputed ik iv data g) in
  close other st
  = (Returns tt,
     {| self := set_connected false
                  (set_connection (Some (closed_connection (with_data db' c))) (self st));
        files := <[path := db']> (files st);
        calls := (calls st ++ recompute_calls (_table_prefix (self st)) ik g
                  ++ [Call_commit; Call_close])%list |}).
Proof.
  intros Hrw Hcon Hc Hopen Hw Hf Hname Hg Hd Hik Hiv Hdec Htrai db'.
  destruct (globalinfo_dict_returns other ik iv _ ∅ Hdec) as [info Hinfo].
  unfold close. mstep. rewrite Hcon, Hrw. cbn [negb].
  rewrite bind_run, bind_run.
  rewrite (update_globalinfo_run other st c g data ik iv info
             Hrw Hcon Hc Hopen Hw Hname Hg Hd Hik Hiv Hinfo Htrai).
  fold db'.
  rewrite (commit_run _ (with_data db' c) path);
    [| reflexivity | exact Hopen | exact Hf | exact Hw].
  cbn beta iota.
  rewrite bind_run, (connection_close_run _ (with_data db' c));
    [| reflexivity].
  unfold set_self, with_object, with_files, logged, recompute_calls.
  cbn [self files calls conn_data with_data].
  repeat (rewrite <- app_assoc || rewrite <- app_comm_cons).
  reflexivity.
Qed.

Lemma connect_readonly_plain fs f db :
  uri_plain f = true -> fs !! f = Some db ->
  sqlite3_connect fs (uri_of f true) false
  = (Returns {| conn_file := Some f; conn_writable := false;
                check_same_thread := false; conn_pragmas := [];
                conn_data := db; conn_closed := false |}, fs).
Proof.
  intros Hp Hf. rewrite (connect_plain _ _ _ _ Hp), Hf. reflexivity.
Qed.

Lemma max_rowid_decodes other data :
  try_convert_string other (str (max_rowid data))
  = Returns (match max_rowid data with SqlInteger m => PyInt m | _ => PyNone end).
Proof.
  unfold max_rowid.
  destruct (max_rowid_spec (table_rows data)) as [[_ ->]|(m & -> & _)].
  - reflexivity.
  - apply try_convert_string_int.
Qed.

Lemma recomputed_keys ik iv data g :
  ik <> iv ->
  map (cell ik) (table_rows (recomputed ik iv data g)) = map (cell ik) (table_rows g).
Proof.
  intros H. unfold recomputed, update_rows. cbn [table_rows].
  rewrite !(update_row_keys _ _ _ _ _ H). reflexivity.
Qed.

Lemma recomputed_in ik iv data g r' :
  ik <> iv ->
  In r' (table_rows (recomputed ik iv data g)) ->
  exists r, In r (table_rows g) /\
            recomputed_row ik iv (max_rowid data) (max_trai data) r r'.
Proof.
  intros Hne. unfold recomputed, update_rows. cbn [table_rows].
  rewrite map_map. intros (r & <- & Hr)%in_map_iff.
  exists r. split; [exact Hr | apply recomputed_row_spec, Hne].
Qed.

Lemma has_key_in ik g key r :
  In r (table_rows g) -> cell ik r = SqlText key -> has_key ik g key = true.
Proof.
  intros Hr Hk. unfold has_key. apply bool_decide_eq_true.
  rewrite <- Hk. apply list_elem_of_In, in_map, Hr.
Qed.

Lemma recomputed_decodes other ik iv data g :
  ik <> iv ->
  Forall (decodes other iv) (table_rows g) ->
  (has_key ik g "TRAI" = true ->
   exists v, try_convert_string other (str (max_trai data)) = Returns v) ->
  Forall (decodes other iv) (table_rows (recomputed ik iv data g)).
Proof.
  intros Hne Hdec Htrai. apply List.Forall_forall. intros r' Hr'.
  destruct (recomputed_in _ _ _ _ _ Hne Hr') as (r & Hr & _ & _ & _ & Hv & Ht & Hid).
  destruct (decide (cell ik r = SqlText "ValidSets")) as [E1|E1].
  - unfold decodes. rewrite (Hv E1), max_rowid_decodes. eexists. reflexivity.
  - destruct (decide (cell ik r = SqlText "TRAI")) as [E2|E2].
    + unfold decodes. rewrite (Ht E2). apply Htrai. eapply has_key_in; eassumption.
    + rewrite (Hid E1 E2). eapply List.Forall_forall in Hdec; eassumption.
Qed.

Lemma rows_run st c t :
  _connected (self st) = true ->
  _connection (self st) = Some c -> conn_closed c = false ->
  find_table (conn_data c) (_table_main (self st)) = Some t ->
  rows st
  = (Returns (SqlInteger (Z.of_nat (length (table_rows t)))),
     logged (Call_execute (SELECT_COUNT (_table_main (self st)))) st).
Proof.
  intros H0 H1 H2 Ht. unfold rows.
  rewrite (bind_returns _ _ _ _ _ (connection_open_handle _ H0)).
  mstep. rewrite bind_run, (execute_select st c _ H1 H2); [| reflexivity].
  cbn [run_select]. rewrite Ht. reflexivity.
Qed.

(** When the rowids of the data table are 1, 2, ..., n, as they are as long
    as rows are only appended, the largest rowid is the number of rows. *)
Lemma max_rowid_contiguous data n :
  map rowid (table_rows data) = map Z.of_nat (seq 1 n) -> (0 < n)%nat ->
  max_rowid data = SqlInteger (Z.of_nat (length (table_rows data))).
Proof.
  intros Hids Hn.
  assert (Hlen : length (table_rows data) = n).
  { rewrite <- (length_map rowid), Hids, length_map, length_seq. reflexivity. }
  unfold max_rowid.
  destruct (max_rowid_spec (table_rows data)) as [[He _]|(m & -> & Hub & r & Hr & Hm)].
  - rewrite He in Hlen. cbn in Hlen. lia.
  - f_equal. rewrite Hlen.
    assert (Hle : m <= Z.of_nat n).
    { assert (Hin : In m (map rowid (table_rows data))).
      { rewrite <- Hm. apply in_map, Hr. }
      rewrite Hids in Hin. apply in_map_iff in Hin as (k & <- & Hk).
      apply in_seq in Hk. lia. }
    assert (Hge : Z.of_nat n <= m).
    { assert (Hin : In (Z.of_nat n) (map rowid (table_rows data))).
      { rewrite Hids. apply in_map, in_seq. lia. }
      apply in_map_iff in Hin as (r' & <- & Hr'). apply Hub, Hr'. }
    lia.
Qed.

(** C3, as the code has it.  A live write handle on a plain file name,
    with a plain table prefix; its globalinfo table has the columns Key and
    Value and none named like the two keys, holds the key ["ValidSets"], and
    all its values convert; its data table declares no column named [rowid];
    and when globalinfo holds the key ["TRAI"], the data table has a TRAI
    column whose maximum converts.  Then [close()] returns: it makes the engine
    calls of the recompute, then [commit], then [close], and leaves the flag
    false.  Opening the file again read-only succeeds, [rows()] is the number
    of rows of the data table, and [globalinfo()] has under ["ValidSets"] the
    largest rowid of the data table, or [None] when the table is empty: not
    the number of rows, which it equals when the rowids are 1, ..., n. *)
Theorem close_then_reopen_ValidSets {RT : Runtime} other st c g data ik iv :
  _readonly (self st) = false ->
  _connected (self st) = true ->
  _connection (self st) = Some c -> conn_closed c = false ->
  conn_writable c = true ->
  conn_file c = Some (_filename (self st)) ->
  uri_plain (_filename (self st)) = true ->
  plain_tables (self st) ->
  _table_prefix (self st) +:+ "_data" ∈ map fst (conn_data c) ->
  find_table (conn_data c) (_table_prefix (self st) +:+ "_globalinfo") = Some g ->
  find_table (conn_data c) (_table_prefix (self st) +:+ "_data") = Some data ->
  summary_schema g data ->
  column_index (table_columns g) "Key" = Some ik ->
  column_index (table_columns g) "Value" = Some iv ->
  has_key ik g "ValidSets" = true ->
  Forall (decodes other iv) (table_rows g) ->
  (has_key ik g "TRAI" = true ->
   is_Some (column_index (table_columns data) "TRAI") /\
   exists v, try_convert_string other (str (max_trai data)) = Returns v) ->
  exists st1 st2 info,
    close other st = (Returns tt, st1) /\
    calls st1 = (calls st ++ recompute_calls (_table_prefix (self st)) ik g
                 ++ [Call_commit; Call_close])%list /\
    _connected (self st1) = false /\
    new_Database (files st1) (_filename (self st)) (_table_prefix (self st)) true None
    = (Returns tt, st2) /\
    fst (rows st2) = Returns (SqlInteger (Z.of_nat (length (table_rows data)))) /\
    fst (globalinfo other st2) = Returns info /\
    ((table_rows data = [] /\ info !! SqlText "ValidSets" = Some PyNone) \/
     (exists m,
        info !! SqlText "ValidSets" = Some (PyInt m) /\
        (forall r, In r (table_rows data) -> rowid r <= m) /\
        (exists r, In r (table_rows data) /\ rowid r = m))) /\
    (forall n,
       map rowid (table_rows data) = map Z.of_nat (seq 1 n) -> (0 < n)%nat ->
       info !! SqlText "ValidSets"
       = Some (PyInt (Z.of_nat (length (table_rows data))))).
Proof.
  intros Hrw Hcon Hc Hopen Hw Hf Hp Hplain Hmain Hg Hd _ Hik Hiv Hvs Hdec Htrai.
  destruct Hplain as (_ & _ & _ & Hname & _).
  pose proof (column_index_distinct _ _ _ _ _ Hik Hiv eq_refl) as Hne.
  set (prefix := _table_prefix (self st)) in *.
  set (f := _filename (self st)) in *.
  set (db' := update_table (conn_data c) (prefix +:+ "_globalinfo")
                           (recomputed ik iv data g)).
  set (ro := {| conn_file := Some f; conn_writable := false;
                check_same_thread := false; conn_pragmas := [];
                conn_data := db'; conn_closed := false |}).
  assert (Hclose := close_write_run other st c g data ik iv f
                      Hrw Hcon Hc Hopen Hw Hf Hname Hg Hd Hik Hiv Hdec
                      (fun H => proj1 (Htrai H))).
  cbv zeta in Hclose. fold prefix in Hclose. fold db' in Hclose.
  assert (Hconn : sqlite3_connect (<[f := db']> (files st)) (uri_of f true) (negb true)
                  = (Returns ro, <[f := db']> (files st))).
  { apply connect_readonly_plain; [exact Hp | apply lookup_insert_eq]. }
  assert (Hinit := init_connected _ f prefix true _ _ Hconn
                     (fun H => False_ind _ (diff_true_false H))).
  rewrite bool_decide_eq_true_2 in Hinit.
  2:{ cbn [conn_data ro]. unfold db'. rewrite update_table_names. exact Hmain. }
  assert (Hdec' : Forall (decodes other iv) (table_rows (recomputed ik iv data g))).
  { apply recomputed_decodes; [exact Hne | exact Hdec |].
    intros H. exact (proj2 (Htrai H)). }
  destruct (globalinfo_dict_returns other ik iv _ ∅ Hdec') as [info Hinfo].
  eexists _, _, info.
  split; [exact Hclose |]. split; [reflexivity |]. split; [reflexivity |].
  split; [exact Hinit |].
  split.
  { erewrite (rows_run _ ro data); [reflexivity | reflexivity | reflexivity | reflexivity |].
    cbn [self constructed _table_main conn_data ro]. unfold db'.
    rewrite find_table_update_other; [exact Hd | apply data_is_not_globalinfo]. }
  split.
  { erewrite (globalinfo_run other ik iv _ ro (recomputed ik iv data g));
      [rewrite Hinfo; reflexivity | reflexivity | reflexivity | reflexivity | | exact Hik | exact Hiv].
    cbn [self constructed _table_globalinfo conn_data ro]. unfold db'.
    eapply find_table_update_same, Hg. }
  assert (Hlook : info !! SqlText "ValidSets"
                  = Some (match max_rowid data with SqlInteger m => PyInt m | _ => PyNone end)).
  { eapply (globalinfo_dict_lookup other ik iv _ ∅ info); [exact Hinfo | |].
    - intros r' Hr' Hk.
      destruct (recomputed_in _ _ _ _ _ Hne Hr') as (r & Hr & _ & Hkey & _ & Hv & _).
      rewrite Hkey in Hk. rewrite (Hv Hk). apply max_rowid_decodes.
    - right. rewrite (recomputed_keys _ _ _ _ Hne).
      apply bool_decide_eq_true in Hvs. exact Hvs. }
  rewrite Hlook. split.
  - unfold max_rowid.
    destruct (max_rowid_spec (table_rows data)) as [[He ->]|(m & -> & Hub & Hmem)].
    + left. split; [exact He | reflexivity].
    + right. exists m. split; [reflexivity |]. split; [exact Hub | exact Hmem].
  - intros n Hids Hn. rewrite (max_rowid_contiguous data n Hids Hn). reflexivity.
Qed.

(** C3, as stated, fails: on the sample, where the second of three hits was
    deleted, the data table has 2 rows and the largest rowid is 3.  The key
    ["ValidSets"] is there; after [close()] on the write handle and a
    read-only reopen, [rows()] is 2 and [globalinfo()["ValidSets"]] is 3. *)
Lemma reopened_ValidSets_is_not_the_row_count :
  has_key 0 Sample.info "ValidSets" = true /\
  fst (close Sample.no_other Sample.writer) = Returns tt /\
  fst (new_Database (files (snd (close Sample.no_other Sample.writer)))
                    "sample.pridb" "pri" true None) = Returns tt /\
  fst (rows (snd (new_Database (files (snd (close Sample.no_other Sample.writer)))
                               "sample.pridb" "pri" true None)))
  = Returns (SqlInteger 2) /\
  exists info,
    fst (globalinfo Sample.no_other
           (snd (new_Database (files (snd (close Sample.no_other Sample.writer)))
                              "sample.pridb" "pri" true None)))
    = Returns info /\
    info !! SqlText "ValidSets" = Some (PyInt 3).
Proof.
  split; [vm_compute; reflexivity |].
  split; [vm_compute; reflexivity |].
  split; [vm_compute; reflexivity |].
  split; [vm_compute; reflexivity |].
  eexists. split; [vm_compute; reflexivity |].
  vm_compute. reflexivity.
Qed.

Lemma close_then_reopen_ValidSets_witness :
  exists st1 st2 info,
    close Sample.no_other Sample.writer = (Returns tt, st1) /\
    new_Database (files st1) "sample.pridb" "pri" true None = (Returns tt, st2) /\
    fst (globalinfo Sample.no_other st2) = Returns info /\
    exists m, info !! SqlText "ValidSets" = Some (PyInt m) /\
              forall r, In r (table_rows Sample.data) -> rowid r <= m.
Proof.
  destruct (close_then_reopen_ValidSets Sample.no_other Sample.writer
              Sample.writer_connection Sample.info Sample.data 0 1)
    as (st1 & st2 & info & Hclose & _ & _ & Hopen & _ & Hinfo
        & [[He _]|(m & Hm & Hub & _)] & _);
    try reflexivity.
  - repeat split.
  - apply list_elem_of_In. vm_compute. auto.
  - repeat split.
  - repeat constructor; eexists; vm_compute; reflexivity.
  - intros _. split; eexists; vm_compute; reflexivity.
  - discriminate He.
  - exists st1, st2, info. split; [exact Hclose |]. split; [exact Hopen |].
    split; [exact Hinfo |]. exists m. split; [exact Hm | exact Hub].
Defined.

(** *** Row dicts *)

Lemma row_dict_from cols (vals : list sqlvalue) (d : gmap string sqlvalue) c :
  c ∉ cols ->
  fold_left (fun d cv => <[fst cv := snd cv]> d) (combine cols vals) d !! c = d !! c.
Proof.
  revert vals d. induction cols as [|c0 cols IH]; intros vals d Hc; [reflexivity |].
  destruct vals as [|v vals]; [reflexivity |].
  cbn [combine fold_left fst snd]. rewrite IH.
  - apply lookup_insert_ne. intros ->. apply Hc. left.
  - intros H. apply Hc. right. exact H.
Qed.

Lemma row_dict_lookup cols (vals : list sqlvalue) (d : gmap string sqlvalue) i c :
  NoDup cols -> cols !! i = Some c -> (i < length vals)%nat ->
  fold_left (fun d cv => <[fst cv := snd cv]> d) (combine cols vals) d !! c
  = Some (nth i vals SqlNull).
Proof.
  revert vals d i. induction cols as [|c0 cols IH]; intros vals d i Hnd Hi Hlen;
    [discriminate |].
  destruct vals as [|v vals]; [cbn in Hlen; lia |].
  apply NoDup_cons in Hnd as [Hc0 Hnd].
  cbn [combine fold_left fst snd]. destruct i as [|i]; cbn in Hi, Hlen |- *.
  - injection Hi as <-. rewrite row_dict_from by exact Hc0. apply lookup_insert_eq.
  - apply IH; [exact Hnd | exact Hi | lia].
Qed.

(** In the dict of a row of [SELECT *], each column of the table has the
    row's cell under its name (a table has no two columns of one name). *)
Lemma row_dict_full_row t r i c :
  NoDup (table_columns t) -> table_columns t !! i = Some c ->
  row_dict (table_columns t) (full_row t r) !! c = Some (cell i r).
Proof.
  intros Hnd Hi. unfold row_dict, full_row.
  pose proof (lookup_lt_Some _ _ _ Hi) as Hlt.
  rewrite (row_dict_lookup _ _ _ i c Hnd Hi) by (rewrite length_map, length_seq; exact Hlt).
  f_equal. rewrite (nth_indep _ SqlNull (cell 0 r)) by (rewrite length_map, length_seq; exact Hlt).
  rewrite (map_nth (fun i => cell i r)), seq_nth by exact Hlt. reflexivity.
Qed.

(** *** The recompute, whatever its outcome *)

Lemma open_connection_inv st r st' :
  open_connection st = (r, st') ->
  st' = st /\
  forall c, r = Returns c -> _connection (self st) = Some c /\ conn_closed c = false.
Proof.
  unfold open_connection. destruct (_connection (self st)) as [c0|].
  - destruct (conn_closed c0) eqn:E; intros [= <- <-]; (split; [reflexivity |]);
      intros c [= <-]. split; [reflexivity | exact E].
  - intros [= <- <-]. split; [reflexivity |]. intros c [=].
Qed.

Lemma run_update_inv db prefix agg key db' :
  run_update db prefix agg key = Returns db' ->
  exists g ik iv v,
    find_table db (prefix +:+ "_globalinfo") = Some g /\
    column_index (table_columns g) "Key" = Some ik /\
    column_index (table_columns g) "Value" = Some iv /\
    db' = update_table db (prefix +:+ "_globalinfo") (update_rows ik iv key v g).
Proof.
  unfold run_update.
  destruct (find_table db (prefix +:+ "_globalinfo")) as [g|] eqn:Hg; [| discriminate].
  destruct (column_index (table_columns g) "Value") as [iv|] eqn:Hiv; [| discriminate].
  destruct (find_table db (prefix +:+ "_data")) as [data|]; [| discriminate].
  destruct (eval_aggregate agg data) as [v|]; [| discriminate].
  destruct (column_index (table_columns g) "Key") as [ik|] eqn:Hik; [| discriminate].
  intros [= <-]. exists g, ik, iv, v.
  split; [reflexivity |]. split; [exact Hik |]. split; [exact Hiv | reflexivity].
Qed.

(** What [execute] may change: nothing but the log for a SELECT and for a
    statement that fails; the content the connection sees for the UPDATE. *)
Lemma execute_inv q st r st' :
  execute q st = (r, st') ->
  files st' = files st /\
  (self st' = self st \/
   exists c prefix agg key db',
     q = UPDATE_globalinfo prefix agg key /\
     _connection (self st) = Some c /\
     run_update (conn_data c) prefix agg key = Returns db' /\
     self st' = set_connection (Some (with_data db' c)) (self st)).
Proof.
  unfold execute. mstep. rewrite bind_run.
  destruct (open_connection (logged (Call_execute q) st)) as [[c|e] st1] eqn:Ho.
  - apply open_connection_inv in Ho as [-> Hc].
    destruct (Hc c eq_refl) as [Hc1 _]. cbn [logged self] in Hc1.
    destruct q as [|tbl|tbl|tbl|prefix agg key|tbl]; cbn beta iota;
      try (destruct (run_select (conn_data c) _); unfold ret, raise;
           intros [= <- <-]; (split; [reflexivity | left; reflexivity])).
    destruct (run_update (conn_data c) prefix agg key) as [db'|e] eqn:Hu.
    + destruct (conn_writable c).
      * mstep. intros [= <- <-]. split; [reflexivity | right].
        exists c, prefix, agg, key, db'.
        split; [reflexivity |]. split; [exact Hc1 |]. split; [exact Hu | reflexivity].
      * unfold raise. intros [= <- <-]. split; [reflexivity | left; reflexivity].
    + unfold raise. intros [= <- <-]. split; [reflexivity | left; reflexivity].
  - apply open_connection_inv in Ho as [-> _].
    intros [= <- <-]. split; [reflexivity | left; reflexivity].
Qed.

Lemma connection_inv st r st' : connection st = (r, st') -> st' = st.
Proof.
  unfold connection. mstep. destruct (negb (_connected (self st)));
    intros [= <- <-]; reflexivity.
Qed.

Lemma globalinfo_inv other st r st' :
  globalinfo other st = (r, st') -> self st' = self st /\ files st' = files st.
Proof.
  unfold globalinfo. rewrite bind_run.
  destruct (connection st) as [[[]|e] st0] eqn:Hc; apply connection_inv in Hc as ->.
  - mstep. rewrite bind_run.
    destruct (execute _ st) as [[cur|e] st1] eqn:He;
      apply execute_inv in He as [Hf [Hs|(c & p & a & k & db' & [=] & _)]].
    + destruct (globalinfo_dict other (fetchall cur) ∅); unfold ret, raise;
        intros [= <- <-]; (split; assumption).
    + intros [= <- <-]. split; assumption.
  - intros [= <- <-]. split; reflexivity.
Qed.

(** One guarded statement, whatever its outcome. *)
Lemma guarded_update_inv (b : bool) prefix agg key st r st' :
  (if b then
     connection ;;; execute (UPDATE_globalinfo prefix agg key) ;;; ret tt
   else ret tt) st = (r, st') ->
  files st' = files st /\
  (self st' = self st \/
   exists c db',
     _connection (self st) = Some c /\
     run_update (conn_data c) prefix agg key = Returns db' /\
     self st' = set_connection (Some (with_data db' c)) (self st)).
Proof.
  destruct b.
  - rewrite bind_run.
    destruct (connection st) as [[[]|e] st0] eqn:Hc; apply connection_inv in Hc as ->.
    + rewrite bind_run.
      destruct (execute _ st) as [[cur|e] st1] eqn:He;
        apply execute_inv in He as [Hf Hs]; intros [= <- <-];
        (split; [exact Hf |]);
        (destruct Hs as [Hs|(c & p & a & k & db' & [= <- <- <-] & Hc & Hu & Hs)];
         [left; exact Hs | right; exists c, db'; repeat split; assumption]).
    + intros [= <- <-]. split; [reflexivity | left; reflexivity].
  - intros [= <- <-]. split; [reflexivity | left; reflexivity].
Qed.

Lemma kept_row_refl ik iv r : kept_row ik iv r r.
Proof. repeat split. Qed.

Lemma keys_kept_refl gname db : keys_kept gname db db.
Proof.
  split; [reflexivity |]. split; [reflexivity |].
  intros g ik iv Hg _ _. exists g. split; [exact Hg |]. split; [reflexivity |].
  apply Forall_Forall2_diag, List.Forall_forall. intros r _. apply kept_row_refl.
Qed.

Lemma kept_row_update ik iv key v r r1 :
  ik <> iv -> key = "ValidSets" \/ key = "TRAI" ->
  kept_row ik iv r r1 -> kept_row ik iv r (update_row ik iv key v r1).
Proof.
  intros Hne Hkey (H1 & H2 & H3 & H4). rewrite update_row_eq.
  destruct (decide (cell ik r1 = SqlText key)) as [E|E]; [| repeat split; assumption].
  split; [exact H1 |].
  split; [rewrite (cell_set_cell_other _ _ _ _ Hne); exact H2 |].
  split; [intros j Hj; rewrite (cell_set_cell_other _ _ _ _ Hj); apply H3, Hj |].
  intros Hv Ht. exfalso. rewrite H2 in E. destruct Hkey as [-> | ->]; contradiction.
Qed.

Lemma Forall2_map_r_step {A} (R : A -> A -> Prop) (h : A -> A) (l l1 : list A) :
  (forall x y, R x y -> R x (h y)) -> Forall2 R l l1 -> Forall2 R l (map h l1).
Proof.
  intros H HF. induction HF; cbn; constructor; auto.
Qed.

Lemma keys_kept_step prefix agg key db db1 db2 :
  key = "ValidSets" \/ key = "TRAI" ->
  keys_kept (prefix +:+ "_globalinfo") db db1 ->
  run_update db1 prefix agg key = Returns db2 ->
  keys_kept (prefix +:+ "_globalinfo") db db2.
Proof.
  intros Hkey (Hn & Ho & Hg) Hu.
  apply run_update_inv in Hu as (g1 & ik1 & iv1 & v & Hg1 & Hik1 & Hiv1 & ->).
  split; [rewrite update_table_names; exact Hn |].
  split; [intros name Hname; rewrite find_table_update_other by exact Hname;
          apply Ho, Hname |].
  intros g ik iv Hfind Hik Hiv.
  destruct (Hg g ik iv Hfind Hik Hiv) as (g' & Hg' & Hcols & Hrows).
  rewrite Hg1 in Hg'. injection Hg' as ->.
  rewrite Hcols in Hik1, Hiv1. rewrite Hik in Hik1. rewrite Hiv in Hiv1.
  injection Hik1 as <-. injection Hiv1 as <-.
  exists (update_rows ik iv key v g').
  split; [eapply find_table_update_same, Hg1 |].
  split; [exact Hcols |].
  cbn [update_rows table_rows]. apply Forall2_map_r_step; [| exact Hrows].
  intros x y. apply kept_row_update; [| exact Hkey].
  eapply column_index_distinct; [exact Hik | exact Hiv | reflexivity].
Qed.

Lemma guarded_update_keeps (b : bool) prefix agg key st r st' db :
  key = "ValidSets" \/ key = "TRAI" ->
  keys_kept (prefix +:+ "_globalinfo") db (session st) ->
  (if b then
     connection ;;; execute (UPDATE_globalinfo prefix agg key) ;;; ret tt
   else ret tt) st = (r, st') ->
  files st' = files st /\ keys_kept (prefix +:+ "_globalinfo") db (session st').
Proof.
  intros Hkey Hk H. apply guarded_update_inv in H as [Hf [Hs|(c & db' & Hc & Hu & Hs)]].
  - split; [exact Hf |]. unfold session. rewrite Hs. exact Hk.
  - split; [exact Hf |]. unfold session in Hk |- *. rewrite Hc in Hk. rewrite Hs.
    cbn [set_connection _connection with_data conn_data].
    eapply keys_kept_step; eassumption.
Qed.

(** Whatever [_update_globalinfo] does and however it ends, the files are
    not written, and the content the connection sees has the tables it had,
    all of them as they were but globalinfo, which has the rows and keys it
    had: nothing is inserted, and a row with a key other than the two is
    untouched. *)
Lemma update_globalinfo_keeps_keys other st r st' :
  _update_globalinfo other st = (r, st') ->
  files st' = files st /\
  keys_kept (_table_prefix (self st) +:+ "_globalinfo") (session st) (session st').
Proof.
  unfold _update_globalinfo, require_write_access. mstep.
  destruct (_readonly (self st)).
  { intros [= <- <-]. split; [reflexivity | apply keys_kept_refl]. }
  rewrite bind_run.
  destruct (globalinfo other st) as [[info|e] st0] eqn:Hgi;
    apply globalinfo_inv in Hgi as [Hs0 Hf0].
  2:{ intros [= <- <-]. split; [exact Hf0 |].
      unfold session. rewrite Hs0. apply keys_kept_refl. }
  mstep. rewrite Hs0. rewrite bind_run.
  set (gname := _table_prefix (self st) +:+ "_globalinfo").
  assert (H0 : keys_kept gname (session st) (session st0)).
  { unfold session. rewrite Hs0. apply keys_kept_refl. }
  match goal with
  | |- context [match ?m st0 with _ => _ end] =>
      destruct (m st0) as [[[]|e] st1] eqn:H1
  end.
  - apply (guarded_update_keeps _ _ _ _ _ _ _ (session st) (or_introl eq_refl) H0)
      in H1 as [Hf1 Hk1].
    intros H2.
    apply (guarded_update_keeps _ _ _ _ _ _ _ (session st) (or_intror eq_refl) Hk1)
      in H2 as [Hf2 Hk2].
    split; [congruence | exact Hk2].
  - apply (guarded_update_keeps _ _ _ _ _ _ _ (session st) (or_introl eq_refl) H0)
      in H1 as [Hf1 Hk1].
    intros [= <- <-]. split; [congruence | exact Hk1].
Qed.

Lemma recomputed_row_reads ik iv vmax tmax r r' :
  recomputed_row ik iv vmax tmax r r' -> summary_row ik iv vmax tmax r r'.
Proof.
  intros (H1 & H2 & H3 & H4 & H5 & H6).
  split; [exact H1 |]. split; [exact H2 |]. split; [exact H3 |].
  split; [intros H; rewrite (H4 H); reflexivity |].
  split; [intros H; rewrite (H5 H); reflexivity | exact H6].
Qed.

(** C4, as the code has it.  On a write handle with a plain table prefix
    whose globalinfo table has no column named like the two keys, whatever the
    recompute does and however it ends, the files are not written and the
    content the connection sees has the tables and, in globalinfo, the rows
    and keys it had: no key is inserted and a row with a key other than
    ["ValidSets"] and ["TRAI"] is untouched.  When moreover the handle is
    live, the globalinfo values all convert, the data table declares no
    column named [rowid] and has a TRAI column if the key ["TRAI"] is there,
    the recompute returns, and row by row the Value reads as the largest rowid
    of the data table for the Key ["ValidSets"] and as the largest TRAI value
    that is not NULL for the Key ["TRAI"] (as NULL when there is none), and
    the row is the same for any other Key; the statement of a key is executed
    only when the key is in the table, as the log of engine calls shows. *)
Theorem update_globalinfo_recomputes other st :
  _readonly (self st) = false ->
  plain_tables (self st) ->
  (forall g, find_table (session st) (_table_prefix (self st) +:+ "_globalinfo") = Some g ->
             column_index (table_columns g) "ValidSets" = None /\
             column_index (table_columns g) "TRAI" = None) ->
  (forall r st',
     _update_globalinfo other st = (r, st') ->
     files st' = files st /\
     keys_kept (_table_prefix (self st) +:+ "_globalinfo") (session st) (session st')) /\
  (forall c g data ik iv,
     _connected (self st) = true ->
     _connection (self st) = Some c -> conn_closed c = false ->
     conn_writable c = true ->
     find_table (conn_data c) (_table_prefix (self st) +:+ "_globalinfo") = Some g ->
     find_table (conn_data c) (_table_prefix (self st) +:+ "_data") = Some data ->
     column_index (table_columns data) "rowid" = None ->
     column_index (table_columns g) "Key" = Some ik ->
     column_index (table_columns g) "Value" = Some iv ->
     Forall (decodes other iv) (table_rows g) ->
     (has_key ik g "TRAI" = true ->
      is_Some (column_index (table_columns data) "TRAI")) ->
     exists st' c' g' vmax tmax,
       _update_globalinfo other st = (Returns tt, st') /\
       _connection (self st') = Some c' /\
       find_table (conn_data c') (_table_prefix (self st) +:+ "_globalinfo") = Some g' /\
       table_columns g' = table_columns g /\
       Forall2 (summary_row ik iv vmax tmax) (table_rows g) (table_rows g') /\
       ((table_rows data = [] /\ vmax = SqlNull) \/
        (exists m, vmax = SqlInteger m /\
                   (forall r, In r (table_rows data) -> rowid r <= m) /\
                   (exists r, In r (table_rows data) /\ rowid r = m))) /\
       (forall it, column_index (table_columns data) "TRAI" = Some it ->
                   largest (map (cell it) (table_rows data)) tmax) /\
       calls st'
       = (calls st ++ recompute_calls (_table_prefix (self st)) ik g)%list).
Proof.
  intros Hrw (_ & _ & _ & Hname & _) _. split.
  - intros r st'. apply update_globalinfo_keeps_keys.
  - intros c g data ik iv Hcon Hc Hopen Hw Hg Hd _ Hik Hiv Hdec Htrai.
    destruct (update_globalinfo_returns other st c g data ik iv
                Hrw Hcon Hc Hopen Hw Hname Hg Hd Hik Hiv Hdec Htrai)
      as (st' & c' & g' & H1 & H2 & _ & H4 & _ & _ & H7 & H8 & _ & _ & H11).
    exists st', c', g', (max_rowid data), (max_trai data).
    split; [exact H1 |]. split; [exact H2 |]. split; [exact H4 |].
    split; [exact H7 |].
    split; [eapply Forall2_impl; [exact H8 | intros x y; apply recomputed_row_reads] |].
    split.
    { unfold max_rowid.
      destruct (max_rowid_spec (table_rows data)) as [[He ->]|(m & -> & Hub & Hmem)].
      - left. split; [exact He | reflexivity].
      - right. exists m. split; [reflexivity |]. split; [exact Hub | exact Hmem]. }
    split; [| exact H11].
    intros it Hit. unfold max_trai. cbn [eval_aggregate]. rewrite Hit.
    apply sql_max_largest.
Qed.

(** C4, as stated, fails.  On the store whose globalinfo holds both keys and
    whose data table has no TRAI column, opened for writing, the recompute
    raises the engine's error at the statement for ["TRAI"]: the Value of
    ["ValidSets"] reads 2 in what the connection sees, that of ["TRAI"] is the
    ["0"] it was.  And on a write handle that was closed, the recompute is
    refused by [connection()] and updates nothing. *)
Lemma recompute_fails_on_write_handles :
  (_readonly (self Cases.untraced_writer) = false /\
   has_key 0 Sample.info "ValidSets" = true /\ has_key 0 Sample.info "TRAI" = true /\
   fst (_update_globalinfo Sample.no_other Cases.untraced_writer)
   = Raises (OperationalError "no such column: TRAI") /\
   option_map (fun c => find_table (conn_data c) "pri_globalinfo")
     (_connection (self (snd (_update_globalinfo Sample.no_other Cases.untraced_writer))))
   = Some (Some {| table_columns := ["Key"; "Value"];
                   table_rows :=
                     [ {| rowid := 1; cells := [SqlText "Version"; SqlText "123"] |};
                       {| rowid := 2; cells := [SqlText "ValidSets"; SqlInteger 2] |};
                       {| rowid := 3; cells := [SqlText "TRAI"; SqlText "0"] |} ] |})) /\
  (_readonly (self (snd (close Sample.no_other Sample.writer))) = false /\
   _update_globalinfo Sample.no_other (snd (close Sample.no_other Sample.writer))
   = (Raises not_connected, snd (close Sample.no_other Sample.writer))).
Proof.
  split.
  - split; [reflexivity |]. split; [vm_compute; reflexivity |].
    split; [vm_compute; reflexivity |]. split; vm_compute; reflexivity.
  - split; vm_compute; reflexivity.
Qed.

Lemma update_globalinfo_recomputes_witness :
  exists st' c' g' vmax tmax,
    _update_globalinfo Sample.no_other Sample.writer = (Returns tt, st') /\
    _connection (self st') = Some c' /\
    find_table (conn_data c') "pri_globalinfo" = Some g' /\
    Forall2 (summary_row 0 1 vmax tmax) (table_rows Sample.info) (table_rows g') /\
    (exists m, vmax = SqlInteger m /\
               forall r, In r (table_rows Sample.data) -> rowid r <= m) /\
    largest (map (cell 2) (table_rows Sample.data)) tmax.
Proof.
  destruct (update_globalinfo_recomputes Sample.no_other Sample.writer eq_refl)
    as [_ Hreturns].
  - repeat split.
  - intros g [= <-]. split; reflexivity.
  - destruct (Hreturns Sample.writer_connection Sample.info Sample.data 0%nat 1%nat)
      as (st' & c' & g' & vmax & tmax & Hrun & Hc' & Hg' & _ & Hrows & Hv & Ht & _);
      try reflexivity.
    + repeat constructor; eexists; vm_compute; reflexivity.
    + intros _. eexists. reflexivity.
    + exists st', c', g', vmax, tmax.
      split; [exact Hrun |]. split; [exact Hc' |]. split; [exact Hg' |].
      split; [exact Hrows |]. split; [| exact (Ht 2%nat eq_refl)].
      destruct Hv as [[He _]|(m & Hm & Hub & _)]; [discriminate He |].
      exists m. split; [exact Hm | exact Hub].
Defined.

(** ** Further properties *)

(** *** What the methods leave alone *)

Lemma same_identity_refl o : same_identity o o.
Proof. repeat split. Qed.

Lemma same_link_refl c : same_link c c.
Proof. repeat split. Qed.

Lemma same_but_content_refl o : same_but_content o o.
Proof.
  split; [apply same_identity_refl |]. split; [reflexivity |].
  destruct (_connection o); [apply same_link_refl | exact I].
Qed.

Lemma same_but_content_trans o1 o2 o3 :
  same_but_content o1 o2 -> same_but_content o2 o3 -> same_but_content o1 o3.
Proof.
  intros ((A1 & A2 & A3 & A4 & A5 & A6 & A7) & B & C)
         ((D1 & D2 & D3 & D4 & D5 & D6 & D7) & E & F).
  split; [repeat split; congruence |]. split; [congruence |].
  destruct (_connection o1), (_connection o2), (_connection o3); try contradiction;
    [| exact I].
  destruct C as (C1 & C2 & C3 & C4 & C5), F as (F1 & F2 & F3 & F4 & F5).
  repeat split; congruence.
Qed.

Lemma same_but_content_with_data o c db :
  _connection o = Some c ->
  same_but_content o (set_connection (Some (with_data db c)) o).
Proof.
  intros H. split; [repeat split |]. split; [reflexivity |].
  rewrite H. cbn. repeat split.
Qed.

Lemma guarded_update_attrs (b : bool) prefix agg key st r st' :
  (if b then
     connection ;;; execute (UPDATE_globalinfo prefix agg key) ;;; ret tt
   else ret tt) st = (r, st') ->
  same_but_content (self st) (self st').
Proof.
  intros H. apply guarded_update_inv in H as [_ [Hs|(c & db' & Hc & _ & Hs)]];
    rewrite Hs; [apply same_but_content_refl | apply same_but_content_with_data, Hc].
Qed.

(** Whatever [_update_globalinfo] does, the object differs afterwards at most
    in the content its connection sees. *)
Lemma update_globalinfo_attrs other st r st' :
  _update_globalinfo other st = (r, st') ->
  same_but_content (self st) (self st').
Proof.
  unfold _update_globalinfo, require_write_access. mstep.
  destruct (_readonly (self st)).
  { intros [= <- <-]. apply same_but_content_refl. }
  rewrite bind_run.
  destruct (globalinfo other st) as [[info|e] st0] eqn:Hgi;
    apply globalinfo_inv in Hgi as [Hs0 _].
  2:{ intros [= <- <-]. rewrite Hs0. apply same_but_content_refl. }
  mstep. rewrite bind_run.
  match goal with
  | |- context [match ?m st0 with _ => _ end] =>
      destruct (m st0) as [[[]|e] st1] eqn:H1
  end; apply guarded_update_attrs in H1; rewrite Hs0 in H1.
  - intros H2. apply guarded_update_attrs in H2.
    eapply same_but_content_trans; eassumption.
  - intros [= <- <-]. exact H1.
Qed.

Lemma execute_select_inv q st r st' :
  is_select q = true -> execute q st = (r, st') ->
  self st' = self st /\ files st' = files st.
Proof.
  intros Hq H. apply execute_inv in H as [Hf [Hs|(c & p & a & k & db' & -> & _)]].
  - split; assumption.
  - discriminate Hq.
Qed.

Lemma rows_inv st r st' :
  rows st = (r, st') -> self st' = self st /\ files st' = files st.
Proof.
  unfold rows. rewrite bind_run.
  destruct (connection st) as [[[]|e] st0] eqn:Hc; apply connection_inv in Hc as ->.
  - mstep. rewrite bind_run.
    destruct (execute _ st) as [[cur|e] st1] eqn:He;
      apply execute_select_inv in He as [Hs Hf]; try reflexivity;
      unfold ret; intros [= <- <-]; (split; assumption).
  - intros [= <- <-]. split; reflexivity.
Qed.

Lemma columns_inv st r st' :
  columns st = (r, st') -> self st' = self st /\ files st' = files st.
Proof.
  unfold columns. rewrite bind_run.
  destruct (connection st) as [[[]|e] st0] eqn:Hc; apply connection_inv in Hc as ->.
  - mstep. rewrite bind_run.
    destruct (execute _ st) as [[cur|e] st1] eqn:He;
      apply execute_select_inv in He as [Hs Hf]; try reflexivity;
      unfold ret; intros [= <- <-]; (split; assumption).
  - intros [= <- <-]. split; reflexivity.
Qed.

Lemma tables_inv st r st' :
  tables st = (r, st') -> self st' = self st /\ files st' = files st.
Proof.
  unfold tables. rewrite bind_run.
  destruct (connection st) as [[[]|e] st0] eqn:Hc; apply connection_inv in Hc as ->.
  - rewrite bind_run.
    destruct (execute _ st) as [[cur|e] st1] eqn:He;
      apply execute_select_inv in He as [Hs Hf]; try reflexivity;
      unfold ret; intros [= <- <-]; (split; assumption).
  - intros [= <- <-]. split; reflexivity.
Qed.

Lemma parameter_table_inv st r st' :
  _parameter_table st = (r, st') -> self st' = self st /\ files st' = files st.
Proof.
  unfold _parameter_table. rewrite bind_run.
  destruct (connection st) as [[[]|e] st0] eqn:Hc; apply connection_inv in Hc as ->.
  - mstep. rewrite bind_run. unfold read_sql_generator. rewrite bind_run.
    destruct (execute _ st) as [[cur|e] st1] eqn:He;
      apply execute_select_inv in He as [Hs Hf]; try reflexivity.
    + unfold ret. destruct (parameter_by_id _ ∅); unfold raise;
        intros [= <- <-]; (split; assumption).
    + intros [= <- <-]. split; assumption.
  - intros [= <- <-]. split; reflexivity.
Qed.

Lemma parameter_inv param_id st r st' :
  _parameter param_id st = (r, st') -> self st' = self st /\ files st' = files st.
Proof.
  unfold _parameter, try_except_KeyError. rewrite bind_run.
  destruct (_parameter_table st) as [[t|e] st0] eqn:Ht;
    apply parameter_table_inv in Ht as [Hs Hf].
  - destruct (t !! SqlInteger param_id).
    + unfold ret. intros [= <- <-]. split; assumption.
    + unfold raise. mstep. intros [= <- <-]. split; assumption.
  - destruct e; intros [= <- <-]; (split; assumption).
Qed.

(** X1: the accessors only read.  Whatever they return or raise, [rows],
    [columns], [tables], [globalinfo], [_parameter_table] and [_parameter]
    leave the object (its attributes and what its connection sees) and the
    files as they were. *)
Theorem accessors_only_read other st :
  (self (snd (rows st)) = self st /\ files (snd (rows st)) = files st) /\
  (self (snd (columns st)) = self st /\ files (snd (columns st)) = files st) /\
  (self (snd (tables st)) = self st /\ files (snd (tables st)) = files st) /\
  (self (snd (globalinfo other st)) = self st /\
   files (snd (globalinfo other st)) = files st) /\
  (self (snd (_parameter_table st)) = self st /\
   files (snd (_parameter_table st)) = files st) /\
  (forall param_id,
     self (snd (_parameter param_id st)) = self st /\
     files (snd (_parameter param_id st)) = files st).
Proof.
  split; [destruct (rows st) eqn:H; eapply rows_inv, H |].
  split; [destruct (columns st) eqn:H; eapply columns_inv, H |].
  split; [destruct (tables st) eqn:H; eapply tables_inv, H |].
  split; [destruct (globalinfo other st) eqn:H; eapply globalinfo_inv, H |].
  split; [destruct (_parameter_table st) eqn:H; eapply parameter_table_inv, H |].
  intros param_id. destruct (_parameter param_id st) eqn:H. eapply parameter_inv, H.
Qed.

Lemma commit_inv st r st' : commit st = (r, st') -> self st' = self st.
Proof.
  unfold commit. mstep. rewrite bind_run.
  destruct (open_connection (logged Call_commit st)) as [[c|e] st1] eqn:Ho;
    apply open_connection_inv in Ho as [-> _].
  - destruct (conn_file c); [destruct (conn_writable c) |]; unfold ret;
      intros [= <- <-]; reflexivity.
  - intros [= <- <-]. reflexivity.
Qed.

Lemma same_identity_trans o1 o2 o3 :
  same_identity o1 o2 -> same_identity o2 o3 -> same_identity o1 o3.
Proof.
  intros (A1 & A2 & A3 & A4 & A5 & A6 & A7) (D1 & D2 & D3 & D4 & D5 & D6 & D7).
  repeat split; congruence.
Qed.

Lemma connection_close_inv st r st' :
  connection_close st = (r, st') ->
  r = Returns tt /\ files st' = files st /\
  same_identity (self st) (self st') /\ _connected (self st') = _connected (self st).
Proof.
  unfold connection_close. do 2 mstep.
  destruct (_connection (self st)); unfold ret; intros [= <- <-]; repeat split.
Qed.

(** Whatever [close] does, the identity of the object stays, and the flag is
    as before or false. *)
Lemma close_inv other st r st' :
  close other st = (r, st') ->
  same_identity (self st) (self st') /\
  (_connected (self st') = _connected (self st) \/ _connected (self st') = false).
Proof.
  unfold close. mstep. destruct (_connected (self st)) eqn:Hcon.
  2:{ intros [= <- <-]. split; [apply same_identity_refl | left; exact Hcon]. }
  assert (Hend : forall s1 r1 s2,
             same_identity (self st) (self s1) ->
             (connection_close ;;; set_self (set_connected false)) s1 = (r1, s2) ->
             same_identity (self st) (self s2) /\ _connected (self s2) = false).
  { intros s1 r1 s2 Hid. rewrite bind_run.
    destruct (connection_close s1) as [[[]|e] s3] eqn:Hc;
      apply connection_close_inv in Hc as (Hr & _ & Hid3 & _); [| discriminate Hr].
    intros [= <- <-]. split; [| reflexivity].
    eapply same_identity_trans; [exact Hid |].
    eapply same_identity_trans; [exact Hid3 |]. repeat split. }
  destruct (_readonly (self st)); cbn [negb].
  - mstep. intros H. apply (Hend _ _ _ (same_identity_refl _)) in H as [H1 H2].
    split; [exact H1 | right; exact H2].
  - rewrite bind_run, bind_run.
    destruct (_update_globalinfo other st) as [[[]|e] s1] eqn:Hu;
      apply update_globalinfo_attrs in Hu as (Hid & Hc & _).
    + destruct (commit s1) as [[[]|e] s2] eqn:Hm; apply commit_inv in Hm.
      * intros H. rewrite <- Hm in Hid. apply (Hend _ _ _ Hid) in H as [H1 H2].
        split; [exact H1 | right; exact H2].
      * intros [= <- <-]. rewrite Hm. split; [exact Hid | left; congruence].
    + intros [= <- <-]. split; [exact Hid | left; congruence].
Qed.

(** X2: after construction, no method assigns the file name, the read-only
    flag or a table name, and none sets the connected flag back to true:
    whatever [_update_globalinfo] does, the flag is as before, and whatever
    [close] does, it is as before or false. *)
Theorem methods_keep_identity other st :
  same_identity (self st) (self (snd (_update_globalinfo other st))) /\
  _connected (self (snd (_update_globalinfo other st))) = _connected (self st) /\
  same_identity (self st) (self (snd (close other st))) /\
  (_connected (self (snd (close other st))) = _connected (self st) \/
   _connected (self (snd (close other st))) = false).
Proof.
  destruct (_update_globalinfo other st) as [r1 s1] eqn:H1.
  apply update_globalinfo_attrs in H1 as (Hid & Hc & _).
  destruct (close other st) as [r2 s2] eqn:H2.
  apply close_inv in H2 as [Hid2 Hc2]. cbn [snd].
  split; [exact Hid |]. split; [exact Hc |]. split; [exact Hid2 | exact Hc2].
Qed.

(** *** Closing *)

(** X3: when the recompute raises on a connected write handle, [close()]
    raises the same exception and stops there: the handle stays connected,
    its connection is not closed at the engine, and nothing is committed (the
    files are as they were). *)
Theorem close_stops_at_failing_recompute other st e st1 :
  _connected (self st) = true -> _readonly (self st) = false ->
  _update_globalinfo other st = (Raises e, st1) ->
  close other st = (Raises e, st1) /\
  _connected (self st1) = true /\
  same_but_content (self st) (self st1) /\
  files st1 = files st.
Proof.
  intros Hcon Hrw Hu.
  split.
  - unfold close. mstep. rewrite Hcon, Hrw. cbn [negb].
    rewrite bind_run, bind_run, Hu. reflexivity.
  - pose proof (update_globalinfo_attrs _ _ _ _ Hu) as Ha.
    pose proof (update_globalinfo_keeps_keys _ _ _ _ Hu) as [Hf _].
    split; [destruct Ha as (_ & -> & _); exact Hcon |].
    split; [exact Ha | exact Hf].
Qed.

Lemma close_stops_at_failing_recompute_witness :
  fst (close Sample.no_other Cases.texts_writer) = Raises malformed_node /\
  _connected (self (snd (close Sample.no_other Cases.texts_writer))) = true.
Proof.
  destruct (close_stops_at_failing_recompute Sample.no_other Cases.texts_writer
              malformed_node
              (snd (_update_globalinfo Sample.no_other Cases.texts_writer)))
    as (Hclose & Hcon & _).
  - reflexivity.
  - reflexivity.
  - vm_compute. reflexivity.
  - rewrite Hclose. split; [reflexivity | exact Hcon].
Defined.

(** X4: [close()] on a connected read-only handle makes one engine call,
    the close of the connection, and returns: no recompute, no commit.  The
    files and what the connection saw are as they were, the connection is
    closed at the engine and the flag is false. *)
Theorem close_readonly_only_closes other st c :
  _connected (self st) = true -> _readonly (self st) = true ->
  _connection (self st) = Some c ->
  exists st',
    close other st = (Returns tt, st') /\
    calls st' = (calls st ++ [Call_close])%list /\
    files st' = files st /\
    _connected (self st') = false /\
    _connection (self st') = Some (closed_connection c) /\
    conn_data (closed_connection c) = conn_data c /\
    same_identity (self st) (self st').
Proof.
  intros Hcon Hro Hc. eexists.
  split; [apply (close_readonly_run other st c Hcon Hro Hc) |].
  repeat split.
Qed.

Lemma close_readonly_only_closes_witness :
  exists st',
    close Sample.no_other Sample.reader = (Returns tt, st') /\
    files st' = Sample.disk /\ _connected (self st') = false.
Proof.
  destruct (close_readonly_only_closes Sample.no_other Sample.reader
              Sample.reader_connection)
    as (st' & Hclose & _ & Hf & Hcon & _); try reflexivity.
  exists st'. split; [exact Hclose |]. split; [rewrite Hf; reflexivity | exact Hcon].
Defined.

(** *** Construction, case by case *)

Lemma init_connect_fails {RT : Runtime} fs f prefix ro e fs' :
  sqlite3_connect fs (uri_of f ro) (negb ro) = (Raises e, fs') ->
  new_Database fs f prefix ro None
  = (Raises e,
     {| self := set_connected false (set_filename f ro blank_object);
        files := fs';
        calls := [Call_connect (uri_of f ro) (negb ro)] |}).
Proof.
  intros H. unfold new_Database, __init__.
  do 3 mstep. rewrite bind_run, connect_run. cbn [files with_object].
  fold (uri_of f ro). rewrite H. reflexivity.
Qed.

Lemma extension_ok_dec {RT : Runtime} f ext :
  extension_ok f ext \/
  exists x, ext = Some x /\
            str_lower (slice_from 1 (path_suffix f)) <> str_lower x.
Proof.
  destruct ext as [x|]; [| left; exact I].
  destruct (String.eqb_spec (str_lower (slice_from 1 (path_suffix f))) (str_lower x))
    as [E|E].
  - left. exact E.
  - right. exists x. split; [reflexivity | exact E].
Qed.

Lemma find_table_of_name (db : database) n :
  n ∈ map fst db -> is_Some (find_table db n).
Proof.
  unfold find_table. induction db as [|[n0 t0] db IH]; cbn.
  - intros H. inversion H.
  - intros H. destruct (ident_eqb n0 n) eqn:E; [eexists; reflexivity |].
    apply elem_of_cons in H as [->|H]; [| exact (IH H)].
    assert (Hn : ident_eqb n0 n0 = true) by (apply ident_eqb_eq; reflexivity).
    congruence.
Qed.

Lemma columns_run st c t :
  _connected (self st) = true ->
  _connection (self st) = Some c -> conn_closed c = false ->
  find_table (conn_data c) (_table_main (self st)) = Some t ->
  columns st
  = (Returns (table_columns t),
     logged (Call_execute (SELECT_all_LIMIT_0 (_table_main (self st)))) st).
Proof.
  intros H0 H1 H2 Ht. unfold columns.
  rewrite (bind_returns _ _ _ _ _ (connection_open_handle _ H0)).
  mstep. rewrite bind_run, (execute_select st c _ H1 H2); [| reflexivity].
  cbn [run_select]. rewrite Ht. reflexivity.
Qed.

(** [__init__] on a plain file name, with no extension requirement: the
    outcome and the object it leaves, by whether there is a file of that name
    and whether it has the data table. *)
Lemma init_plain_run {RT : Runtime} fs f prefix ro :
  uri_plain f = true ->
  new_Database fs f prefix ro None
  = match fs !! f with
    | None =>
        (Raises unable_to_open,
         {| self := set_connected false (set_filename f ro blank_object);
            files := fs;
            calls := [Call_connect (uri_of f ro) (negb ro)] |})
    | Some db =>
        (if bool_decide (prefix +:+ "_data" ∈ map fst db)
         then Returns tt
         else Raises (main_table_missing (prefix +:+ "_data")),
         {| self := constructed f prefix ro
                      {| conn_file := Some f; conn_writable := negb ro;
                         check_same_thread := negb ro;
                         conn_pragmas := (if ro then [] else write_mode_pragmas);
                         conn_data := db; conn_closed := false |};
            files := fs;
            calls := Call_connect (uri_of f ro) (negb ro)
                     :: (if ro then [] else [Call_executescript write_mode_pragmas])
                     ++ [Call_execute SELECT_name_FROM_sqlite_master] |})
    end.
Proof.
  intros Hp. pose proof (connect_plain fs f ro (negb ro) Hp) as Hc.
  destruct (fs !! f) as [db|].
  - rewrite (init_connected _ _ _ _ _ _ Hc).
    + cbn [conn_data]. destruct ro; reflexivity.
    + intros ->. reflexivity.
  - apply (init_connect_fails _ _ _ _ _ _ Hc).
Qed.

(** X7: when the constructor returns, for a plain file name and a plain table
    prefix.  There is a file of that name, and it has the data table.  The
    object is connected on an open connection to that file, writable exactly
    when the handle is not read-only, with the file name and mode it was given
    and the four table names derived from the prefix; the connection checks
    the thread exactly on a write handle, and the three write-mode settings
    were made on a write handle and none on a read-only one.  The properties
    [filename], [readonly] and [connected] give the file name, the mode and
    true; [tables()] gives the names of the tables of the file, [rows()] the
    number of rows of the data table and [columns()] its column names. *)
Theorem init_returns_ready {RT : Runtime} fs f prefix ro ext st :
  uri_plain f = true -> plain_prefix prefix = true ->
  new_Database fs f prefix ro ext = (Returns tt, st) ->
  exists db t,
    fs !! f = Some db /\
    self st = constructed f prefix ro
                {| conn_file := Some f; conn_writable := negb ro;
                   check_same_thread := negb ro;
                   conn_pragmas := (if ro then [] else write_mode_pragmas);
                   conn_data := db; conn_closed := false |} /\
    plain_tables (self st) /\
    fst (filename st) = Returns f /\
    fst (readonly st) = Returns ro /\
    fst (connected st) = Returns true /\
    fst (tables st) = Returns (list_to_set (map fst db)) /\
    prefix +:+ "_data" ∈ map fst db /\
    find_table db (prefix +:+ "_data") = Some t /\
    fst (rows st) = Returns (SqlInteger (Z.of_nat (length (table_rows t)))) /\
    fst (columns st) = Returns (table_columns t).
Proof.
  intros Hp Hpre H. destruct (extension_ok_dec f ext) as [Hok|(x & -> & Hne)].
  2:{ rewrite (init_extension_mismatch _ _ _ _ _ Hne) in H. discriminate H. }
  rewrite (init_extension_ok _ _ _ _ _ Hok), (init_plain_run _ _ _ _ Hp) in H.
  destruct (fs !! f) as [db|]; [| discriminate H].
  destruct (decide (prefix +:+ "_data" ∈ map fst db)) as [Hin|Hin].
  2:{ rewrite (bool_decide_eq_false_2 _ Hin) in H. discriminate H. }
  rewrite (bool_decide_eq_true_2 _ Hin) in H. injection H as <-.
  destruct (find_table_of_name _ _ Hin) as [t Ht].
  exists db, t. split; [reflexivity |]. split; [reflexivity |].
  split; [repeat split; exact Hpre |].
  split; [reflexivity |]. split; [reflexivity |]. split; [reflexivity |].
  split.
  { match goal with |- fst (tables ?s) = _ =>
      rewrite (tables_run s _ eq_refl eq_refl eq_refl) end. reflexivity. }
  split; [exact Hin |]. split; [exact Ht |]. split.
  - match goal with |- fst (rows ?s) = _ =>
      rewrite (rows_run s _ t eq_refl eq_refl eq_refl Ht) end. reflexivity.
  - match goal with |- fst (columns ?s) = _ =>
      rewrite (columns_run s _ t eq_refl eq_refl eq_refl Ht) end. reflexivity.
Qed.

Lemma init_returns_ready_witness :
  exists st,
    new_Database Sample.disk "sample.pridb" "pri" false (Some "PRIDB") = (Returns tt, st) /\
    fst (tables st) = Returns (list_to_set ["pri_data"; "pri_globalinfo"; "pri_params"]) /\
    fst (rows st) = Returns (SqlInteger 2).
Proof.
  assert (H : new_Database Sample.disk "sample.pridb" "pri" false (Some "PRIDB")
              = (Returns tt,
                 snd (new_Database Sample.disk "sample.pridb" "pri" false (Some "PRIDB"))))
    by (vm_compute; reflexivity).
  destruct (init_returns_ready Sample.disk "sample.pridb" "pri" false (Some "PRIDB") _
              eq_refl eq_refl H)
    as (db & t & Hdb & _ & _ & _ & _ & _ & Htab & _ & Ht & Hrows & _).
  vm_compute in Hdb. injection Hdb as <-.
  vm_compute in Ht. injection Ht as <-.
  eexists. split; [exact H |]. split; [exact Htab | exact Hrows].
Defined.

(** *** Plain file names *)

(** X8: for a file name the URI keeps as it is and that names a file (not
    empty, without [?], [#], [%] and NUL, not starting with two slashes, not
    [:memory:]), in either mode and for any table prefix.  With no file of
    that name the constructor fails in the engine's open; the object is not
    connected and holds no connection, and no file was made.  With a file of
    that name the connection is on exactly that file, writable exactly when
    the handle is not read-only, and construction returns when the file has a
    table named exactly [<prefix>_data] and raises the main-table
    [ValueError] otherwise, connected in both cases. *)
Theorem init_plain_name {RT : Runtime} fs f prefix ro :
  uri_plain f = true ->
  match fs !! f with
  | None =>
      fst (new_Database fs f prefix ro None) = Raises unable_to_open /\
      _connected (self (snd (new_Database fs f prefix ro None))) = false /\
      _connection (self (snd (new_Database fs f prefix ro None))) = None /\
      files (snd (new_Database fs f prefix ro None)) = fs
  | Some db =>
      fst (new_Database fs f prefix ro None)
      = (if bool_decide (prefix +:+ "_data" ∈ map fst db) then Returns tt
         else Raises (main_table_missing (prefix +:+ "_data"))) /\
      self (snd (new_Database fs f prefix ro None))
      = constructed f prefix ro
          {| conn_file := Some f; conn_writable := negb ro;
             check_same_thread := negb ro;
             conn_pragmas := (if ro then [] else write_mode_pragmas);
             conn_data := db; conn_closed := false |}
  end.
Proof.
  intros Hp. rewrite (init_plain_run fs f prefix ro Hp).
  destruct (fs !! f) as [db|]; repeat split.
Qed.

Lemma init_plain_name_witness :
  fst (new_Database Sample.disk "sample.pridb" "pri" false None) = Returns tt /\
  fst (new_Database Sample.disk "other.pridb" "pri" false None) = Raises unable_to_open /\
  files (snd (new_Database Sample.disk "other.pridb" "pri" false None)) = Sample.disk.
Proof.
  pose proof (init_plain_name Sample.disk "sample.pridb" "pri" false eq_refl) as H1.
  pose proof (init_plain_name Sample.disk "other.pridb" "pri" false eq_refl) as H2.
  change (Sample.disk !! "sample.pridb") with (Some Sample.store) in H1.
  change (Sample.disk !! "other.pridb") with (@None database) in H2.
  destruct H1 as [H1 _]. destruct H2 as (H2 & _ & _ & H3).
  split; [rewrite H1; reflexivity |]. split; [exact H2 | exact H3].
Defined.

(** *** Reading the global information *)

Lemma globalinfo_dict_keeps other ik iv rs d d' k :
  globalinfo_dict other (map (key_value ik iv) rs) d = Returns d' ->
  k ∉ map (cell ik) rs -> d' !! k = d !! k.
Proof.
  revert d. induction rs as [|r rs IH]; intros d; cbn [map globalinfo_dict].
  - intros [= <-] _. reflexivity.
  - cbn [key_value nth].
    destruct (try_convert_string other (str (cell iv r))) as [v|e]; [| discriminate].
    intros H Hk. apply not_elem_of_cons in Hk as [Hne Hk].
    rewrite (IH _ H Hk). apply lookup_insert_ne. congruence.
Qed.

Lemma globalinfo_dict_last other ik iv rs1 r rs2 d d' :
  globalinfo_dict other (map (key_value ik iv) (rs1 ++ r :: rs2)) d = Returns d' ->
  cell ik r ∉ map (cell ik) rs2 ->
  exists v, try_convert_string other (str (cell iv r)) = Returns v /\
            d' !! cell ik r = Some v.
Proof.
  revert d. induction rs1 as [|r1 rs1 IH]; intros d;
    cbn [app map globalinfo_dict key_value nth].
  - destruct (try_convert_string other (str (cell iv r))) as [v|e]; [| discriminate].
    intros H Hk. exists v. split; [reflexivity |].
    rewrite (globalinfo_dict_keeps _ _ _ _ _ _ _ H Hk). apply lookup_insert_eq.
  - destruct (try_convert_string other (str (cell iv r1))) as [v|e]; [| discriminate].
    apply IH.
Qed.

Lemma globalinfo_dict_first_failure other ik iv rs1 r rs2 d e :
  Forall (decodes other iv) rs1 ->
  try_convert_string other (str (cell iv r)) = Raises e ->
  globalinfo_dict other (map (key_value ik iv) (rs1 ++ r :: rs2)) d = Raises e.
Proof.
  intros H He. revert d. induction H as [|r1 rs1 [v Hv] _ IH]; intros d;
    cbn [app map globalinfo_dict key_value nth].
  - rewrite He. reflexivity.
  - rewrite Hv. apply IH.
Qed.

Lemma globalinfo_dict_raises_inv other ik iv rs d e :
  globalinfo_dict other (map (key_value ik iv) rs) d = Raises e ->
  exists rs1 r rs2,
    rs = (rs1 ++ r :: rs2)%list /\ Forall (decodes other iv) rs1 /\
    try_convert_string other (str (cell iv r)) = Raises e.
Proof.
  revert d. induction rs as [|r rs IH]; intros d;
    cbn [map globalinfo_dict key_value nth]; [discriminate |].
  destruct (try_convert_string other (str (cell iv r))) as [v|e0] eqn:E.
  - intros H. destruct (IH _ H) as (rs1 & r' & rs2 & -> & Hd & He).
    exists (r :: rs1), r', rs2. split; [reflexivity |].
    split; [constructor; [exists v; exact E | exact Hd] | exact He].
  - intros [= ->]. exists [], r, rs. split; [reflexivity |].
    split; [constructor | exact E].
Qed.

Lemma try_convert_string_no_SyntaxError other s m :
  try_convert_string other s <> Raises (SyntaxError m).
Proof.
  unfold try_convert_string.
  destruct (literal_eval other s) as [v|[]]; congruence.
Qed.

(** X9: what [globalinfo()] returns, on a live handle of either mode with a
    plain table prefix whose globalinfo table has the columns Key and Value.
    The keys of the dict are the Key cells of the table, and where a key
    occurs in several rows the last row wins: the entry is the converted Value
    of the last row with that key.  An integer Value comes back as that
    integer and NULL as [None]. *)
Theorem globalinfo_last_row_wins other st c g ik iv d :
  _connected (self st) = true ->
  _connection (self st) = Some c -> conn_closed c = false ->
  plain_tables (self st) ->
  find_table (conn_data c) (_table_globalinfo (self st)) = Some g ->
  column_index (table_columns g) "Key" = Some ik ->
  column_index (table_columns g) "Value" = Some iv ->
  fst (globalinfo other st) = Returns d ->
  (forall k, k ∈ dom d <-> k ∈ map (cell ik) (table_rows g)) /\
  (forall rs1 r rs2,
     table_rows g = (rs1 ++ r :: rs2)%list ->
     cell ik r ∉ map (cell ik) rs2 ->
     (exists v, try_convert_string other (str (cell iv r)) = Returns v /\
                d !! cell ik r = Some v) /\
     (forall z, cell iv r = SqlInteger z -> d !! cell ik r = Some (PyInt z)) /\
     (cell iv r = SqlNull -> d !! cell ik r = Some PyNone)).
Proof.
  intros H0 H1 H2 _ Hg Hk Hv.
  rewrite (globalinfo_run other ik iv st c g H0 H1 H2 Hg Hk Hv). cbn [fst].
  destruct (globalinfo_dict other (map (key_value ik iv) (table_rows g)) ∅)
    as [d0|e] eqn:Hd; [| discriminate].
  intros [= ->]. split.
  - intros k. rewrite (globalinfo_dict_dom other ik iv _ _ _ Hd k), dom_empty.
    rewrite elem_of_empty. tauto.
  - intros rs1 r rs2 Hrs Hlast. rewrite Hrs in Hd.
    destruct (globalinfo_dict_last _ _ _ _ _ _ _ _ Hd Hlast) as (v & Hconv & Hlook).
    split; [exists v; split; assumption |]. split.
    + intros z Hz. rewrite Hz, try_convert_string_int in Hconv.
      injection Hconv as <-. exact Hlook.
    + intros Hz. rewrite Hz, try_convert_string_null in Hconv.
      injection Hconv as <-. exact Hlook.
Qed.

Lemma globalinfo_last_row_wins_witness :
  exists d,
    fst (globalinfo Sample.no_other Sample.reader) = Returns d /\
    forall k, k ∈ dom d <-> k ∈ [SqlText "Version"; SqlText "ValidSets"; SqlText "TRAI"].
Proof.
  eexists. split; [vm_compute; reflexivity |].
  apply (globalinfo_last_row_wins Sample.no_other Sample.reader
           Sample.reader_connection Sample.info 0 1 _
           eq_refl eq_refl eq_refl ltac:(repeat split)
           eq_refl eq_refl eq_refl eq_refl).
Defined.

(** X10: when [globalinfo()] fails on a live handle with a plain table prefix
    whose globalinfo table has the columns Key and Value.  It raises exactly
    when some row's Value does not convert, and then with the exception of the
    first such row in table order; rows after it are not looked at.  That
    exception is never a [SyntaxError]: those are the ones
    [try_convert_string] catches. *)
Theorem globalinfo_first_failure other st c g ik iv e :
  _connected (self st) = true ->
  _connection (self st) = Some c -> conn_closed c = false ->
  plain_tables (self st) ->
  find_table (conn_data c) (_table_globalinfo (self st)) = Some g ->
  column_index (table_columns g) "Key" = Some ik ->
  column_index (table_columns g) "Value" = Some iv ->
  (fst (globalinfo other st) = Raises e <->
   exists rs1 r rs2,
     table_rows g = (rs1 ++ r :: rs2)%list /\
     Forall (decodes other iv) rs1 /\
     try_convert_string other (str (cell iv r)) = Raises e) /\
  (forall m, fst (globalinfo other st) <> Raises (SyntaxError m)).
Proof.
  intros H0 H1 H2 _ Hg Hk Hv.
  rewrite (globalinfo_run other ik iv st c g H0 H1 H2 Hg Hk Hv). cbn [fst].
  assert (Hiff : forall e',
    match globalinfo_dict other (map (key_value ik iv) (table_rows g)) ∅ with
    | Returns d => Returns d
    | Raises e0 => Raises e0
    end = Raises e' <->
    exists rs1 r rs2,
      table_rows g = (rs1 ++ r :: rs2)%list /\
      Forall (decodes other iv) rs1 /\
      try_convert_string other (str (cell iv r)) = Raises e').
  { intros e'. split.
    - destruct (globalinfo_dict other _ ∅) as [d|e0] eqn:Hd; [discriminate |].
      intros [= ->]. exact (globalinfo_dict_raises_inv _ _ _ _ _ _ Hd).
    - intros (rs1 & r & rs2 & -> & Hdec & He).
      rewrite (globalinfo_dict_first_failure _ ik _ _ _ rs2 ∅ _ Hdec He).
      reflexivity. }
  split; [apply Hiff |].
  intros m Hm. apply Hiff in Hm as (rs1 & r & rs2 & _ & _ & He).
  exact (try_convert_string_no_SyntaxError _ _ _ He).
Qed.

Lemma globalinfo_first_failure_witness :
  fst (globalinfo Sample.no_other Cases.texts_reader) = Raises malformed_node.
Proof.
  apply (proj1 (globalinfo_first_failure Sample.no_other Cases.texts_reader
           {| conn_file := Some "texts.pridb"; conn_writable := false;
              check_same_thread := false; conn_pragmas := [];
              conn_data := Sample.texts; conn_closed := false |}
           Sample.info_texts 0 1 malformed_node
           eq_refl eq_refl eq_refl ltac:(repeat split) eq_refl eq_refl eq_refl)).
  exists [ {| rowid := 1; cells := [SqlText "Version"; SqlText "123"] |} ],
         {| rowid := 2; cells := [SqlText "Name"; SqlText "abc"] |}, [].
  split; [reflexivity |]. split; [| reflexivity].
  constructor; [exists (PyInt 123); reflexivity | constructor].
Defined.

(** *** Reading the parameter table *)

Lemma parameter_by_id_dom dicts d d' :
  parameter_by_id dicts d = Returns d' ->
  forall k, k ∈ dom d' <-> k ∈ dom d \/ exists r, r ∈ dicts /\ r !! "ID" = Some k.
Proof.
  revert d. induction dicts as [|r0 rest IH]; intros d; cbn [parameter_by_id].
  - intros [= <-] k. split; [tauto |].
    intros [H|(r & Hr & _)]; [exact H | inversion Hr].
  - destruct (r0 !! "ID") as [pid|] eqn:Hid; [| discriminate].
    intros H k. rewrite (IH _ H k), dom_insert, elem_of_union, elem_of_singleton.
    split.
    + intros [[->|Hk]|(r & Hr & Hk)].
      * right. exists r0. split; [left | exact Hid].
      * left. exact Hk.
      * right. exists r. split; [right; exact Hr | exact Hk].
    + intros [Hk|(r & Hr & Hk)].
      * left. right. exact Hk.
      * apply elem_of_cons in Hr as [->|Hr].
        -- left. left. congruence.
        -- right. exists r. split; assumption.
Qed.

Lemma parameter_by_id_no_ID r dicts d :
  r !! "ID" = None -> parameter_by_id (r :: dicts) d = Raises (KeyError "ID").
Proof. intros H. cbn [parameter_by_id]. rewrite H. reflexivity. Qed.

Lemma row_dict_no_column cols (vals : list sqlvalue) c :
  c ∉ cols -> row_dict cols vals !! c = None.
Proof.
  intros H. unfold row_dict. rewrite (row_dict_from _ _ _ _ H). apply lookup_empty.
Qed.

(** X11: what [_parameter_table()] returns on a live handle with a plain
    table prefix whose parameter table has a column named ["ID"] (a table has
    no two columns of one name).  It returns; the keys of the dict are the ID
    cells of the table; the entry of an ID holds the other columns of the last
    row with that ID, each under its column name, and has no ["ID"] field. *)
Theorem parameter_table_keyed_by_ID st c t i :
  _connected (self st) = true ->
  _connection (self st) = Some c -> conn_closed c = false ->
  plain_tables (self st) ->
  find_table (conn_data c) (_table_params (self st)) = Some t ->
  NoDup (table_columns t) -> table_columns t !! i = Some "ID" ->
  exists d,
    fst (_parameter_table st) = Returns d /\
    (forall k, k ∈ dom d <-> k ∈ map (cell i) (table_rows t)) /\
    (forall rs1 r rs2,
       table_rows t = (rs1 ++ r :: rs2)%list ->
       cell i r ∉ map (cell i) rs2 ->
       exists fields,
         d !! cell i r = Some fields /\ fields !! "ID" = None /\
         forall j col, table_columns t !! j = Some col -> col <> "ID" ->
                       fields !! col = Some (cell j r)).
Proof.
  intros H0 H1 H2 _ Ht Hnd Hi.
  rewrite (parameter_table_run st c t H0 H1 H2 Ht). cbn [fst].
  rewrite map_map.
  set (f := fun r => row_dict (table_columns t) (full_row t r)).
  assert (Hid : forall r, f r !! "ID" = Some (cell i r))
    by (intros r; apply row_dict_full_row; assumption).
  destruct (parameter_by_id_present (map f (table_rows t)) ∅ SqlNull) as (d & Hd & _).
  { intros x Hx. apply list_elem_of_fmap in Hx as (r & -> & _).
    rewrite Hid. eexists. reflexivity. }
  exists d. rewrite Hd. split; [reflexivity |]. split.
  - intros k. rewrite (parameter_by_id_dom _ _ _ Hd k), dom_empty, elem_of_empty.
    split.
    + intros [[]|(x & Hx & Hk)].
      apply list_elem_of_fmap in Hx as (r & -> & Hr).
      rewrite Hid in Hk. injection Hk as <-.
      apply list_elem_of_fmap. exists r. split; [reflexivity | exact Hr].
    + intros Hk. right. apply list_elem_of_fmap in Hk as (r & -> & Hr).
      exists (f r). split; [| apply Hid].
      apply list_elem_of_fmap. exists r. split; [reflexivity | exact Hr].
  - intros rs1 r rs2 Hrs Hlast.
    destruct (parameter_by_id_present (map f (table_rows t)) ∅ (cell i r))
      as (d1 & Hd1 & Hwins).
    { intros x Hx. apply list_elem_of_fmap in Hx as (r' & -> & _).
      rewrite Hid. eexists. reflexivity. }
    rewrite Hd in Hd1. injection Hd1 as <-.
    exists (delete "ID" (f r)). split; [| split].
    + apply (Hwins (map f rs1) (f r) (map f rs2)).
      * rewrite Hrs, map_app. reflexivity.
      * apply Hid.
      * intros x Hx. apply list_elem_of_fmap in Hx as (r' & -> & Hr').
        rewrite Hid. intros [= E]. apply Hlast.
        apply list_elem_of_fmap. exists r'. split; [symmetry; exact E | exact Hr'].
    + apply lookup_delete_eq.
    + intros j col Hj Hne. rewrite lookup_delete_ne by congruence.
      apply row_dict_full_row; assumption.
Qed.

Lemma parameter_table_keyed_by_ID_witness :
  exists d,
    fst (_parameter_table Sample.reader) = Returns d /\
    forall k, k ∈ dom d <-> k ∈ [SqlInteger 1; SqlInteger 2].
Proof.
  destruct (parameter_table_keyed_by_ID Sample.reader Sample.reader_connection
              Sample.params 0 eq_refl eq_refl eq_refl ltac:(repeat split) eq_refl)
    as (d & Hd & Hdom & _).
  - apply (bool_decide_unpack _). vm_compute. reflexivity.
  - reflexivity.
  - exists d. split; [exact Hd | exact Hdom].
Defined.

(** X12: the parameter table without a column named exactly ["ID"], on a
    live handle with a plain table prefix.  With no row [_parameter_table()]
    returns the empty dict; with a row it raises [KeyError] for ["ID"], which
    [_parameter] reports, for any id, as that id not being found. *)
Theorem parameter_table_without_ID st c t :
  _connected (self st) = true ->
  _connection (self st) = Some c -> conn_closed c = false ->
  plain_tables (self st) ->
  find_table (conn_data c) (_table_params (self st)) = Some t ->
  "ID" ∉ table_columns t ->
  (table_rows t = [] -> fst (_parameter_table st) = Returns ∅) /\
  (table_rows t <> [] ->
   fst (_parameter_table st) = Raises (KeyError "ID") /\
   forall param_id,
     fst (_parameter param_id st)
     = Raises (parameter_not_found param_id (_table_params (self st)))).
Proof.
  intros H0 H1 H2 _ Ht Hno.
  pose proof (parameter_table_run st c t H0 H1 H2 Ht) as Hrun. split.
  - intros He. rewrite Hrun, He. reflexivity.
  - intros Hne. destruct (table_rows t) as [|r rs] eqn:Hrows; [congruence |].
    cbn [map] in Hrun.
    rewrite (parameter_by_id_no_ID _ _ _ (row_dict_no_column _ _ _ Hno)) in Hrun.
    split; [rewrite Hrun; reflexivity |].
    intros param_id. unfold _parameter, try_except_KeyError.
    rewrite bind_run, Hrun. reflexivity.
Qed.

Lemma parameter_table_without_ID_witness :
  fst (_parameter_table Cases.unkeyed_reader) = Raises (KeyError "ID") /\
  fst (_parameter 1 Cases.unkeyed_reader)
  = Raises (ValueError "Parameter ID 1 not found in pri_params").
Proof.
  destruct (parameter_table_without_ID Cases.unkeyed_reader Cases.unkeyed_connection
              Cases.unkeyed_params eq_refl eq_refl eq_refl ltac:(repeat split) eq_refl)
    as [_ H].
  - apply (bool_decide_unpack _). vm_compute. reflexivity.
  - destruct H as [H1 H2]; [discriminate |].
    split; [exact H1 | exact (H2 1)].
Defined.

(** *** The recompute, run again *)

Lemma set_cell_idem i v r : set_cell i v (set_cell i v r) = set_cell i v r.
Proof.
  unfold set_cell. cbn [rowid cells]. f_equal.
  rewrite length_insert, length_app, length_replicate.
  replace (S i - (length (cells r) + (S i - length (cells r))))%nat with 0%nat by lia.
  cbn [replicate]. rewrite app_nil_r. apply list_insert_insert_eq.
Qed.

Lemma recomputed_row_idem ik iv vmax tmax r :
  ik <> iv ->
  let once := update_row ik iv "TRAI" tmax (update_row ik iv "ValidSets" vmax r) in
  update_row ik iv "TRAI" tmax (update_row ik iv "ValidSets" vmax once) = once.
Proof.
  intros Hne once. subst once.
  rewrite !(update_row_eq ik iv "ValidSets"), !(update_row_eq ik iv "TRAI").
  pose proof (cell_set_cell_other iv ik vmax r Hne) as KV.
  pose proof (cell_set_cell_other iv ik tmax r Hne) as KT.
  destruct (decide (cell ik r = SqlText "ValidSets")) as [E1|E1].
  - destruct (decide (cell ik (set_cell iv vmax r) = SqlText "TRAI")) as [E|_].
    { rewrite KV, E1 in E. discriminate E. }
    destruct (decide (cell ik (set_cell iv vmax r) = SqlText "ValidSets")) as [_|E].
    2:{ rewrite KV in E. contradiction. }
    rewrite set_cell_idem.
    destruct (decide (cell ik (set_cell iv vmax r) = SqlText "TRAI")) as [E|_];
      [| reflexivity].
    rewrite KV, E1 in E. discriminate E.
  - destruct (decide (cell ik r = SqlText "TRAI")) as [E2|E2].
    + destruct (decide (cell ik (set_cell iv tmax r) = SqlText "ValidSets")) as [E|_].
      { rewrite KT in E. contradiction. }
      destruct (decide (cell ik (set_cell iv tmax r) = SqlText "TRAI")) as [_|E].
      * apply set_cell_idem.
      * rewrite KT in E. contradiction.
    + destruct (decide (cell ik r = SqlText "ValidSets")); [contradiction |].
      destruct (decide (cell ik r = SqlText "TRAI")); [contradiction | reflexivity].
Qed.

Lemma recomputed_idem ik iv data g :
  ik <> iv ->
  recomputed ik iv data (recomputed ik iv data g) = recomputed ik iv data g.
Proof.
  intros Hne. unfold recomputed, update_rows. cbn [table_columns table_rows].
  f_equal. rewrite !map_map. apply map_ext. intros r.
  apply (recomputed_row_idem ik iv _ _ r Hne).
Qed.

Lemma has_key_recomputed ik iv data g k :
  ik <> iv -> has_key ik (recomputed ik iv data g) k = has_key ik g k.
Proof.
  intros H. unfold has_key. rewrite (recomputed_keys _ _ _ _ H). reflexivity.
Qed.

(** X13: the recompute is idempotent.  On a live write handle with a plain
    table prefix, on the schema the statements are meant for (no column of
    globalinfo named like the two keys, no column of the data table named
    [rowid]), whose globalinfo values convert (and, when the TRAI key is
    present, whose data table has a TRAI column with a maximum that converts),
    [_update_globalinfo] returns, and running it once more returns too and
    leaves the object as the first run left it: the second run issues the same
    statements again and they write the values that are already there.  No run
    touches the files. *)
Theorem update_globalinfo_twice other st c g data ik iv :
  _readonly (self st) = false ->
  _connected (self st) = true ->
  _connection (self st) = Some c -> conn_closed c = false ->
  conn_writable c = true ->
  plain_tables (self st) ->
  find_table (conn_data c) (_table_prefix (self st) +:+ "_globalinfo") = Some g ->
  find_table (conn_data c) (_table_prefix (self st) +:+ "_data") = Some data ->
  summary_schema g data ->
  column_index (table_columns g) "Key" = Some ik ->
  column_index (table_columns g) "Value" = Some iv ->
  Forall (decodes other iv) (table_rows g) ->
  (has_key ik g "TRAI" = true ->
   is_Some (column_index (table_columns data) "TRAI") /\
   exists v, try_convert_string other (str (max_trai data)) = Returns v) ->
  exists st1 st2,
    _update_globalinfo other st = (Returns tt, st1) /\
    _update_globalinfo other st1 = (Returns tt, st2) /\
    self st2 = self st1 /\
    files st1 = files st /\ files st2 = files st /\
    calls st1 = (calls st ++ recompute_calls (_table_prefix (self st)) ik g)%list /\
    calls st2 = (calls st1 ++ recompute_calls (_table_prefix (self st)) ik g)%list.
Proof.
  intros Hrw Hcon Hc Hopen Hw (_ & _ & _ & Hname & _) Hg Hd _ Hik Hiv Hdec Htrai.
  pose proof (column_index_distinct _ _ _ _ _ Hik Hiv eq_refl) as Hne.
  destruct (globalinfo_dict_returns other ik iv _ ∅ Hdec) as [info Hinfo].
  pose proof (update_globalinfo_run other st c g data ik iv info
                Hrw Hcon Hc Hopen Hw Hname Hg Hd Hik Hiv Hinfo
                (fun H => proj1 (Htrai H))) as Hrun1.
  set (prefix := _table_prefix (self st)) in *.
  set (gname := prefix +:+ "_globalinfo") in *.
  set (g1 := recomputed ik iv data g) in *.
  set (c1 := with_data (update_table (conn_data c) gname g1) c) in *.
  match type of Hrun1 with _ = (_, ?s) => set (st1 := s) in * end.
  assert (Hdec1 : Forall (decodes other iv) (table_rows g1)).
  { apply recomputed_decodes; [exact Hne | exact Hdec |].
    intros H. exact (proj2 (Htrai H)). }
  destruct (globalinfo_dict_returns other ik iv _ ∅ Hdec1) as [info1 Hinfo1].
  assert (Hg1 : find_table (conn_data c1) gname = Some g1)
    by (eapply find_table_update_same, Hg).
  assert (Hd1 : find_table (conn_data c1) (prefix +:+ "_data") = Some data).
  { cbn [c1 conn_data with_data].
    rewrite find_table_update_other; [exact Hd | apply data_is_not_globalinfo]. }
  assert (Hp1 : _table_prefix (self st1) = prefix)
    by (destruct st as [[] ? ?]; reflexivity).
  pose proof (update_globalinfo_run other st1 c1 g1 data ik iv info1) as Hrun2.
  rewrite Hp1 in Hrun2. fold gname in Hrun2.
  specialize (Hrun2 Hrw Hcon eq_refl Hopen Hw Hname Hg1 Hd1 Hik Hiv Hinfo1).
  assert (Hkeys : forall k, has_key ik g1 k = has_key ik g k)
    by (intros k; apply has_key_recomputed, Hne).
  rewrite !Hkeys in Hrun2.
  specialize (Hrun2 (fun H => proj1 (Htrai H))).
  eexists _, _. split; [exact Hrun1 |]. split; [exact Hrun2 |].
  cbn [self files calls st1].
  split.
  - cbn [c1 conn_data with_data]. rewrite update_table_twice.
    fold g1. unfold g1 at 1. rewrite (recomputed_idem _ _ _ _ Hne). fold g1.
    destruct (self st) as []. destruct c as []. reflexivity.
  - repeat split.
Qed.

Lemma update_globalinfo_twice_witness :
  exists st1 st2,
    _update_globalinfo Sample.no_other Sample.writer = (Returns tt, st1) /\
    _update_globalinfo Sample.no_other st1 = (Returns tt, st2) /\
    self st2 = self st1.
Proof.
  destruct (update_globalinfo_twice Sample.no_other Sample.writer
              Sample.writer_connection Sample.info Sample.data 0 1
              eq_refl eq_refl eq_refl eq_refl eq_refl ltac:(repeat split)
              eq_refl eq_refl ltac:(repeat split) eq_refl eq_refl)
    as (st1 & st2 & H1 & H2 & H3 & _).
  - repeat (constructor; [eexists; vm_compute; reflexivity |]). constructor.
  - intros _. split; eexists; vm_compute; reflexivity.
  - exists st1, st2. split; [exact H1 |]. split; [exact H2 | exact H3].
Defined.

(** *** The recompute, read back *)

Lemma globalinfo_dict_agree other ik iv k rs rs' :
  Forall2 (fun r r' => cell ik r' = cell ik r /\
                       (cell ik r = k -> cell iv r' = cell iv r)) rs rs' ->
  forall d1 d2 d1' d2',
    d1 !! k = d2 !! k ->
    globalinfo_dict other (map (key_value ik iv) rs) d1 = Returns d1' ->
    globalinfo_dict other (map (key_value ik iv) rs') d2 = Returns d2' ->
    d1' !! k = d2' !! k.
Proof.
  induction 1 as [|r r' rs rs' [Hkey Hval] _ IH]; intros d1 d2 d1' d2' Hd;
    cbn [map globalinfo_dict key_value nth].
  - intros [= <-] [= <-]. exact Hd.
  - destruct (try_convert_string other (str (cell iv r))) as [v|e] eqn:E;
      [| discriminate].
    destruct (try_convert_string other (str (cell iv r'))) as [v'|e'] eqn:E';
      [| discriminate].
    apply IH. rewrite Hkey.
    destruct (decide (cell ik r = k)) as [Hk|Hk].
    + rewrite (Hval Hk), E in E'. injection E' as <-.
      rewrite Hk, !lookup_insert_eq. reflexivity.
    + rewrite !lookup_insert_ne by exact Hk. exact Hd.
Qed.

(** X14: the recompute, read back in the same session.  The handle is a live
    write handle with a plain table prefix, on the schema the statements are
    meant for (no column of globalinfo named like the two keys, no column of
    the data table named [rowid]); [globalinfo()] returns on it; when the key
    ["TRAI"] is there, the data table has a TRAI column whose maximum
    converts; and the rowids of the data table are 1, ..., n, as they are
    while rows are only appended.  Then [_update_globalinfo] returns, and
    [globalinfo()] after it has the same keys, and under every key other than
    ["ValidSets"] and ["TRAI"] the value it had before.  ["ValidSets"], when
    it is a key, then reads as n, which is what [rows()] returns, except on
    the empty table, where it reads as [None] and [rows()] is 0. *)
Theorem recompute_then_globalinfo other st c g data ik iv info0 n :
  _readonly (self st) = false ->
  _connected (self st) = true ->
  _connection (self st) = Some c -> conn_closed c = false ->
  conn_writable c = true ->
  plain_tables (self st) ->
  find_table (conn_data c) (_table_prefix (self st) +:+ "_globalinfo") = Some g ->
  find_table (conn_data c) (_table_prefix (self st) +:+ "_data") = Some data ->
  summary_schema g data ->
  column_index (table_columns g) "Key" = Some ik ->
  column_index (table_columns g) "Value" = Some iv ->
  fst (globalinfo other st) = Returns info0 ->
  (has_key ik g "TRAI" = true ->
   is_Some (column_index (table_columns data) "TRAI") /\
   exists v, try_convert_string other (str (max_trai data)) = Returns v) ->
  map rowid (table_rows data) = map Z.of_nat (seq 1 n) ->
  exists st1 info,
    _update_globalinfo other st = (Returns tt, st1) /\
    fst (globalinfo other st1) = Returns info /\
    (forall k, k ∈ dom info <-> k ∈ dom info0) /\
    (forall k, k <> SqlText "ValidSets" -> k <> SqlText "TRAI" ->
               info !! k = info0 !! k) /\
    (SqlText "ValidSets" ∈ dom info0 ->
     info !! SqlText "ValidSets"
     = Some (match n with O => PyNone | S _ => PyInt (Z.of_nat n) end)) /\
    fst (rows st1) = Returns (SqlInteger (Z.of_nat n)).
Proof.
  intros Hrw Hcon Hc Hopen Hw (_ & Hmain & _ & Hname & _) Hg Hd _ Hik Hiv Hinfo0 Htrai Hids.
  pose proof (column_index_distinct _ _ _ _ _ Hik Hiv eq_refl) as Hne.
  rewrite <- Hname in Hg.
  rewrite (globalinfo_run other ik iv st c g Hcon Hc Hopen Hg Hik Hiv) in Hinfo0.
  rewrite Hname in Hg. cbn [fst] in Hinfo0.
  destruct (globalinfo_dict other (map (key_value ik iv) (table_rows g)) ∅)
    as [d0|e0] eqn:Hd0; [| discriminate].
  injection Hinfo0 as ->.
  pose proof (globalinfo_dict_decodes other ik iv _ _ _ Hd0) as Hdec.
  pose proof (update_globalinfo_run other st c g data ik iv info0
                Hrw Hcon Hc Hopen Hw Hname Hg Hd Hik Hiv Hd0
                (fun H => proj1 (Htrai H))) as Hrun1.
  set (prefix := _table_prefix (self st)) in *.
  set (gname := prefix +:+ "_globalinfo") in *.
  set (g1 := recomputed ik iv data g) in *.
  set (c1 := with_data (update_table (conn_data c) gname g1) c) in *.
  match type of Hrun1 with _ = (_, ?s) => set (st1 := s) in * end.
  assert (Hdec1 : Forall (decodes other iv) (table_rows g1)).
  { apply recomputed_decodes; [exact Hne | exact Hdec |].
    intros H. exact (proj2 (Htrai H)). }
  destruct (globalinfo_dict_returns other ik iv _ ∅ Hdec1) as [info Hinfo].
  assert (Hg1 : find_table (conn_data c1) (_table_globalinfo (self st1)) = Some g1).
  { cbn [st1 self]. replace (_table_globalinfo _) with gname
      by (destruct (self st); exact (eq_sym Hname)).
    eapply find_table_update_same, Hg. }
  assert (Hd1 : find_table (conn_data c1) (_table_main (self st1)) = Some data).
  { cbn [st1 self]. replace (_table_main _) with (prefix +:+ "_data")
      by (destruct (self st); exact (eq_sym Hmain)).
    cbn [c1 conn_data with_data].
    rewrite find_table_update_other; [exact Hd | apply data_is_not_globalinfo]. }
  assert (Hcon1 : _connected (self st1) = true) by exact Hcon.
  assert (Hlen : length (table_rows data) = n).
  { rewrite <- (length_map rowid), Hids, length_map, length_seq. reflexivity. }
  exists st1, info. split; [exact Hrun1 |].
  split.
  { rewrite (globalinfo_run other ik iv st1 c1 g1 Hcon1 eq_refl Hopen Hg1 Hik Hiv).
    unfold g1 in Hinfo |- *. rewrite Hinfo. reflexivity. }
  split.
  { intros k.
    rewrite (globalinfo_dict_dom other ik iv _ _ _ Hinfo k),
            (globalinfo_dict_dom other ik iv _ _ _ Hd0 k).
    unfold g1. rewrite (recomputed_keys _ _ _ _ Hne). reflexivity. }
  split.
  { intros k Hv Ht.
    apply (globalinfo_dict_agree other ik iv k (table_rows g1) (table_rows g))
      with (d1 := ∅) (d2 := ∅); [| reflexivity | exact Hinfo | exact Hd0].
    apply Forall2_flip. unfold g1.
    eapply Forall2_impl; [apply (recomputed_rows ik iv data g Hne) |].
    intros r r' (_ & Hkey & _ & _ & _ & Hsame). cbn beta.
    destruct (decide (cell ik r = k)) as [Hk|Hk].
    - rewrite (Hsame ltac:(congruence) ltac:(congruence)). split; reflexivity.
    - split; [symmetry; exact Hkey |]. intros Hk'. congruence. }
  split.
  { intros Hvs.
    apply (globalinfo_dict_dom other ik iv _ _ _ Hd0) in Hvs as [Hvs|Hvs];
      [rewrite dom_empty in Hvs; inversion Hvs |].
    assert (Hlook : info !! SqlText "ValidSets"
                    = Some (match max_rowid data with
                            | SqlInteger m => PyInt m | _ => PyNone end)).
    { eapply (globalinfo_dict_lookup other ik iv _ ∅ info); [exact Hinfo | |].
      - intros r' Hr' Hk.
        destruct (recomputed_in _ _ _ _ _ Hne Hr') as (r & Hr & _ & Hkey & _ & Hv & _).
        rewrite Hkey in Hk. rewrite (Hv Hk). apply max_rowid_decodes.
      - right. unfold g1. rewrite (recomputed_keys _ _ _ _ Hne). exact Hvs. }
    rewrite Hlook. destruct n as [|n'].
    - destruct (table_rows data) eqn:Hrows; [| discriminate Hlen].
      unfold max_rowid. rewrite Hrows. reflexivity.
    - rewrite (max_rowid_contiguous data (S n') Hids) by lia.
      rewrite Hlen. reflexivity. }
  rewrite (rows_run st1 c1 data Hcon1 eq_refl Hopen Hd1), Hlen. reflexivity.
Qed.

Lemma recompute_then_globalinfo_witness :
  exists st1 info,
    _update_globalinfo Sample.no_other Cases.appended_writer = (Returns tt, st1) /\
    fst (globalinfo Sample.no_other st1) = Returns info /\
    info !! SqlText "ValidSets" = Some (PyInt 3) /\
    fst (rows st1) = Returns (SqlInteger 3).
Proof.
  destruct (globalinfo_dict_returns Sample.no_other 0 1
              (table_rows Sample.info) ∅) as [info0 Hinfo0].
  { repeat (constructor; [eexists; vm_compute; reflexivity |]). constructor. }
  destruct (recompute_then_globalinfo Sample.no_other Cases.appended_writer
              Cases.appended_connection Sample.info Cases.appended 0 1 info0 3
              eq_refl eq_refl eq_refl eq_refl eq_refl ltac:(repeat split)
              eq_refl eq_refl ltac:(repeat split) eq_refl eq_refl)
    as (st1 & info & H1 & H2 & _ & _ & H3 & H4).
  - rewrite (globalinfo_run Sample.no_other 0 1 Cases.appended_writer
               Cases.appended_connection Sample.info
               eq_refl eq_refl eq_refl eq_refl eq_refl eq_refl).
    rewrite Hinfo0. reflexivity.
  - intros _. split; eexists; vm_compute; reflexivity.
  - reflexivity.
  - exists st1, info. split; [exact H1 |]. split; [exact H2 |].
    split; [| exact H4]. apply H3.
    apply (globalinfo_dict_dom Sample.no_other 0 1 _ _ _ Hinfo0).
    right. vm_compute. set_solver.
Defined.

(** *** The tables the constructor does not check *)

Lemma globalinfo_missing_run other st c :
  _connected (self st) = true ->
  _connection (self st) = Some c -> conn_closed c = false ->
  find_table (conn_data c) (_table_globalinfo (self st)) = None ->
  globalinfo other st
  = (Raises (no_such_table (_table_globalinfo (self st))),
     logged (Call_execute (SELECT_Key_Value (_table_globalinfo (self st)))) st).
Proof.
  intros H0 H1 H2 Hg. unfold globalinfo.
  rewrite (bind_returns _ _ _ _ _ (connection_open_handle _ H0)).
  mstep. rewrite bind_run, (execute_select st c _ H1 H2); [| reflexivity].
  cbn [run_select]. rewrite Hg. reflexivity.
Qed.

Lemma parameter_table_missing_run st c :
  _connected (self st) = true ->
  _connection (self st) = Some c -> conn_closed c = false ->
  find_table (conn_data c) (_table_params (self st)) = None ->
  _parameter_table st
  = (Raises (no_such_table (_table_params (self st))),
     logged (Call_execute (SELECT_all (_table_params (self st)))) st).
Proof.
  intros H0 H1 H2 Ht. unfold _parameter_table.
  rewrite (bind_returns _ _ _ _ _ (connection_open_handle _ H0)).
  mstep. rewrite bind_run. unfold read_sql_generator.
  rewrite bind_run, (execute_select st c _ H1 H2); [| reflexivity].
  cbn [run_select]. rewrite Ht. reflexivity.
Qed.

(** X15: the constructor checks the data table only, and the other tables are
    looked up when they are used.  On a live handle with a plain table prefix
    whose database has no globalinfo table, [globalinfo()] raises the engine's
    [OperationalError] for the missing table; on a write handle so do
    [_update_globalinfo] and hence [close()], which leaves the handle
    connected and the files as they were.  Without the parameter table [_parameter_table()] raises it, and
    [_parameter(id)] lets it through for every id: only a [KeyError] is turned
    into the not-found [ValueError]. *)
Theorem unchecked_tables_raise_on_use other st c :
  _connected (self st) = true ->
  _connection (self st) = Some c -> conn_closed c = false ->
  plain_tables (self st) ->
  (find_table (conn_data c) (_table_globalinfo (self st)) = None ->
   fst (globalinfo other st) = Raises (no_such_table (_table_globalinfo (self st))) /\
   (_readonly (self st) = false ->
    fst (_update_globalinfo other st)
    = Raises (no_such_table (_table_globalinfo (self st))) /\
    fst (close other st) = Raises (no_such_table (_table_globalinfo (self st))) /\
    self (snd (close other st)) = self st /\
    files (snd (close other st)) = files st)) /\
  (find_table (conn_data c) (_table_params (self st)) = None ->
   fst (_parameter_table st) = Raises (no_such_table (_table_params (self st))) /\
   forall param_id,
     fst (_parameter param_id st) = Raises (no_such_table (_table_params (self st)))).
Proof.
  intros H0 H1 H2 _. split.
  - intros Hg. pose proof (globalinfo_missing_run other st c H0 H1 H2 Hg) as Hrun.
    split; [rewrite Hrun; reflexivity |].
    intros Hrw.
    assert (Hu : _update_globalinfo other st
                 = (Raises (no_such_table (_table_globalinfo (self st))),
                    logged (Call_execute (SELECT_Key_Value (_table_globalinfo (self st))))
                           st)).
    { unfold _update_globalinfo, require_write_access. mstep. rewrite Hrw.
      rewrite bind_run, Hrun. reflexivity. }
    split; [rewrite Hu; reflexivity |].
    assert (Hc : close other st
                 = (Raises (no_such_table (_table_globalinfo (self st))),
                    logged (Call_execute (SELECT_Key_Value (_table_globalinfo (self st))))
                           st)).
    { unfold close. mstep. rewrite H0, Hrw. cbn [negb].
      rewrite bind_run, bind_run, Hu. reflexivity. }
    rewrite Hc. repeat split.
  - intros Ht. pose proof (parameter_table_missing_run st c H0 H1 H2 Ht) as Hrun.
    split; [rewrite Hrun; reflexivity |].
    intros param_id. unfold _parameter, try_except_KeyError.
    rewrite bind_run, Hrun. reflexivity.
Qed.

Lemma unchecked_tables_raise_on_use_witness :
  fst (_parameter 1 Cases.texts_reader)
  = Raises (OperationalError "no such table: pri_params").
Proof.
  destruct (unchecked_tables_raise_on_use Sample.no_other Cases.texts_reader
              {| conn_file := Some "texts.pridb"; conn_writable := false;
                 check_same_thread := false; conn_pragmas := [];
                 conn_data := Sample.texts; conn_closed := false |}
              eq_refl eq_refl eq_refl ltac:(repeat split)) as [_ H].
  destruct (H eq_refl) as [_ Hp]. exact (Hp 1).
Defined.

(** *** The extension of a file name *)

Lemma split_on_nonempty c s : split_on c s <> [].
Proof.
  destruct s as [|a r]; cbn; [discriminate |].
  destruct (Ascii.eqb a c); [discriminate |].
  destruct (split_on c r); discriminate.
Qed.

Lemma split_on_app c s t :
  split_on c (s +:+ String c t) = (split_on c s ++ split_on c t)%list.
Proof.
  induction s as [|a r IH].
  - rewrite append_nil. cbn [split_on]. rewrite Ascii.eqb_refl. reflexivity.
  - rewrite append_cons. cbn [split_on]. rewrite IH.
    destruct (Ascii.eqb a c); [reflexivity |].
    pose proof (split_on_nonempty c r) as Hne.
    destruct (split_on c r) as [|h tl]; [contradiction | reflexivity].
Qed.

Lemma split_on_absent c s :
  all_chars (fun a => negb (Ascii.eqb a c)) s = true -> split_on c s = [s].
Proof.
  induction s as [|a r IH]; [reflexivity |].
  cbn [all_chars split_on]. intros [Ha Hr]%andb_prop.
  apply negb_true_iff in Ha. rewrite Ha, (IH Hr). reflexivity.
Qed.

Lemma rfind_absent c s :
  all_chars (fun a => negb (Ascii.eqb a c)) s = true -> rfind c s = -1.
Proof.
  induction s as [|a r IH]; [reflexivity |].
  cbn [all_chars rfind]. intros [Ha Hr]%andb_prop.
  apply negb_true_iff in Ha. rewrite (IH Hr), Ha. reflexivity.
Qed.

Lemma rfind_last c s t :
  all_chars (fun a => negb (Ascii.eqb a c)) t = true ->
  rfind c (s +:+ String c t) = len s.
Proof.
  intros Ht. induction s as [|a r IH].
  - rewrite append_nil. cbn [rfind]. rewrite (rfind_absent _ _ Ht), Ascii.eqb_refl.
    reflexivity.
  - rewrite append_cons. cbn [rfind]. rewrite IH.
    unfold len. cbn [String.length].
    destruct (Z.leb_spec 0 (Z.of_nat (String.length r))); lia.
Qed.

Lemma length_append s t :
  String.length (s +:+ t) = (String.length s + String.length t)%nat.
Proof.
  induction s as [|a r IH]; [reflexivity |].
  rewrite append_cons. cbn [String.length]. rewrite IH. reflexivity.
Qed.

Lemma substring_whole s : substring 0 (String.length s) s = s.
Proof. induction s as [|a r IH]; cbn; [reflexivity | rewrite IH; reflexivity]. Qed.

Lemma substring_skip s t :
  substring (String.length s) (String.length t) (s +:+ t) = t.
Proof.
  induction s as [|a r IH].
  - rewrite append_nil. apply substring_whole.
  - rewrite append_cons. exact IH.
Qed.

Lemma slice_from_append s t : slice_from (len s) (s +:+ t) = t.
Proof.
  unfold slice_from, len. rewrite Nat2Z.id, length_append.
  replace (String.length s + String.length t - String.length s)%nat
    with (String.length t) by lia.
  apply substring_skip.
Qed.

Lemma all_chars_no_slash_dot e :
  all_chars (fun a => negb (Ascii.eqb a "/" || Ascii.eqb a ".")) e = true ->
  all_chars (fun a => negb (Ascii.eqb a "/")) e = true /\
  all_chars (fun a => negb (Ascii.eqb a ".")) e = true.
Proof.
  intros H. split; revert H; apply all_chars_weaken; intros a;
    destruct (Ascii.eqb a "/"), (Ascii.eqb a "."); cbn; congruence.
Qed.

(** The name of a path: what follows the last slash, when that is a name. *)
Lemma path_name_last pre name :
  pre = "" \/ (exists d, pre = d +:+ "/") ->
  all_chars (fun a => negb (Ascii.eqb a "/")) name = true ->
  name <> "" -> name <> "." ->
  path_name (pre +:+ name) = name.
Proof.
  intros Hpre Hn Hne Hdot.
  assert (Hkeep : negb (String.eqb name "" || String.eqb name ".") = true).
  { destruct (String.eqb_spec name ""); [contradiction |].
    destruct (String.eqb_spec name "."); [contradiction | reflexivity]. }
  unfold path_name, path_parts. destruct Hpre as [->|[d ->]].
  - rewrite append_nil, (split_on_absent _ _ Hn). cbn [List.filter].
    rewrite Hkeep. reflexivity.
  - replace ((d +:+ "/") +:+ name) with (d +:+ String "/" name).
    2:{ clear. induction d as [|a r IH]; [reflexivity |].
        rewrite !append_cons, IH. reflexivity. }
    rewrite split_on_app, (split_on_absent _ _ Hn), List.filter_app.
    cbn [List.filter]. rewrite Hkeep. apply List.last_last.
Qed.

(** X16: the extension [__init__] compares is read off the last component of
    the path.  For a file name that ends, after its last slash if it has one,
    in [stem.e] with a non-empty stem and a non-empty [e] without a dot, the
    extension is [e], whatever the directories before it; so with a required
    extension the constructor goes on exactly when [e] equals it after
    [str.lower()] on both, and otherwise raises the extension [ValueError]
    that quotes [e], before any engine call.  A last component without a dot
    has the empty extension. *)
Theorem init_extension_of_last_component {RT : Runtime} pre stem e :
  pre = "" \/ (exists d, pre = d +:+ "/") ->
  all_chars (fun a => negb (Ascii.eqb a "/")) stem = true -> stem <> "" ->
  all_chars (fun a => negb (Ascii.eqb a "/" || Ascii.eqb a ".")) e = true ->
  (e <> "" ->
   slice_from 1 (path_suffix (pre +:+ stem +:+ "." +:+ e)) = e /\
   forall fs prefix ro ext,
     new_Database fs (pre +:+ stem +:+ "." +:+ e) prefix ro (Some ext)
     = if String.eqb (str_lower e) (str_lower ext)
       then new_Database fs (pre +:+ stem +:+ "." +:+ e) prefix ro None
       else (Raises (extension_mismatch e ext),
             {| self := set_filename (pre +:+ stem +:+ "." +:+ e) ro blank_object;
                files := fs; calls := [] |})) /\
  (all_chars (fun a => negb (Ascii.eqb a ".")) stem = true ->
   slice_from 1 (path_suffix (pre +:+ stem)) = "").
Proof.
  intros Hpre Hstem Hne He.
  apply all_chars_no_slash_dot in He as [Hes Hed]. split.
  - intros Hee.
    set (name := stem +:+ "." +:+ e).
    assert (Hname : path_name (pre +:+ name) = name).
    { apply path_name_last; [exact Hpre | | |].
      - unfold name. rewrite all_chars_app, Hstem. cbn [andb].
        change ("." +:+ e) with (String "." e). cbn [all_chars]. exact Hes.
      - unfold name. destruct stem; [contradiction | discriminate].
      - unfold name. destruct stem as [|a [|b r]]; [contradiction | |].
        + destruct e; [contradiction | discriminate].
        + discriminate. }
    assert (Hext : slice_from 1 (path_suffix (pre +:+ name)) = e).
    { unfold path_suffix. rewrite Hname. unfold name.
      change ("." +:+ e) with (String "." e).
      rewrite (rfind_last _ _ _ Hed).
      assert (H0 : 0 < len stem)
        by (unfold len; destruct stem; [contradiction | cbn [String.length]; lia]).
      assert (H1 : len stem < len (stem +:+ String "." e) - 1).
      { unfold len. rewrite length_append. cbn [String.length].
        destruct e; [contradiction | cbn [String.length]; lia]. }
      apply Z.ltb_lt in H0, H1. rewrite H0, H1. cbn [andb].
      rewrite slice_from_append.
      apply (slice_from_append "." e). }
    split; [exact Hext |].
    intros fs prefix ro ext.
    destruct (String.eqb_spec (str_lower e) (str_lower ext)) as [E|E].
    + apply init_extension_accepted. fold name. rewrite Hext. exact E.
    + pose proof (init_extension_mismatch fs (pre +:+ name) prefix ro ext) as Hm.
      rewrite Hext in Hm. exact (Hm E).
  - intros Hnodot.
    assert (Hname : path_name (pre +:+ stem) = stem).
    { apply path_name_last; [exact Hpre | exact Hstem | exact Hne |].
      intros ->. discriminate Hnodot. }
    unfold path_suffix. rewrite Hname, (rfind_absent _ _ Hnodot). reflexivity.
Qed.

Lemma init_extension_of_last_component_witness :
  slice_from 1 (path_suffix "runs/2020/sample.pridb") = "pridb" /\
  fst (new_Database Sample.disk "runs/2020/sample.pridb" "pri" true (Some "TRADB"))
  = Raises (extension_mismatch "pridb" "TRADB").
Proof.
  destruct (init_extension_of_last_component "runs/2020/" "sample" "pridb")
    as [H _].
  - right. exists "runs/2020". reflexivity.
  - reflexivity.
  - discriminate.
  - reflexivity.
  - destruct (H ltac:(discriminate)) as [H1 H2].
    split; [exact H1 |].
    change "runs/2020/sample.pridb"
      with ("runs/2020/" +:+ "sample" +:+ "." +:+ "pridb").
    rewrite (H2 Sample.disk "pri" true "TRADB"). reflexivity.
Defined.

(** *** Leaving a [with] block, and the finalizer *)

Lemma commit_raises_inv st e st' :
  commit st = (Raises e, st') -> files st' = files st.
Proof.
  unfold commit. mstep. rewrite bind_run.
  destruct (open_connection (logged Call_commit st)) as [[c|e0] st1] eqn:Ho;
    apply open_connection_inv in Ho as [-> _].
  - destruct (conn_file c); [destruct (conn_writable c) |]; unfold ret;
      intros [= <-].
  - intros [= <- <-]. reflexivity.
Qed.

(** X17: how [close()] ends, and with it [__exit__], which is [close()], and
    [__del__], which runs [close()] and drops its exception.  When [close()]
    returns, the handle is not connected, and leaving a [with] block or
    finalizing the object afterwards does nothing more.  [close()] raises
    only on a connected write handle, in the recompute or the commit before
    the engine's close: the handle is then still connected and no file was
    written; [__exit__] raises the same and [__del__] returns, leaving that
    state. *)
Theorem close_outcomes other st r st1 :
  close other st = (r, st1) ->
  match r with
  | Returns _ =>
      _connected (self st1) = false /\
      __exit__ other st1 = (Returns tt, st1) /\
      __del__ other st1 = (Returns tt, st1)
  | Raises e =>
      _connected (self st) = true /\ _readonly (self st) = false /\
      _connected (self st1) = true /\ files st1 = files st /\
      __exit__ other st = (Raises e, st1) /\
      __del__ other st = (Returns tt, st1)
  end.
Proof.
  intros H. destruct r as [[]|e].
  - pose proof (close_returns_disconnected other _ _ H) as Hoff.
    split; [exact Hoff |].
    pose proof (close_closed_handle other _ Hoff) as Hnop.
    split; [exact Hnop |].
    unfold __del__. rewrite Hnop. reflexivity.
  - assert (Hdel : __del__ other st = (Returns tt, st1))
      by (unfold __del__; rewrite H; reflexivity).
    assert (Hexit : __exit__ other st = (Raises e, st1)) by exact H.
    assert (Hmain : _connected (self st) = true /\ _readonly (self st) = false /\
                    _connected (self st1) = true /\ files st1 = files st).
    { clear Hdel Hexit. revert H. unfold close. mstep.
      destruct (_connected (self st)) eqn:Hcon; [| discriminate].
      destruct (_readonly (self st)) eqn:Hro; cbn [negb].
      - mstep. rewrite bind_run.
        destruct (connection_close st) as [[[]|e0] s3] eqn:Hc;
          apply connection_close_inv in Hc as (Hr & _); discriminate.
      - rewrite bind_run, bind_run.
        destruct (_update_globalinfo other st) as [[[]|e0] s1] eqn:Hu;
          pose proof (update_globalinfo_attrs _ _ _ _ Hu) as (_ & Hc1 & _);
          pose proof (update_globalinfo_keeps_keys _ _ _ _ Hu) as [Hf1 _].
        + destruct (commit s1) as [[[]|e1] s2] eqn:Hm.
          * rewrite bind_run.
            destruct (connection_close s2) as [[[]|e2] s3] eqn:Hc;
              apply connection_close_inv in Hc as (Hr & _); discriminate.
          * pose proof (commit_inv _ _ _ Hm) as Hs2.
            pose proof (commit_raises_inv _ _ _ Hm) as Hf2.
            intros [= <- <-].
            split; [reflexivity |]. split; [reflexivity |].
            split; congruence.
        + intros [= <- <-].
          split; [reflexivity |]. split; [reflexivity |].
          split; congruence. }
    destruct Hmain as (M1 & M2 & M3 & M4).
    split; [exact M1 |]. split; [exact M2 |]. split; [exact M3 |].
    split; [exact M4 |]. split; [exact Hexit | exact Hdel].
Qed.

Lemma close_outcomes_witness :
  __exit__ Sample.no_other Cases.texts_writer
  = (Raises malformed_node, snd (close Sample.no_other Cases.texts_writer)) /\
  _connected (self (snd (close Sample.no_other Cases.texts_writer))) = true /\
  fst (__del__ Sample.no_other Cases.texts_writer) = Returns tt.
Proof.
  assert (H : close Sample.no_other Cases.texts_writer
              = (Raises malformed_node, snd (close Sample.no_other Cases.texts_writer)))
    by (vm_compute; reflexivity).
  destruct (close_outcomes Sample.no_other Cases.texts_writer _ _ H)
    as (_ & _ & Hcon & _ & Hexit & Hdel).
  split; [exact Hexit |]. split; [exact Hcon |]. rewrite Hdel. reflexivity.
Defined.

(** *** The recompute that fails at its second statement *)

(** X18: the two statements of the recompute are not one step.  On a live
    write handle with a plain table prefix, on the schema the statements are
    meant for (no column of globalinfo named like the two keys, no column of
    the data table named [rowid]), whose globalinfo values convert and hold
    the key ["TRAI"], and whose data table has no TRAI column,
    [_update_globalinfo] raises the engine's error for the missing column at
    the second statement; the first, for ["ValidSets"], has then taken effect
    in what the connection sees: a row with that Key reads as the largest
    rowid of the data table, and every other row is as it was.  Nothing is
    committed: the files are as before, and [close()] raises the same error
    and leaves the handle connected. *)
Theorem recompute_stops_at_TRAI other st c g data ik iv :
  _readonly (self st) = false ->
  _connected (self st) = true ->
  _connection (self st) = Some c -> conn_closed c = false ->
  conn_writable c = true ->
  plain_tables (self st) ->
  find_table (conn_data c) (_table_prefix (self st) +:+ "_globalinfo") = Some g ->
  find_table (conn_data c) (_table_prefix (self st) +:+ "_data") = Some data ->
  summary_schema g data ->
  column_index (table_columns g) "Key" = Some ik ->
  column_index (table_columns g) "Value" = Some iv ->
  Forall (decodes other iv) (table_rows g) ->
  has_key ik g "TRAI" = true ->
  column_index (table_columns data) "TRAI" = None ->
  exists st1,
    _update_globalinfo other st = (Raises (no_such_column "TRAI"), st1) /\
    close other st = (Raises (no_such_column "TRAI"), st1) /\
    _connected (self st1) = true /\
    files st1 = files st /\
    (exists g1 vmax,
       find_table (session st1) (_table_prefix (self st) +:+ "_globalinfo") = Some g1 /\
       table_columns g1 = table_columns g /\
       Forall2 (fun r r1 =>
                  rowid r1 = rowid r /\ cell ik r1 = cell ik r /\
                  (forall j, j <> iv -> cell j r1 = cell j r) /\
                  (cell ik r = SqlText "ValidSets" -> str (cell iv r1) = str vmax) /\
                  (cell ik r <> SqlText "ValidSets" -> r1 = r))
               (table_rows g) (table_rows g1) /\
       ((table_rows data = [] /\ vmax = SqlNull) \/
        (exists m, vmax = SqlInteger m /\
                   (forall r, In r (table_rows data) -> rowid r <= m) /\
                   (exists r, In r (table_rows data) /\ rowid r = m)))) /\
    calls st1
    = (calls st
       ++ Call_execute (SELECT_Key_Value (_table_prefix (self st) +:+ "_globalinfo"))
       :: (if has_key ik g "ValidSets"
           then [Call_execute
                   (UPDATE_globalinfo (_table_prefix (self st)) MAX_rowid "ValidSets")]
           else [])
       ++ [Call_execute
             (UPDATE_globalinfo (_table_prefix (self st)) (MAX_column "TRAI") "TRAI")])%list.
Proof.
  intros Hrw Hcon Hc Hopen Hw (_ & _ & _ & Hname & _) Hg Hd _ Hik Hiv Hdec Hkey Hcol.
  pose proof (column_index_distinct _ _ _ _ _ Hik Hiv eq_refl) as Hne.
  destruct (globalinfo_dict_returns other ik iv _ ∅ Hdec) as [info Hinfo].
  set (prefix := _table_prefix (self st)) in *.
  set (gname := prefix +:+ "_globalinfo") in *.
  set (g1 := update_rows ik iv "ValidSets" (max_rowid data) g).
  set (c1 := with_data (update_table (conn_data c) gname g1) c).
  assert (Hu : exists st1,
             _update_globalinfo other st = (Raises (no_such_column "TRAI"), st1) /\
             self st1 = set_connection (Some c1) (self st) /\
             files st1 = files st /\
             calls st1
             = (calls st ++ Call_execute (SELECT_Key_Value gname)
                :: (if has_key ik g "ValidSets"
                    then [Call_execute (UPDATE_globalinfo prefix MAX_rowid "ValidSets")]
                    else [])
                ++ [Call_execute (UPDATE_globalinfo prefix (MAX_column "TRAI") "TRAI")])%list).
  { unfold _update_globalinfo, require_write_access. mstep. rewrite Hrw.
    rewrite <- Hname in Hg.
    rewrite bind_run, (globalinfo_run other ik iv st c g Hcon Hc Hopen Hg Hik Hiv), Hinfo.
    rewrite Hname in Hg.
    mstep. rewrite !(key_in_info other g ik iv info Hinfo). fold prefix.
    rewrite Hkey. rewrite bind_run.
    rewrite (recompute_if (has_key ik g "ValidSets") _ c prefix MAX_rowid "ValidSets"
               g data ik iv (max_rowid data));
      [| exact Hcon | exact Hc | exact Hopen | exact Hw | exact Hg | exact Hd
       | exact Hik | exact Hiv | reflexivity | reflexivity ].
    fold gname g1 c1.
    match goal with |- context [(connection ;;; _) ?s] => set (s1 := s) end.
    assert (Hcon1 : _connected (self s1) = true) by exact Hcon.
    rewrite (bind_returns _ _ _ _ _ (connection_open_handle s1 Hcon1)).
    rewrite bind_run.
    rewrite (execute_update s1 c1 prefix (MAX_column "TRAI") "TRAI" eq_refl Hopen Hw).
    assert (Hrun : run_update (conn_data c1) prefix (MAX_column "TRAI") "TRAI"
                   = Raises (no_such_column "TRAI")).
    { unfold run_update. fold gname. cbn [c1 conn_data with_data].
      rewrite (find_table_update_same _ _ _ _ Hg). cbn [g1 update_rows table_columns].
      rewrite Hiv.
      rewrite find_table_update_other; [| apply data_is_not_globalinfo].
      rewrite Hd. cbn [eval_aggregate]. rewrite Hcol. reflexivity. }
    rewrite Hrun. eexists. split; [reflexivity |].
    subst s1. unfold logged. cbn [self files calls].
    split; [reflexivity |]. split; [reflexivity |].
    rewrite Hname. repeat (rewrite <- app_assoc || rewrite <- app_comm_cons).
    reflexivity. }
  destruct Hu as (st1 & Hu & Hs & Hf & Hcalls).
  exists st1. split; [exact Hu |].
  split.
  { unfold close. mstep. rewrite Hcon, Hrw. cbn [negb].
    rewrite bind_run, bind_run, Hu. reflexivity. }
  split; [rewrite Hs; exact Hcon |].
  split; [exact Hf |].
  split; [| exact Hcalls].
  exists g1, (max_rowid data).
  split.
  { unfold session. rewrite Hs. cbn [_connection set_connection c1 conn_data with_data].
    eapply find_table_update_same, Hg. }
  split; [reflexivity |]. split.
  - unfold g1, update_rows. cbn [table_rows]. apply Forall2_map_self. intros r.
    rewrite update_row_eq.
    destruct (decide (cell ik r = SqlText "ValidSets")) as [E|E].
    + split; [reflexivity |].
      split; [apply cell_set_cell_other, Hne |].
      split; [intros j Hj; apply cell_set_cell_other, Hj |].
      split; [intros _; rewrite cell_set_cell_same; reflexivity | contradiction].
    + split; [reflexivity |]. split; [reflexivity |].
      split; [reflexivity |]. split; [contradiction | reflexivity].
  - unfold max_rowid.
    destruct (max_rowid_spec (table_rows data)) as [[He ->]|(m & -> & Hub & Hmem)].
    + left. split; [exact He | reflexivity].
    + right. exists m. split; [reflexivity |]. split; [exact Hub | exact Hmem].
Qed.

Lemma recompute_stops_at_TRAI_witness :
  exists st1,
    close Sample.no_other Cases.untraced_writer
    = (Raises (OperationalError "no such column: TRAI"), st1) /\
    _connected (self st1) = true /\
    files st1 = files Cases.untraced_writer.
Proof.
  destruct (recompute_stops_at_TRAI Sample.no_other Cases.untraced_writer
              Cases.untraced_connection Sample.info Cases.untraced 0 1
              eq_refl eq_refl eq_refl eq_refl eq_refl ltac:(repeat split)
              eq_refl eq_refl ltac:(repeat split) eq_refl eq_refl)
    as (st1 & _ & Hclose & Hcon & Hf & _).
  - repeat (constructor; [eexists; vm_compute; reflexivity |]). constructor.
  - vm_compute. reflexivity.
  - reflexivity.
  - exists st1. split; [exact Hclose |]. split; [exact Hcon | exact Hf].
Defined.

(** *** Construction on a store without the data table *)

(** How [close()] ends on an object whose connection is open: when it
    returns the flag is false, and when it raises the object is still
    connected, on a connection that is still open. *)
Lemma close_ends other st r st1 c :
  _connection (self st) = Some c -> conn_closed c = false ->
  close other st = (r, st1) ->
  match r with
  | Returns _ => _connected (self st1) = false
  | Raises _ =>
      _connected (self st1) = true /\
      exists c1, _connection (self st1) = Some c1 /\ conn_closed c1 = false
  end.
Proof.
  intros Hc Hopen H. destruct r as [[]|e].
  - exact (close_returns_disconnected other _ _ H).
  - revert H. unfold close. mstep.
    destruct (_connected (self st)) eqn:Hcon; [| discriminate].
    destruct (_readonly (self st)) eqn:Hro; cbn [negb].
    + mstep. rewrite bind_run.
      destruct (connection_close st) as [[[]|e0] s3] eqn:Hcl;
        apply connection_close_inv in Hcl as (Hr & _); discriminate.
    + rewrite bind_run, bind_run.
      assert (Hkeep : forall r1 s1,
                 _update_globalinfo other st = (r1, s1) ->
                 _connected (self s1) = true /\
                 exists c1, _connection (self s1) = Some c1 /\ conn_closed c1 = false).
      { intros r1 s1 Hu.
        pose proof (update_globalinfo_attrs _ _ _ _ Hu) as (_ & Hc1 & Hl).
        split; [congruence |]. rewrite Hc in Hl.
        destruct (_connection (self s1)) as [c1|]; [| contradiction].
        exists c1. split; [reflexivity |].
        destruct Hl as (_ & _ & _ & _ & Hl). congruence. }
      destruct (_update_globalinfo other st) as [[[]|e0] s1] eqn:Hu;
        destruct (Hkeep _ _ eq_refl) as (Hc1 & c1 & Hs1 & Ho1).
      * destruct (commit s1) as [[[]|e1] s2] eqn:Hm.
        -- rewrite bind_run.
           destruct (connection_close s2) as [[[]|e2] s3] eqn:Hcl;
             apply connection_close_inv in Hcl as (Hr & _); discriminate.
        -- pose proof (commit_inv _ _ _ Hm) as Hs2.
           intros [= <- <-]. rewrite Hs2.
           split; [exact Hc1 |]. exists c1. split; [exact Hs1 | exact Ho1].
      * intros [= <- <-].
        split; [exact Hc1 |]. exists c1. split; [exact Hs1 | exact Ho1].
Qed.

(** C2, as the code has it: for a plain file name (one the URI keeps as it
    is) on a store that has no data table [<prefix>_data], and with the
    extension requirement met if there is one, construction fails with the
    main-table [ValueError] (SchemaError), and [__init__] closes nothing on
    the way out: where it raises, the connected flag is true and the
    connection is open at the engine.  A later [close()] on a read-only object
    returns, closes the connection and clears the flag.  On a write object
    [close()] runs the recompute first: it clears the flag when it returns,
    and when it raises the object stays connected, on a connection that is
    still open. *)
Theorem init_without_main_table {RT : Runtime} other fs f db prefix ro ext :
  extension_ok f ext ->
  uri_plain f = true -> fs !! f = Some db ->
  prefix +:+ "_data" ∉ map fst db ->
  exists st c,
    new_Database fs f prefix ro ext
    = (Raises (main_table_missing (prefix +:+ "_data")), st) /\
    _connected (self st) = true /\
    _connection (self st) = Some c /\ conn_closed c = false /\
    (ro = true ->
     exists st2 c2,
       close other st = (Returns tt, st2) /\
       _connected (self st2) = false /\
       _connection (self st2) = Some c2 /\ conn_closed c2 = true) /\
    (ro = false ->
     forall r st2,
       close other st = (r, st2) ->
       match r with
       | Returns _ => _connected (self st2) = false
       | Raises _ =>
           _connected (self st2) = true /\
           exists c2, _connection (self st2) = Some c2 /\ conn_closed c2 = false
       end).
Proof.
  intros He Hp Hf Hin.
  rewrite (init_extension_ok _ _ _ _ _ He), (init_plain_run _ _ _ _ Hp), Hf.
  rewrite (bool_decide_eq_false_2 _ Hin).
  eexists _, _. split; [reflexivity |].
  split; [reflexivity |]. split; [reflexivity |]. split; [reflexivity |].
  split.
  - intros ->. eexists _, _.
    split; [apply close_readonly_run; reflexivity |].
    split; [reflexivity |]. split; reflexivity.
  - intros _ r st2. apply close_ends with (c := {| conn_file := Some f;
      conn_writable := negb ro; check_same_thread := negb ro;
      conn_pragmas := (if ro then [] else write_mode_pragmas);
      conn_data := db; conn_closed := false |}); reflexivity.
Qed.

Lemma init_without_main_table_witness :
  (exists st,
     new_Database Sample.disk "headless.pridb" "pri" true (Some "PRIDB")
     = (Raises (main_table_missing "pri_data"), st) /\
     _connected (self st) = true /\
     fst (close Sample.no_other st) = Returns tt /\
     _connected (self (snd (close Sample.no_other st))) = false) /\
  (exists st,
     new_Database Sample.disk "headless.pridb" "pri" false (Some "PRIDB")
     = (Raises (main_table_missing "pri_data"), st) /\
     _connected (self st) = true /\
     fst (close Sample.no_other st) = Raises (no_such_table "pri_data") /\
     _connected (self (snd (close Sample.no_other st))) = true).
Proof.
  assert (Hext : extension_ok "headless.pridb" (Some "PRIDB")).
  { vm_compute. reflexivity. }
  assert (Hin : "pri" +:+ "_data" ∉ map fst Sample.headless).
  { vm_compute. intros H. repeat (apply elem_of_cons in H as [H|H]; [discriminate |]).
    inversion H. }
  split.
  - destruct (init_without_main_table Sample.no_other Sample.disk "headless.pridb"
                Sample.headless "pri" true (Some "PRIDB") Hext eq_refl eq_refl Hin)
      as (st & c & H & Hc & _ & _ & Hro & _).
    destruct (Hro eq_refl) as (st2 & c2 & Hclose & Hoff & _).
    exists st. split; [exact H |]. split; [exact Hc |].
    rewrite Hclose. split; [reflexivity | exact Hoff].
  - destruct (init_without_main_table Sample.no_other Sample.disk "headless.pridb"
                Sample.headless "pri" false (Some "PRIDB") Hext eq_refl eq_refl Hin)
      as (st & c & H & Hc & _ & _ & _ & Hrw).
    assert (Hr : fst (close Sample.no_other st) = Raises (no_such_table "pri_data")).
    { replace st with (snd (new_Database Sample.disk "headless.pridb" "pri" false
                                         (Some "PRIDB")))
        by (rewrite H; reflexivity).
      vm_compute. reflexivity. }
    exists st. split; [exact H |]. split; [exact Hc |]. split; [exact Hr |].
    specialize (Hrw eq_refl _ _ (surjective_pairing _)). rewrite Hr in Hrw.
    exact (proj1 Hrw).
Defined.
